(** * RefugeLink message pipeline: a shallow embedding and its properties

    The development follows the TypeScript sources

      - [src/services/MessageService.ts]   (MessageService, DialogflowService)
      - [src/utils/responseFormatter.ts]   (ResponseFormatter)
      - [src/services/TwilioService.ts]    (TwilioService)
      - [src/repositories/*.ts]            (the three repositories)
      - [src/utils/constants.ts]
      - [src/middleware/errorHandler.ts]   (validateTwilioWebhook, twilioWebhookValidator)
      - [src/middleware/requestValidator.ts] (validateTwilioWebhookPayload)

    A string is a [Stdlib.String.string] holding the UTF-8 bytes of the
    text, as the webhook delivers it and as [Buffer.from] reads it; the
    bullet and siren glyphs of the formatter's literals are their bytes.
    What JavaScript does by character is done by character on those bytes:
    [trim] knows the white space of ECMAScript, [utf16Length] counts UTF-16
    code units, [toLowerCase] knows the characters whose lower case holds an
    ASCII letter.  Where the sources cut a phone address or a signature
    for the logs ([slice], and the [length] tests that guard it) and where
    they match the digits of an address, the byte is taken for the
    character, which it is for the ASCII these are made of.

    The outside world is a [World]: what the database and the remote NLU
    reply.  No query is made twice within one block of [getResponse], so
    one [World] holds the replies of a block; the [try] block and the
    [catch] block of [getResponse] each get their own. *)

From Stdlib Require Import String Ascii List ZArith NArith Bool Lia.
From Stdlib Require Import DecimalString.
From Stdlib Require Import Sorted Permutation.
Import ListNotations.

Open Scope string_scope.

(* ------------------------------------------------------------------ *)
(** ** JavaScript string primitives used by the sources               *)
(* ------------------------------------------------------------------ *)

Module JsString.

(** White space for [String.prototype.trim] (WhiteSpace and LineTerminator
    of ECMAScript), by the bytes of its UTF-8 form.  One byte: TAB, LF, VT,
    FF, CR, SP. *)
Definition isWhite (c : ascii) : bool :=
  let n := nat_of_ascii c in
  ((9 <=? n) && (n <=? 13))%nat || (n =? 32)%nat.

(** Two bytes: U+00A0. *)
Definition isWhite2 (a b : ascii) : bool :=
  ((nat_of_ascii a =? 194) && (nat_of_ascii b =? 160))%nat.

(** Three bytes: U+1680, U+2000 to U+200A, U+2028, U+2029, U+202F, U+205F,
    U+3000 and U+FEFF. *)
Definition isWhite3 (a b c : ascii) : bool :=
  let x := nat_of_ascii a in
  let y := nat_of_ascii b in
  let z := nat_of_ascii c in
  (((x =? 225) && (y =? 154) && (z =? 128))
   || ((x =? 226) && (y =? 128)
       && (((128 <=? z) && (z <=? 138)) || (z =? 168) || (z =? 169) || (z =? 175)))
   || ((x =? 226) && (y =? 129) && (z =? 159))
   || ((x =? 227) && (y =? 128) && (z =? 128))
   || ((x =? 239) && (y =? 187) && (z =? 191)))%nat.

Definition lowerChar (c : ascii) : ascii :=
  let n := nat_of_ascii c in
  if ((65 <=? n) && (n <=? 90))%nat then ascii_of_nat (n + 32) else c.

(** U+0130, capital I with dot above. *)
Definition isDottedI (a b : ascii) : bool :=
  ((nat_of_ascii a =? 196) && (nat_of_ascii b =? 176))%nat.

(** U+212A, the Kelvin sign. *)
Definition isKelvin (a b c : ascii) : bool :=
  ((nat_of_ascii a =? 226) && (nat_of_ascii b =? 132) && (nat_of_ascii c =? 170))%nat.

(** U+0307, the combining dot above. *)
Definition combiningDot : string :=
  String (ascii_of_nat 204) (String (ascii_of_nat 135) EmptyString).

(** [s.toLowerCase()].  [A] to [Z] go to [a] to [z].  Outside ASCII two
    characters have a lower case that holds an ASCII letter: U+212A gives
    [k], and U+0130 gives [i] followed by U+0307.  Every other character is
    left as it is: its lower case, where it has one, holds no ASCII
    character, and the sources only search the result for ASCII keywords. *)
Fixpoint toLowerCase (s : string) : string :=
  match s with
  | EmptyString => EmptyString
  | String a s1 =>
      match s1 with
      | EmptyString => String (lowerChar a) EmptyString
      | String b s2 =>
          if isDottedI a b then String "i"%char (combiningDot ++ toLowerCase s2)
          else
            match s2 with
            | EmptyString => String (lowerChar a) (toLowerCase s1)
            | String c s3 =>
                if isKelvin a b c then String "k"%char (toLowerCase s3)
                else String (lowerChar a) (toLowerCase s1)
            end
      end
  end.

(** [s.trimStart()]: white-space characters are dropped from the front,
    whole characters at a time. *)
Fixpoint trimStart (s : string) : string :=
  match s with
  | EmptyString => EmptyString
  | String a s1 =>
      if isWhite a then trimStart s1
      else
        match s1 with
        | EmptyString => s
        | String b s2 =>
            if isWhite2 a b then trimStart s2
            else
              match s2 with
              | EmptyString => s
              | String c s3 => if isWhite3 a b c then trimStart s3 else s
              end
        end
  end.

(** [s.trimEnd()]: the text is cut where all that follows is white space. *)
Fixpoint trimEnd (s : string) : string :=
  match s with
  | EmptyString => EmptyString
  | String c s' => if trimStart s =? "" then EmptyString else String c (trimEnd s')
  end.

(** [s.trim()] *)
Definition trim (s : string) : string := trimEnd (trimStart s).

(** [s.length] of a text: its number of UTF-16 code units.  A character of
    one, two or three bytes is one unit, a character of four bytes is a
    surrogate pair. *)
Fixpoint utf16Length (s : string) : nat :=
  match s with
  | EmptyString => 0
  | String a s1 =>
      let n := nat_of_ascii a in
      if (n <? 192)%nat then S (utf16Length s1)
      else
        match s1 with
        | EmptyString => 1
        | String _ s2 =>
            if (n <? 224)%nat then S (utf16Length s2)
            else
              match s2 with
              | EmptyString => 1
              | String _ s3 =>
                  if (n <? 240)%nat then S (utf16Length s3)
                  else
                    match s3 with
                    | EmptyString => 2
                    | String _ s4 => S (S (utf16Length s4))
                    end
              end
        end
  end.

(** [s.includes(k)] *)
Fixpoint includes (k s : string) : bool :=
  if prefix k s then true
  else match s with
       | EmptyString => false
       | String _ s' => includes k s'
       end.

(** [s.slice(0, n)] *)
Definition slice0 (n : nat) (s : string) : string := substring 0 n s.

(** [s.slice(-n)] *)
Definition sliceLast (n : nat) (s : string) : string :=
  substring (String.length s - n) n s.

(** [xs.join(sep)] *)
Definition join (sep : string) (xs : list string) : string := String.concat sep xs.

(** Truthiness of a string value that may be [null]/[undefined]. *)
Definition truthy (o : option string) : bool :=
  match o with
  | Some s => negb (s =? "")
  | None => false
  end.

(** [`${n}`] for an integral number. *)
Definition ofZ (z : Z) : string := NilZero.string_of_int (Z.to_int z).

(** [`${x}`] for a nullable string. *)
Definition ofNullable (o : option string) : string :=
  match o with
  | Some s => s
  | None => "null"
  end.

(** [n] copies of [c]. *)
Fixpoint replicate (n : nat) (c : ascii) : string :=
  match n with
  | O => EmptyString
  | S n' => String c (replicate n' c)
  end.

End JsString.

(* ------------------------------------------------------------------ *)
(** ** [Buffer.from(s).toString('base64')]                             *)
(* ------------------------------------------------------------------ *)

Module Base64.

Definition alphabet : string :=
  "ABCDEFGHIJKLMNOPQRSTUVWXYZabcdefghijklmnopqrstuvwxyz0123456789+/".

(** The character of a six-bit value. *)
Definition digit (n : N) : ascii :=
  match get (N.to_nat n) alphabet with
  | Some c => c
  | None => "="%char
  end.

Definition d1 (a : ascii) : ascii := digit (N.shiftr (N_of_ascii a) 2).
Definition d2 (a b : ascii) : ascii :=
  digit (N.lor (N.shiftl (N.land (N_of_ascii a) 3) 4) (N.shiftr (N_of_ascii b) 4)).
Definition d3 (b c : ascii) : ascii :=
  digit (N.lor (N.shiftl (N.land (N_of_ascii b) 15) 2) (N.shiftr (N_of_ascii c) 6)).
Definition d4 (c : ascii) : ascii := digit (N.land (N_of_ascii c) 63).

(** Standard alphabet, three bytes to four characters, padded with [=]. *)
Fixpoint encode (s : string) : string :=
  match s with
  | EmptyString => EmptyString
  | String a EmptyString =>
      String (d1 a) (String (d2 a zero) "==")
  | String a (String b EmptyString) =>
      String (d1 a) (String (d2 a b) (String (d3 b zero) "="))
  | String a (String b (String c rest)) =>
      String (d1 a) (String (d2 a b) (String (d3 b c) (String (d4 c) (encode rest))))
  end.

End Base64.

Module SessionKey.
Import JsString.

(** [MessageService.generateSessionId]:
    [`user-${Buffer.from(userPhone).toString('base64').slice(0, 16)}`] *)
Definition generateSessionId (userPhone : string) : string :=
  "user-" ++ slice0 16 (Base64.encode userPhone).

(** [MessageService.maskPhoneNumber] *)
Definition maskPhoneNumber (phone : string) : string :=
  if (String.length phone <? 4)%nat then "***"
  else slice0 2 phone ++ "***" ++ sliceLast 2 phone.

End SessionKey.

Import JsString SessionKey.

(* ------------------------------------------------------------------ *)
(** ** Data model ([src/types/database.ts], [src/types/index.ts])      *)
(* ------------------------------------------------------------------ *)

Module Contact.
Record t := mk {
  id : Z;
  entity : string;
  phone : option string;
  email : option string;
  description : option string;
  type : string;
  is_urgent : bool;
  notes : option string
}.
End Contact.

Module Service.
Record t := mk {
  id : Z;
  category : string;
  organization : string;
  services : string;
  contact_phone : option string;
  contact_email : option string;
  location : option string;
  notes : option string
}.
End Service.

Module RegistrationStep.
Record t := mk {
  id : Z;
  step_number : Z;
  title : string;
  description : string;
  requirements : option string;
  estimated_duration : option string
}.
End RegistrationStep.

Module RequiredDocument.
Record t := mk {
  id : Z;
  document_name : string;
  description : option string;
  is_essential : bool;
  notes : option string
}.
End RequiredDocument.

(** [BotResponse]; the optional [metadata] map is never set by the pipeline. *)
Record BotResponse := mkBotResponse {
  message : string;
  quickReplies : option (list string)
}.

Definition textOnly (m : string) : BotResponse :=
  {| message := m; quickReplies := None |}.

(** [src/utils/constants.ts] *)
Module INTENT_NAMES.
Definition FIND_REGISTRATION := "find_registration".
Definition FIND_FOOD := "find_food".
Definition FIND_SHELTER := "find_shelter".
Definition FIND_HEALTHCARE := "find_healthcare".
Definition FIND_EMERGENCY_CONTACTS := "find_emergency_contacts".
Definition WELCOME := "welcome".
Definition FALLBACK := "Default Fallback Intent".
End INTENT_NAMES.

Module QUICK_REPLIES.
Definition REGISTRATION := ["Contact Details"; "Required Documents"; "Registration Steps"].
Definition FOOD := ["Settlement Info"; "WFP Contacts"; "Distribution Points"].
Definition HEALTHCARE := ["Emergency Number"; "Hospital Info"; "Settlement Clinics"].
Definition SHELTER := ["Settlement Info"; "WFP Contacts"; "Distribution Points"].
Definition GENERAL := ["More Info"; "Contact Support"; "Main Menu"].
End QUICK_REPLIES.

(* ------------------------------------------------------------------ *)
(** ** Effects: exceptions and an observable trace                     *)
(* ------------------------------------------------------------------ *)

(** A thrown [Error], identified by its message. *)
Definition Exn := string.

Inductive Outcome (A : Type) : Type :=
| Returned (a : A)
| Thrown (e : Exn).
Arguments Returned {A} a.
Arguments Thrown {A} e.

Inductive Level := Info | Warn | Error | Debug.

(** The three methods of the intent resolver whose entry is recorded. *)
Inductive Method :=
| GetResponse
| HandleMessageWithDialogflow
| HandleMessageWithBuiltInLogic.

Inductive Event :=
| Log (lvl : Level) (msg : string) (meta : list (string * string))
| Enter (m : Method)
| DetectIntent (session text : string)
| Select (table : string) (filter : option (string * string)).

(** A computation yields the events it emitted and how it ended. *)
Definition M (A : Type) : Type := (list Event * Outcome A)%type.

Definition ret {A} (a : A) : M A := ([], Returned a).

Definition throw {A} (e : Exn) : M A := ([], Thrown e).

Definition bind {A B} (m : M A) (k : A -> M B) : M B :=
  match m with
  | (t, Returned a) => let (t', r) := k a in ((t ++ t')%list, r)
  | (t, Thrown e) => (t, Thrown e)
  end.

(** [try { m } catch (e) { h e }] *)
Definition tryCatch {A} (m : M A) (h : Exn -> M A) : M A :=
  match m with
  | (t, Thrown e) => let (t', r) := h e in ((t ++ t')%list, r)
  | (t, Returned a) => (t, Returned a)
  end.

Definition emit (ev : Event) : M unit := ([ev], Returned tt).

Definition trace {A} (m : M A) : list Event := fst m.
Definition outcome {A} (m : M A) : Outcome A := snd m.

Declare Scope m_scope.
Delimit Scope m_scope with M.
Notation "x <- m ;; k" := (bind m (fun x => k))
  (at level 61, m at next level, right associativity) : m_scope.
Notation "m ;; k" := (bind m (fun _ => k))
  (at level 61, right associativity) : m_scope.
Open Scope m_scope.

(** [AppLogger.info/warn/error/debug] *)
Definition log (lvl : Level) (msg : string) (meta : list (string * string)) : M unit :=
  emit (Log lvl msg meta).

(** [await Promise.all([a, b, c])]: the three calls are all started, so all
    their events occur; the join rejects with the first rejection in array
    order, else yields the three values. *)
Definition promiseAll3 {A B C} (a : M A) (b : M B) (c : M C) : M (A * B * C) :=
  let t := (trace a ++ trace b ++ trace c)%list in
  match outcome a, outcome b, outcome c with
  | Returned x, Returned y, Returned z => (t, Returned (x, y, z))
  | Thrown e, _, _ => (t, Thrown e)
  | _, Thrown e, _ => (t, Thrown e)
  | _, _, Thrown e => (t, Thrown e)
  end.

Definition promiseAll2 {A B} (a : M A) (b : M B) : M (A * B) :=
  let t := (trace a ++ trace b)%list in
  match outcome a, outcome b with
  | Returned x, Returned y => (t, Returned (x, y))
  | Thrown e, _ => (t, Thrown e)
  | _, Thrown e => (t, Thrown e)
  end.

(* ------------------------------------------------------------------ *)
(** ** The outside world: the database and the remote NLU              *)
(* ------------------------------------------------------------------ *)

(** What a Supabase query resolves to: [{ data, error }]. *)
Record Reply (A : Type) := mkReply {
  data : option (list A);
  error : option string          (* [error.message] when [error] is set *)
}.
Arguments mkReply {A}.
Arguments data {A}.
Arguments error {A}.

(** [response.queryResult] of Dialogflow's [detectIntent]. *)
Record QueryResult := mkQueryResult {
  intent : option string;        (* [intent?.displayName] *)
  parameters : string;
  fulfillmentText : option string
}.

(** What the outside world replies during one run of a handler or of a
    path of the resolver: one reply per query, as no query is made twice in
    such a run.  The rows of a reply come in whatever order the database
    gives them. *)
Record World := mkWorld {
  registration_steps : Reply RegistrationStep.t;
  required_documents : Reply RequiredDocument.t;
  contacts_all : Reply Contact.t;
  contacts_by_type : string -> Reply Contact.t;
  services_by_category : string -> Reply Service.t;
  (** [sessionsClient.detectIntent(request)], by session path and text;
      [None] stands for a response without [queryResult]. *)
  detectIntent : string -> string -> Outcome (option QueryResult)
}.

Definition orEmpty {A} (d : option (list A)) : list A :=
  match d with Some l => l | None => [] end.

Definition count {A} (l : list A) : string := ofZ (Z.of_nat (List.length l)).

Module RegistrationStepRepository.

Definition getAllSteps (w : World) : M (list RegistrationStep.t) :=
  emit (Select "registration_steps" None) ;;
  let r := registration_steps w in
  match error r with
  | Some msg =>
      log Error "Failed to fetch registration steps" [("error", msg)] ;;
      throw ("Database error: " ++ msg)
  | None =>
      let steps := orEmpty (data r) in
      log Debug ("Fetched " ++ count steps ++ " registration steps") [] ;;
      ret steps
  end.

Definition getRequiredDocuments (w : World) : M (list RequiredDocument.t) :=
  emit (Select "required_documents" None) ;;
  let r := required_documents w in
  match error r with
  | Some msg =>
      log Error "Failed to fetch required documents" [("error", msg)] ;;
      throw ("Database error: " ++ msg)
  | None =>
      let docs := orEmpty (data r) in
      log Debug ("Fetched " ++ count docs ++ " required documents") [] ;;
      ret docs
  end.

End RegistrationStepRepository.

Module ContactRepository.

Definition getContactsByType (w : World) (type : string) : M (list Contact.t) :=
  emit (Select "contacts" (Some ("type", type))) ;;
  let r := contacts_by_type w type in
  match error r with
  | Some msg =>
      log Error "Failed to fetch contacts by type" [("error", msg); ("type", type)] ;;
      throw ("Database error: " ++ msg)
  | None =>
      let contacts := orEmpty (data r) in
      log Debug ("Fetched " ++ count contacts ++ " contacts of type: " ++ type) [] ;;
      ret contacts
  end.

Definition getAllContacts (w : World) : M (list Contact.t) :=
  emit (Select "contacts" None) ;;
  let r := contacts_all w in
  match error r with
  | Some msg =>
      log Error "Failed to fetch all contacts" [("error", msg)] ;;
      throw ("Database error: " ++ msg)
  | None =>
      let contacts := orEmpty (data r) in
      log Debug ("Fetched " ++ count contacts ++ " total contacts") [] ;;
      ret contacts
  end.

End ContactRepository.

Module ServiceRepository.

Definition getServicesByCategory (w : World) (category : string) : M (list Service.t) :=
  emit (Select "services" (Some ("category", category))) ;;
  let r := services_by_category w category in
  match error r with
  | Some msg =>
      log Error "Failed to fetch services by category"
        [("error", msg); ("category", category)] ;;
      throw ("Database error: " ++ msg)
  | None =>
      let services := orEmpty (data r) in
      log Debug ("Fetched " ++ count services ++ " services for category: " ++ category) [] ;;
      ret services
  end.

End ServiceRepository.

(* ------------------------------------------------------------------ *)
(** ** [Array.prototype] helpers                                       *)
(* ------------------------------------------------------------------ *)

Module JsArray.

Fixpoint insertBy {A} (cmp : A -> A -> Z) (x : A) (l : list A) : list A :=
  match l with
  | [] => [x]
  | y :: ys => if (cmp x y <=? 0)%Z then x :: l else y :: insertBy cmp x ys
  end.

(** The order [xs.sort(cmp)] leaves the elements in: a stable sort, equal
    elements keep their order (ECMAScript 2019). *)
Definition sortBy {A} (cmp : A -> A -> Z) (xs : list A) : list A :=
  fold_right (insertBy cmp) [] xs.

(** [xs.length === 0] *)
Definition isEmpty {A} (xs : list A) : bool := (List.length xs =? 0)%nat.

End JsArray.

(* ------------------------------------------------------------------ *)
(** ** [src/utils/responseFormatter.ts]                                *)
(* ------------------------------------------------------------------ *)

Module ResponseFormatter.
Import JsArray.

Definition nl : string := String (ascii_of_nat 10) EmptyString.

(** [a || b] on nullable strings. *)
Definition orElse (a b : option string) : option string :=
  if truthy a then a else b.

Definition stepLine (step : RegistrationStep.t) : string :=
  ofZ (RegistrationStep.step_number step) ++ ". " ++ RegistrationStep.title step
    ++ ": " ++ RegistrationStep.description step.

Definition documentLine (doc : RequiredDocument.t) : string :=
  "• " ++ RequiredDocument.document_name doc
    ++ (if RequiredDocument.is_essential doc then " (Essential)" else "").

Definition byStepNumber (a b : RegistrationStep.t) : Z :=
  (RegistrationStep.step_number a - RegistrationStep.step_number b)%Z.

(** [formatRegistrationResponse].  [steps.sort(...)] sorts the array it is
    called on, which is the caller's: the second component is what that
    array holds when the function returns.  [documents] and [contacts] are
    only read ([map] and [join] build new values). *)
Definition formatRegistrationResponse
    (steps : list RegistrationStep.t) (documents : list RequiredDocument.t)
    (contacts : list Contact.t) : BotResponse * list RegistrationStep.t :=
  let steps' := sortBy byStepNumber steps in
  let stepDescriptions := join nl (map stepLine steps') in
  let documentList := join nl (map documentLine documents) in
  let message :=
    "I can help with refugee registration. Here's the process:" ++ nl ++ nl
      ++ stepDescriptions ++ nl ++ nl ++ "Required Documents:" ++ nl
      ++ documentList ++ nl ++ nl
      ++ "Would you like more details about any specific step?" in
  ({| message := message; quickReplies := Some QUICK_REPLIES.REGISTRATION |}, steps').

Definition isFoodService (service : Service.t) : bool :=
  (Service.category service =? "Food") || includes "WFP" (Service.organization service).

Definition foodGuidance : string :=
  "Food assistance is primarily provided by the World Food Programme (WFP) to registered refugees in settlements. Please ensure you are registered with OPM to access these services.".

Definition foodLine (service : Service.t) : string :=
  "• " ++ Service.organization service ++ ": " ++ Service.services service
    ++ (if truthy (Service.location service)
        then " (" ++ ofNullable (Service.location service) ++ ")" else "").

(** [formatFoodResponse] *)
Definition formatFoodResponse (services : list Service.t) : BotResponse :=
  let foodServices := filter isFoodService services in
  if isEmpty foodServices then
    {| message := foodGuidance; quickReplies := Some QUICK_REPLIES.FOOD |}
  else
    let serviceInfo := join nl (map foodLine foodServices) in
    let message :=
      "Food assistance options:" ++ nl ++ nl ++ serviceInfo ++ nl ++ nl
        ++ "Note: Most food aid requires official registration and is distributed through settlements." in
    {| message := message; quickReplies := Some QUICK_REPLIES.FOOD |}.

Definition healthLine (service : Service.t) : string :=
  "• " ++ Service.organization service ++ ": " ++ Service.services service
    ++ (if truthy (Service.contact_phone service)
        then " - " ++ ofNullable (Service.contact_phone service) else "").

Definition hospitalLine (contact : Contact.t) : string :=
  "• " ++ Contact.entity contact ++ ": " ++ ofNullable (Contact.phone contact)
    ++ (if truthy (Contact.description contact)
        then " - " ++ ofNullable (Contact.description contact) else "").

(** [formatHealthcareResponse] *)
Definition formatHealthcareResponse
    (services : list Service.t) (contacts : list Contact.t) : BotResponse :=
  let healthServices := filter (fun service => Service.category service =? "Health") services in
  let emergencyContacts :=
    filter (fun contact => (Contact.type contact =? "Emergency")
                           || (Contact.type contact =? "Hospital")) contacts in
  let message := "Healthcare services available:" ++ nl ++ nl in
  let message :=
    if negb (isEmpty healthServices)
    then message ++ join nl (map healthLine healthServices) else message in
  let message :=
    if negb (isEmpty emergencyContacts)
    then (message ++ nl ++ nl ++ "Emergency Contacts:" ++ nl)
           ++ join nl (map hospitalLine emergencyContacts)
    else message in
  {| message := message; quickReplies := Some QUICK_REPLIES.HEALTHCARE |}.

Definition isUrgent (contact : Contact.t) : bool :=
  Contact.is_urgent contact || (Contact.type contact =? "Emergency").

Definition isGeneral (contact : Contact.t) : bool :=
  negb (Contact.is_urgent contact) && negb (Contact.type contact =? "Emergency").

Definition urgentFirst (a b : Contact.t) : Z :=
  ((if Contact.is_urgent b then 1 else 0) - (if Contact.is_urgent a then 1 else 0))%Z.

Definition contactLine (contact : Contact.t) : string :=
  "• " ++ Contact.entity contact ++ ": "
    ++ ofNullable (orElse (Contact.phone contact) (Contact.email contact))
    ++ (if truthy (Contact.description contact)
        then " - " ++ ofNullable (Contact.description contact) else "").

Definition emergencyTitle : string :=
  "🚨 **Emergency & Important Contacts**" ++ nl ++ nl.
Definition urgentHeading : string := "**URGENT CONTACTS:**" ++ nl.
Definition generalHeading : string := nl ++ nl ++ "**OTHER IMPORTANT CONTACTS:**" ++ nl.

(** [formatEmergencyContacts].  [filter] builds a new array and [sort]
    reorders that one, so [contacts] itself is only read. *)
Definition formatEmergencyContacts (contacts : list Contact.t) : BotResponse :=
  let urgentContacts := sortBy urgentFirst (filter isUrgent contacts) in
  let generalContacts := filter isGeneral contacts in
  let message := emergencyTitle in
  let message :=
    if negb (isEmpty urgentContacts)
    then (message ++ urgentHeading) ++ join nl (map contactLine urgentContacts)
    else message in
  let message :=
    if negb (isEmpty generalContacts)
    then (message ++ generalHeading) ++ join nl (map contactLine generalContacts)
    else message in
  {| message := message;
     quickReplies := Some ["More Contacts"; "Registration Help"; "Healthcare Info"] |}.

(** [formatErrorResponse] *)
Definition formatErrorResponse (error : option Exn) : BotResponse :=
  textOnly "Sorry, I encountered an error while processing your request. Please try again or contact support if the issue persists.".

(** [formatWelcomeResponse] *)
Definition formatWelcomeResponse : BotResponse :=
  {| message := "Hello! I'm here to provide information for refugees and displaced people in Mbarara. I can help you find information about registration, food, shelter, healthcare, and emergency contacts. What do you need help with today?";
     quickReplies := Some ["Registration"; "Food"; "Shelter"; "Healthcare"; "Emergency Contacts"] |}.

End ResponseFormatter.

(* ------------------------------------------------------------------ *)
(** ** [DialogflowService] (second class of [MessageService.ts])       *)
(* ------------------------------------------------------------------ *)

Module DialogflowService.
Import ResponseFormatter.

(** A constructed [SessionsClient]; its [detectIntent] is the world's. *)
Inductive SessionsClient := TheSessionsClient.

Record t := mk {
  sessionsClient : option SessionsClient;
  projectId : option string;
  isEnabled : bool
}.

(** The constructor, from [EnvironmentConfig.dialogflowEnabled],
    [EnvironmentConfig.dialogflowProjectId] and what [new SessionsClient()]
    does. *)
Definition new (dialogflowEnabled : bool) (dialogflowProjectId : string)
    (newSessionsClient : Outcome SessionsClient) : M t :=
  if dialogflowEnabled && negb (dialogflowProjectId =? "") then
    match newSessionsClient with
    | Returned c =>
        log Info "Dialogflow service initialized successfully" [] ;;
        ret {| sessionsClient := Some c; projectId := Some dialogflowProjectId;
               isEnabled := true |}
    | Thrown e =>
        log Error "Failed to initialize Dialogflow client" [("error", e)] ;;
        ret {| sessionsClient := None; projectId := None; isEnabled := false |}
    end
  else
    log Warn "Dialogflow is disabled. Using built-in response logic." [] ;;
    ret {| sessionsClient := None; projectId := None; isEnabled := false |}.

Definition handleRegistrationIntent (w : World) : M BotResponse :=
  r <- promiseAll3 (RegistrationStepRepository.getAllSteps w)
                   (RegistrationStepRepository.getRequiredDocuments w)
                   (ContactRepository.getContactsByType w "General") ;;
  let '(steps, documents, contacts) := r in
  ret (fst (formatRegistrationResponse steps documents contacts)).

Definition handleFoodIntent (w : World) : M BotResponse :=
  services <- ServiceRepository.getServicesByCategory w "Food" ;;
  ret (formatFoodResponse services).

Definition shelterLine (service : Service.t) : string :=
  "â€¢ " ++ Service.organization service ++ ": " ++ Service.services service
    ++ (if truthy (Service.location service)
        then " (" ++ ofNullable (Service.location service) ++ ")" else "").

Definition handleShelterIntent (w : World) : M BotResponse :=
  services <- ServiceRepository.getServicesByCategory w "Shelter" ;;
  if JsArray.isEmpty services then
    ret {| message := "Shelter assistance is arranged through the official registration process with OPM. You need to report to the OPM Refugee Desk to be assigned a place in a settlement. Would you like their contact information?";
           quickReplies := Some ["OPM Contact"; "Registration Info"; "Main Menu"] |}
  else
    let serviceInfo := join nl (map shelterLine services) in
    ret {| message := "Shelter assistance options:" ++ nl ++ nl ++ serviceInfo ++ nl ++ nl
                        ++ "Note: Most shelter assistance requires official registration with OPM.";
           quickReplies := Some ["OPM Contact"; "Registration Steps"; "More Info"] |}.

Definition handleHealthcareIntent (w : World) : M BotResponse :=
  r <- promiseAll2 (ServiceRepository.getServicesByCategory w "Health")
                   (ContactRepository.getContactsByType w "Hospital") ;;
  let '(services, contacts) := r in
  ret (formatHealthcareResponse services contacts).

Definition handleEmergencyContactsIntent (w : World) : M BotResponse :=
  contacts <- ContactRepository.getAllContacts w ;;
  ret (formatEmergencyContacts contacts).

Definition builtInFallbackText : string :=
  "I'm here to help with registration, food, shelter, healthcare, and emergency contacts for refugees in Mbarara. What specific information do you need?".

(** [handleMessageWithBuiltInLogic] (Path B) *)
Definition handleMessageWithBuiltInLogic (w : World) (message : string) : M BotResponse :=
  emit (Enter HandleMessageWithBuiltInLogic) ;;
  let lowerMessage := trim (toLowerCase message) in
  if includes "register" lowerMessage || includes "registration" lowerMessage
     || includes "opm" lowerMessage then
    handleRegistrationIntent w
  else if includes "food" lowerMessage || includes "hungry" lowerMessage
          || includes "eat" lowerMessage then
    handleFoodIntent w
  else if includes "shelter" lowerMessage || includes "place to stay" lowerMessage
          || includes "sleep" lowerMessage then
    handleShelterIntent w
  else if includes "health" lowerMessage || includes "hospital" lowerMessage
          || includes "doctor" lowerMessage || includes "sick" lowerMessage then
    handleHealthcareIntent w
  else if includes "emergency" lowerMessage || includes "help" lowerMessage
          || includes "contact" lowerMessage then
    handleEmergencyContactsIntent w
  else if includes "hello" lowerMessage || includes "hi" lowerMessage
          || includes "start" lowerMessage then
    ret formatWelcomeResponse
  else
    ret (textOnly builtInFallbackText).

(** [shouldUseCustomLogic] *)
Definition shouldUseCustomLogic (intent : string) : bool :=
  let customIntents :=
    [INTENT_NAMES.FIND_REGISTRATION; INTENT_NAMES.FIND_FOOD; INTENT_NAMES.FIND_SHELTER;
     INTENT_NAMES.FIND_HEALTHCARE; INTENT_NAMES.FIND_EMERGENCY_CONTACTS] in
  existsb (String.eqb intent) customIntents.

(** [handleIntentWithCustomLogic] *)
Definition handleIntentWithCustomLogic (w : World) (intent parameters : string)
    : M BotResponse :=
  tryCatch
    (if intent =? INTENT_NAMES.FIND_REGISTRATION then handleRegistrationIntent w
     else if intent =? INTENT_NAMES.FIND_FOOD then handleFoodIntent w
     else if intent =? INTENT_NAMES.FIND_SHELTER then handleShelterIntent w
     else if intent =? INTENT_NAMES.FIND_HEALTHCARE then handleHealthcareIntent w
     else if intent =? INTENT_NAMES.FIND_EMERGENCY_CONTACTS
          then handleEmergencyContactsIntent w
     else ret (textOnly "I can help you with registration, food, shelter, healthcare, and emergency contacts. What specific information do you need?"))
    (fun error =>
       log Error "Error in custom intent handling"
         [("error", error); ("intent", intent); ("parameters", parameters)] ;;
       ret (formatErrorResponse (Some error))).

(** [sessionsClient.projectAgentSessionPath(projectId, sessionId)] *)
Definition projectAgentSessionPath (projectId sessionId : string) : string :=
  "projects/" ++ projectId ++ "/agent/sessions/" ++ sessionId.

(** [handleMessageWithDialogflow] (Path A) *)
Definition handleMessageWithDialogflow (svc : t) (w : World) (message sessionId : string)
    : M BotResponse :=
  emit (Enter HandleMessageWithDialogflow) ;;
  match sessionsClient svc with
  | None => throw "Dialogflow client not initialized"
  | Some _ =>
      if negb (truthy (projectId svc)) then throw "Dialogflow client not initialized"
      else
        let sessionPath := projectAgentSessionPath (ofNullable (projectId svc)) sessionId in
        log Debug "Sending request to Dialogflow"
          [("message", message); ("sessionId", sessionId)] ;;
        emit (DetectIntent sessionPath message) ;;
        match detectIntent w sessionPath message with
        | Thrown e => throw e
        | Returned None => throw "No response from Dialogflow"
        | Returned (Some queryResult) =>
            let intent := intent queryResult in
            let parameters := parameters queryResult in
            let fulfillmentText := fulfillmentText queryResult in
            log Debug "Received Dialogflow response"
              [("intent", ofNullable intent); ("parameters", parameters);
               ("fulfillmentText", ofNullable fulfillmentText)] ;;
            if truthy intent && shouldUseCustomLogic (ofNullable intent) then
              handleIntentWithCustomLogic w (ofNullable intent) parameters
            else
              ret (textOnly
                     (if truthy fulfillmentText then ofNullable fulfillmentText
                      else "I apologize, but I could not process your request."))
        end
  end.

(** [getResponse].  The [catch] block can repeat reads the [try] block has
    made, and by then the database may reply otherwise: [w] is what the
    outside world replies to the calls of the [try] block, [w'] what it
    replies to the calls of the [catch] block. *)
Definition getResponse (svc : t) (w w' : World) (message sessionId : string)
    : M BotResponse :=
  emit (Enter GetResponse) ;;
  tryCatch
    (if negb (isEnabled svc) then handleMessageWithBuiltInLogic w message
     else handleMessageWithDialogflow svc w message sessionId)
    (fun error =>
       log Error "Error in getResponse"
         [("error", error); ("message", message); ("sessionId", sessionId)] ;;
       handleMessageWithBuiltInLogic w' message).

(** The service with the remote integration switched off. *)
Definition disabled (svc : t) : t :=
  {| sessionsClient := sessionsClient svc; projectId := projectId svc; isEnabled := false |}.

End DialogflowService.

(* ------------------------------------------------------------------ *)
(** ** [MessageService] (first class of [MessageService.ts])           *)
(* ------------------------------------------------------------------ *)

Module MessageService.

Definition instructional : string :=
  "Please send a message with your question. I can help with registration, food, shelter, healthcare, and emergency contacts.".

Definition tooLong : string :=
  "Your message is too long. Please keep your questions brief and focused on one topic at a time.".

Definition tryAgain : string :=
  "Sorry, I encountered an error while processing your message. Please try again in a moment.".

(** [processMessage]; [w] and [w'] are the two worlds of [getResponse]. *)
Definition processMessage (dialogflowService : DialogflowService.t) (w w' : World)
    (userMessage userPhone : string) : M BotResponse :=
  tryCatch
    (log Info "Processing user message"
       [("userPhone", maskPhoneNumber userPhone);
        ("messageLength", ofZ (Z.of_nat (utf16Length userMessage)))] ;;
     if (userMessage =? "") || (utf16Length (trim userMessage) =? 0)%nat then
       ret (textOnly instructional)
     else if (500 <? utf16Length userMessage)%nat then
       ret (textOnly tooLong)
     else
       let sessionId := generateSessionId userPhone in
       response <- DialogflowService.getResponse dialogflowService w w' userMessage sessionId ;;
       log Info "Message processed successfully"
         [("userPhone", maskPhoneNumber userPhone);
          ("responseLength", ofZ (Z.of_nat (utf16Length (message response))))] ;;
       ret response)
    (fun error =>
       log Error "Message processing failed"
         [("error", error); ("userPhone", maskPhoneNumber userPhone);
          ("message", userMessage)] ;;
       ret (textOnly tryAgain)).

End MessageService.

(* ------------------------------------------------------------------ *)
(** ** The keyword classifier of Path B, as an intent                  *)
(* ------------------------------------------------------------------ *)

Module Classifier.
Import DialogflowService.

Inductive Intent :=
| Registration | Food | Shelter | Healthcare | EmergencyContacts | Welcome | Fallback.

(** The branch [handleMessageWithBuiltInLogic] takes, read off its
    [if]/[else if] chain. *)
Definition keywordIntent (message : string) : Intent :=
  let lowerMessage := trim (toLowerCase message) in
  if includes "register" lowerMessage || includes "registration" lowerMessage
     || includes "opm" lowerMessage then Registration
  else if includes "food" lowerMessage || includes "hungry" lowerMessage
          || includes "eat" lowerMessage then Food
  else if includes "shelter" lowerMessage || includes "place to stay" lowerMessage
          || includes "sleep" lowerMessage then Shelter
  else if includes "health" lowerMessage || includes "hospital" lowerMessage
          || includes "doctor" lowerMessage || includes "sick" lowerMessage then Healthcare
  else if includes "emergency" lowerMessage || includes "help" lowerMessage
          || includes "contact" lowerMessage then EmergencyContacts
  else if includes "hello" lowerMessage || includes "hi" lowerMessage
          || includes "start" lowerMessage then Welcome
  else Fallback.

(** What each branch of the chain runs. *)
Definition respond (w : World) (i : Intent) : M BotResponse :=
  match i with
  | Registration => handleRegistrationIntent w
  | Food => handleFoodIntent w
  | Shelter => handleShelterIntent w
  | Healthcare => handleHealthcareIntent w
  | EmergencyContacts => handleEmergencyContactsIntent w
  | Welcome => ret ResponseFormatter.formatWelcomeResponse
  | Fallback => ret (textOnly builtInFallbackText)
  end.

(** The specification's reading: an ordered table of keyword groups, the
    first group with a keyword in the normalised text decides. *)
Definition keywordGroups : list (list string * Intent) :=
  [ (["register"; "registration"; "opm"], Registration);
    (["food"; "hungry"; "eat"], Food);
    (["shelter"; "place to stay"; "sleep"], Shelter);
    (["health"; "hospital"; "doctor"; "sick"], Healthcare);
    (["emergency"; "help"; "contact"], EmergencyContacts);
    (["hello"; "hi"; "start"], Welcome) ].

Definition groupMatches (text : string) (g : list string * Intent) : bool :=
  existsb (fun k => includes k text) (fst g).

Definition firstMatchingGroup (message : string) : Intent :=
  match find (groupMatches (trim (toLowerCase message))) keywordGroups with
  | Some g => snd g
  | None => Fallback
  end.

End Classifier.

(* ------------------------------------------------------------------ *)
(** ** [src/services/TwilioService.ts]                                 *)
(* ------------------------------------------------------------------ *)

Module EnvironmentConfig.
(** The two settings [TwilioService] reads; an unset variable is [""]. *)
Record t := mk {
  twilioAccountSid : string;
  twilioAuthToken : string
}.
End EnvironmentConfig.

Module TwilioService.

Definition Params := list (string * string).

Record t := mk { isConfigured : bool }.

(** The constructor. *)
Definition new (cfg : EnvironmentConfig.t) : M t :=
  let isConfigured :=
    negb (EnvironmentConfig.twilioAccountSid cfg =? "")
    && negb (EnvironmentConfig.twilioAuthToken cfg =? "") in
  if isConfigured then
    log Info "Twilio service initialized successfully" [] ;;
    ret {| isConfigured := isConfigured |}
  else
    log Warn "Twilio service not configured - missing account SID or auth token" [] ;;
    ret {| isConfigured := isConfigured |}.

(** [maskSignature] *)
Definition maskSignature (signature : string) : string :=
  if (signature =? "") || (String.length signature <? 8)%nat then "***"
  else slice0 4 signature ++ "..." ++ sliceLast 4 signature.

Section WithSdk.

(** [twilio.validateRequest(authToken, signature, url, body)] of the
    Twilio SDK. *)
Variable validateRequest : string -> string -> string -> Params -> Outcome bool.

(** [validateWebhookSignature]; an absent header is [None]. *)
Definition validateWebhookSignature (svc : t) (cfg : EnvironmentConfig.t)
    (url : string) (body : Params) (signature : option string) : M bool :=
  if negb (isConfigured svc) then
    log Warn "Twilio not configured - skipping webhook signature validation" [] ;;
    ret false
  else if negb (truthy signature) then
    log Warn "Missing Twilio signature header" [] ;;
    ret false
  else
    let signature := ofNullable signature in
    tryCatch
      (let authToken := EnvironmentConfig.twilioAuthToken cfg in
       isValid <- (([], validateRequest authToken signature url body) : M bool) ;;
       (if negb isValid then
          log Warn "Invalid Twilio webhook signature"
            [("url", url); ("signature", maskSignature signature)]
        else ret tt) ;;
       ret isValid)
      (fun error =>
         log Error "Error validating Twilio webhook signature"
           [("error", error); ("url", url)] ;;
         ret false).

End WithSdk.

Section Sdk.

(** The keyed digest of the channel provider's scheme, base64-encoded:
    key, then data. *)
Variable hmacBase64 : string -> string -> string.
(** Whether the URL parses. *)
Variable wellFormedUrl : string -> bool.

Definition byKey (a b : string * string) : Z :=
  match String.compare (fst a) (fst b) with
  | Lt => (-1)%Z
  | Eq => 0%Z
  | Gt => 1%Z
  end.

(** The URL followed by each parameter's key and value, by ascending key. *)
Definition canonical (url : string) (body : Params) : string :=
  url ++ String.concat "" (map (fun kv => fst kv ++ snd kv) (JsArray.sortBy byKey body)).

Definition expectedSignature (authToken url : string) (body : Params) : string :=
  hmacBase64 authToken (canonical url body).

(** Modelled from the spec: [twilio.validateRequest] is the Twilio SDK's,
    not in [src/]; section 4.1 gives its scheme: recompute the canonical
    signature with the shared secret and compare it with the header; a
    URL that does not parse makes it throw. *)
Definition sdkValidateRequest (authToken signature url : string) (body : Params)
    : Outcome bool :=
  if wellFormedUrl url
  then Returned (signature =? expectedSignature authToken url body)
  else Thrown "Invalid URL".

End Sdk.

End TwilioService.

(* ------------------------------------------------------------------ *)
(** ** Notions and sample data used in the statements                  *)
(* ------------------------------------------------------------------ *)

(** A computation that cannot end in an exception. *)
Definition neverThrows {A} (m : M A) : Prop := exists a, outcome m = Returned a.

(** Whenever [m] returns a response, its message is not empty. *)
Definition answers (m : M BotResponse) : Prop :=
  forall r, outcome m = Returned r -> message r <> "".

(** How a repository call ends, from the reply of the database. *)
Definition fetched {A} (r : Reply A) : Outcome (list A) :=
  match error r with
  | Some msg => Thrown ("Database error: " ++ msg)
  | None => Returned (orEmpty (data r))
  end.

(** Whether a trace shows the intent resolver at work: one of its methods
    entered, the remote NLU called, or the database read. *)
Definition consultsResolver (t : list Event) : bool :=
  existsb (fun ev => match ev with
                     | Log _ _ _ => false
                     | Enter _ | DetectIntent _ _ | Select _ _ => true
                     end) t.

(** The text after the white-space character [s] starts with, if it starts
    with one. *)
Definition afterWhite (s : string) : option string :=
  match s with
  | EmptyString => None
  | String a s1 =>
      if isWhite a then Some s1
      else
        match s1 with
        | EmptyString => None
        | String b s2 =>
            if isWhite2 a b then Some s2
            else
              match s2 with
              | EmptyString => None
              | String c s3 => if isWhite3 a b c then Some s3 else None
              end
        end
  end.

(** An ASCII character that is not white space. *)
Definition plain (c : ascii) : bool := (nat_of_ascii c <? 128)%nat && negb (isWhite c).

Fixpoint allPlain (s : string) : bool :=
  match s with
  | EmptyString => true
  | String c s' => plain c && allPlain s'
  end.

(** An ASCII character that [toLowerCase] leaves as it is. *)
Definition lowerAscii (c : ascii) : bool :=
  (nat_of_ascii c <? 128)%nat && Ascii.eqb (lowerChar c) c.

Fixpoint allLowerAscii (s : string) : bool :=
  match s with
  | EmptyString => true
  | String c s' => lowerAscii c && allLowerAscii s'
  end.

(** Nothing to trim at either end. *)
Definition Trimmed (s : string) : Prop := trimStart s = s /\ trimEnd s = s.

(** A block of the EmergencyContacts message: nothing for no contact, else
    the heading and one line per contact. *)
Definition contactBlock (heading : string) (contacts : list Contact.t) : string :=
  if JsArray.isEmpty contacts then ""
  else heading ++ join ResponseFormatter.nl (map ResponseFormatter.contactLine contacts).


(** Ascending step numbers. *)
Definition stepLe (a b : RegistrationStep.t) : Prop :=
  (RegistrationStep.step_number a <= RegistrationStep.step_number b)%Z.


(** The intent an override name of the remote NLU stands for. *)
Definition overrideIntent (name : string) : option Classifier.Intent :=
  if name =? INTENT_NAMES.FIND_REGISTRATION then Some Classifier.Registration
  else if name =? INTENT_NAMES.FIND_FOOD then Some Classifier.Food
  else if name =? INTENT_NAMES.FIND_SHELTER then Some Classifier.Shelter
  else if name =? INTENT_NAMES.FIND_HEALTHCARE then Some Classifier.Healthcare
  else if name =? INTENT_NAMES.FIND_EMERGENCY_CONTACTS then Some Classifier.EmergencyContacts
  else None.

(** Calls of the remote NLU in a trace. *)
Definition isDetect (ev : Event) : bool :=
  match ev with DetectIntent _ _ => true | _ => false end.

Definition detects (t : list Event) : nat := List.length (filter isDetect t).

(** Database reads in a trace. *)
Definition isSelect (ev : Event) : bool :=
  match ev with Select _ _ => true | _ => false end.

Definition reads (t : list Event) : nat := List.length (filter isSelect t).

(** Every event of the computation satisfies [P]. *)
Definition emitsOnly {A} (P : Event -> Prop) (m : M A) : Prop := Forall P (trace m).

(** What a call of the remote NLU in a trace must look like. *)
Definition detectsAs (session text : string) (ev : Event) : Prop :=
  match ev with
  | DetectIntent s t => s = session /\ t = text
  | _ => True
  end.

(** Whenever [m] returns a response, the response satisfies [Q]. *)
Definition returnsOnly (Q : BotResponse -> Prop) (m : M BotResponse) : Prop :=
  forall r, outcome m = Returned r -> Q r.

(** No quick replies, or three to five of them. *)
Definition fewQuickReplies (r : BotResponse) : Prop :=
  match quickReplies r with
  | None => True
  | Some labels => 3 <= List.length labels <= 5
  end.

(** The value a base64 character stands for. *)
Definition undigit (c : ascii) : N :=
  match index 0 (String c EmptyString) Base64.alphabet with
  | Some n => N.of_nat n
  | None => 64%N
  end.

(** The one string that is its own session key. *)
Definition selfKey : string := "user-dXNlci1kWE5sY2kx".

(** 501 blanks. *)
Definition blanks501 : string := replicate 501 " ".

(** A [Health] service run by a WFP office. *)
Definition wfpClinic : Service.t :=
  {| Service.id := 7; Service.category := "Health";
     Service.organization := "WFP Uganda"; Service.services := "Nutrition screening";
     Service.contact_phone := None; Service.contact_email := None;
     Service.location := Some "Nakivale"; Service.notes := None |}.

Definition stepReport : RegistrationStep.t :=
  {| RegistrationStep.id := 1; RegistrationStep.step_number := 1;
     RegistrationStep.title := "Report"; RegistrationStep.description := "Go to the OPM desk";
     RegistrationStep.requirements := None; RegistrationStep.estimated_duration := None |}.

Definition stepInterview : RegistrationStep.t :=
  {| RegistrationStep.id := 2; RegistrationStep.step_number := 2;
     RegistrationStep.title := "Interview"; RegistrationStep.description := "Attend the interview";
     RegistrationStep.requirements := None; RegistrationStep.estimated_duration := None |}.

Definition contactA : Contact.t :=
  {| Contact.id := 1; Contact.entity := "A"; Contact.phone := None; Contact.email := None;
     Contact.description := None; Contact.type := "General"; Contact.is_urgent := true;
     Contact.notes := None |}.

Definition contactB : Contact.t :=
  {| Contact.id := 2; Contact.entity := "B"; Contact.phone := None; Contact.email := None;
     Contact.description := None; Contact.type := "General"; Contact.is_urgent := false;
     Contact.notes := None |}.

(** A world whose services table cannot be read and whose remote NLU is
    unreachable. *)
Definition servicesDown : World :=
  {| registration_steps := mkReply (Some []) None;
     required_documents := mkReply (Some []) None;
     contacts_all := mkReply (Some []) None;
     contacts_by_type := fun _ => mkReply (Some []) None;
     services_by_category := fun _ => mkReply None (Some "connection refused");
     detectIntent := fun _ _ => Thrown "UNAVAILABLE" |}.




(** The service as constructed with the integration off. *)
Definition builtInOnly : DialogflowService.t :=
  {| DialogflowService.sessionsClient := None; DialogflowService.projectId := None;
     DialogflowService.isEnabled := false |}.

(** The service as constructed with the integration on. *)
Definition remoteFirst : DialogflowService.t :=
  {| DialogflowService.sessionsClient := Some DialogflowService.TheSessionsClient;
     DialogflowService.projectId := Some "refugelink";
     DialogflowService.isEnabled := true |}.

(** A world whose remote NLU answers [q] and whose database is down. *)
Definition remoteAnswers (q : QueryResult) : World :=
  {| registration_steps := mkReply None (Some "timeout");
     required_documents := mkReply None (Some "timeout");
     contacts_all := mkReply None (Some "timeout");
     contacts_by_type := fun _ => mkReply None (Some "timeout");
     services_by_category := fun _ => mkReply None (Some "timeout");
     detectIntent := fun _ _ => Returned (Some q) |}.

Definition thanksAnswer : QueryResult :=
  {| intent := Some "smalltalk.thanks"; parameters := "{}";
     fulfillmentText := Some "You are welcome." |}.

Definition registrationAnswer : QueryResult :=
  {| intent := Some "find_registration"; parameters := "{}"; fulfillmentText := None |}.

(** A [Shelter] service. *)
Definition unhcrTents : Service.t :=
  {| Service.id := 3; Service.category := "Shelter";
     Service.organization := "UNHCR"; Service.services := "Tents";
     Service.contact_phone := None; Service.contact_email := None;
     Service.location := None; Service.notes := None |}.

(** A world whose tables are all empty. *)
Definition emptyTables : World :=
  {| registration_steps := mkReply None None;
     required_documents := mkReply None None;
     contacts_all := mkReply None None;
     contacts_by_type := fun _ => mkReply None None;
     services_by_category := fun _ => mkReply None None;
     detectIntent := fun _ _ => Thrown "UNAVAILABLE" |}.

(** A stand-in digest and URL check to run the signature model on. *)
Definition toyDigest (key data : string) : string := Base64.encode (key ++ data).
Definition anyUrl (url : string) : bool := true.

(* ------------------------------------------------------------------ *)
(** ** Further string primitives                                       *)
(* ------------------------------------------------------------------ *)

Module JsStringMore.

(** [s.slice(n)] *)
Fixpoint drop (n : nat) (s : string) : string :=
  match n, s with
  | O, _ => s
  | S n', String _ s' => drop n' s'
  | S _, EmptyString => EmptyString
  end.

(** [s.replace(pat, rep)] for a string pattern: the first occurrence only;
    [rep] holds no [$] pattern in the sources. *)
Fixpoint replaceFirst (pat rep s : string) : string :=
  if prefix pat s then rep ++ drop (String.length pat) s
  else match s with
       | EmptyString => EmptyString
       | String c s' => String c (replaceFirst pat rep s')
       end.

(** [\d] *)
Definition isDigit (c : ascii) : bool :=
  let n := nat_of_ascii c in ((48 <=? n) && (n <=? 57))%nat.

Fixpoint allDigits (s : string) : bool :=
  match s with
  | EmptyString => true
  | String c s' => isDigit c && allDigits s'
  end.

(** [`${x}`] for a string that may be [undefined]. *)
Definition ofUndefined (o : option string) : string :=
  match o with
  | Some s => s
  | None => "undefined"
  end.

End JsStringMore.

(* ------------------------------------------------------------------ *)
(** ** [TwilioService]: the phone-number helpers                       *)
(* ------------------------------------------------------------------ *)

Module TwilioNumbers.
Import JsStringMore.

(** [TwilioService.formatWhatsAppNumber] *)
Definition formatWhatsAppNumber (phoneNumber : string) : string :=
  let formatted := trim phoneNumber in
  let formatted :=
    if negb (prefix "whatsapp:" formatted) then "whatsapp:" ++ formatted else formatted in
  let formatted :=
    if negb (includes "+" formatted) && (10 <? utf16Length formatted)%nat
    then replaceFirst "whatsapp:" "whatsapp:+" formatted
    else formatted in
  formatted.

(** [TwilioService.maskPhoneNumber]; nothing in its [try] block throws on a
    string. *)
Definition maskPhoneNumber (phone : string) : string :=
  if (phone =? "") || (String.length phone <? 4)%nat then "***"
  else
    let numberPart := replaceFirst "whatsapp:" "" phone in
    if (String.length numberPart <? 4)%nat then "***"
    else "whatsapp:" ++ slice0 2 numberPart ++ "***" ++ sliceLast 2 numberPart.

End TwilioNumbers.

(* ------------------------------------------------------------------ *)
(** ** [twilioWebhookValidator] (second part of [errorHandler.ts])     *)
(* ------------------------------------------------------------------ *)

Module TwilioWebhookValidator.
Import JsStringMore.

(** What the middleware reads of the Express request. *)
Record Request := mkRequest {
  x_twilio_signature : option string;   (* [req.headers['x-twilio-signature']] *)
  x_forwarded_proto : option string;
  x_forwarded_host : option string;
  protocol : string;
  host : option string;                 (* [req.get('host')] *)
  originalUrl : string;
  body : TwilioService.Params
}.

(** What the middleware does with the request: hand it on, or answer. *)
Inductive Verdict :=
| Next
| Json (status : nat) (message code : string).

(** [EnvironmentConfig.isProduction()] *)
Definition isProduction (nodeEnv : string) : bool := nodeEnv =? "production".

(** The URL the signature is checked against. *)
Definition fullUrl (req : Request) : string :=
  let protocol :=
    if truthy (x_forwarded_proto req) then ofNullable (x_forwarded_proto req)
    else protocol req in
  let host :=
    if truthy (x_forwarded_host req) then x_forwarded_host req else host req in
  protocol ++ "://" ++ ofUndefined host ++ originalUrl req.

Section WithSdk.

(** [twilio.validateRequest(authToken, signature, url, body)] *)
Variable validateRequest :
  string -> string -> string -> TwilioService.Params -> Outcome bool.

(** [twilioWebhookValidator] *)
Definition twilioWebhookValidator (nodeEnv : string) (cfg : EnvironmentConfig.t)
    (req : Request) : M Verdict :=
  if negb (isProduction nodeEnv) then
    log Debug "Skipping Twilio signature validation in development mode" [] ;;
    ret Next
  else
    tryCatch
      (let signature := x_twilio_signature req in
       if negb (truthy signature) then
         log Warn "Missing Twilio signature header" [] ;;
         ret (Json 403 "Forbidden: Missing signature" "MISSING_SIGNATURE")
       else
         let signature := ofNullable signature in
         let url := fullUrl req in
         log Debug "Validating Twilio signature" [("url", url)] ;;
         let authToken := EnvironmentConfig.twilioAuthToken cfg in
         if authToken =? "" then
           log Error "Twilio auth token not configured" [] ;;
           ret (Json 500 "Server configuration error" "CONFIG_ERROR")
         else
           isValid <- (([], validateRequest authToken signature url (body req)) : M bool) ;;
           if negb isValid then
             log Warn "Invalid Twilio webhook signature" [("url", url)] ;;
             ret (Json 403 "Forbidden: Invalid signature" "INVALID_SIGNATURE")
           else
             log Debug "Twilio signature validation successful" [] ;;
             ret Next)
      (fun error =>
         log Error "Error during Twilio signature validation" [("error", error)] ;;
         ret (Json 500 "Error validating request" "VALIDATION_ERROR")).

End WithSdk.

End TwilioWebhookValidator.

(* ------------------------------------------------------------------ *)
(** ** [RequestValidator.validateTwilioWebhookPayload]                 *)
(* ------------------------------------------------------------------ *)

Module RequestValidator.
Import JsStringMore.

(** A field of a parsed request body.  An object or array is kept as the
    string [String(x)] gives; numbers are integral. *)
Inductive JsValue :=
| JUndefined
| JNull
| JBool (b : bool)
| JNumber (z : Z)
| JString (s : string)
| JObject (asString : string).

(** [!!v] *)
Definition truthyValue (v : JsValue) : bool :=
  match v with
  | JUndefined | JNull => false
  | JBool b => b
  | JNumber z => negb (z =? 0)%Z
  | JString s => negb (s =? "")
  | JObject _ => true
  end.

(** [String(v)], as [RegExp.prototype.test] applies it. *)
Definition toStringValue (v : JsValue) : string :=
  match v with
  | JUndefined => "undefined"
  | JNull => "null"
  | JBool true => "true"
  | JBool false => "false"
  | JNumber z => ofZ z
  | JString s => s
  | JObject s => s
  end.

(** [typeof v === 'string'] *)
Definition isString (v : JsValue) : bool :=
  match v with
  | JString _ => true
  | _ => false
  end.

(** The fields of the payload the validator looks at. *)
Record Payload := mkPayload {
  From : JsValue;
  Body : JsValue;
  MessageSid : JsValue;
  AccountSid : JsValue
}.

(** [payload[field]] *)
Definition field (payload : Payload) (name : string) : JsValue :=
  if name =? "From" then From payload
  else if name =? "Body" then Body payload
  else if name =? "MessageSid" then MessageSid payload
  else if name =? "AccountSid" then AccountSid payload
  else JUndefined.

(** [/^whatsapp:\+\d{1,15}$/.test(s)] *)
Definition phoneRegex (s : string) : bool :=
  prefix "whatsapp:+" s
  && (let digits := drop 10 s in
      (1 <=? String.length digits)%nat && (String.length digits <=? 15)%nat
      && allDigits digits).

(** [validateTwilioWebhookPayload]; every exception is a [ValidationError]. *)
Definition validateTwilioWebhookPayload (payload : Payload) : M unit :=
  let requiredFields := ["From"; "Body"] in
  let missingFields := filter (fun field' => negb (truthyValue (field payload field'))) requiredFields in
  if (0 <? List.length missingFields)%nat then
    throw ("Missing required fields: " ++ join ", " missingFields)
  else if negb (phoneRegex (toStringValue (From payload))) then
    throw "Invalid phone number format. Expected format: whatsapp:+1234567890"
  else if negb (isString (Body payload)) then
    throw "Message body must be a string"
  else if (utf16Length (trim (toStringValue (Body payload))) =? 0)%nat then
    throw "Message body cannot be empty"
  else if (1000 <? utf16Length (toStringValue (Body payload)))%nat then
    throw "Message body too long. Maximum 1000 characters allowed"
  else if truthyValue (MessageSid payload) && negb (isString (MessageSid payload)) then
    throw "MessageSid must be a string"
  else if truthyValue (AccountSid payload) && negb (isString (AccountSid payload)) then
    throw "AccountSid must be a string"
  else ret tt.

End RequestValidator.

(* ------------------------------------------------------------------ *)
(** ** [validateTwilioWebhook] of [errorHandler.ts]                    *)
(* ------------------------------------------------------------------ *)

Module ErrorHandler.
Import RequestValidator.

(** [validateTwilioWebhook] of [src/middleware/errorHandler.ts]: it throws a
    [ValidationError] or calls [next()], which is returning here. *)
Definition validateTwilioWebhook (body : Payload) : M unit :=
  let From := From body in
  let Body := Body body in
  if negb (truthyValue From) then
    log Warn "Twilio webhook missing From field" [] ;;
    throw "Missing required field: From"
  else if negb (truthyValue Body) then
    log Warn "Twilio webhook missing Body field" [("from", toStringValue From)] ;;
    throw "Missing required field: Body"
  else if negb (phoneRegex (toStringValue From)) then
    log Warn "Invalid phone number format in webhook" [("from", toStringValue From)] ;;
    throw "Invalid phone number format"
  else ret tt.

End ErrorHandler.

(** A complete Twilio configuration, and a request signed for it with the
    stand-in digest. *)
Definition configured : EnvironmentConfig.t :=
  {| EnvironmentConfig.twilioAccountSid := "AC123";
     EnvironmentConfig.twilioAuthToken := "secret" |}.

Definition signedRequest : TwilioWebhookValidator.Request :=
  {| TwilioWebhookValidator.x_twilio_signature :=
       Some (TwilioService.expectedSignature toyDigest "secret"
               "https://bot.example/webhook/twilio/whatsapp"
               [("From", "whatsapp:+256700123456"); ("Body", "food")]);
     TwilioWebhookValidator.x_forwarded_proto := Some "https";
     TwilioWebhookValidator.x_forwarded_host := None;
     TwilioWebhookValidator.protocol := "http";
     TwilioWebhookValidator.host := Some "bot.example";
     TwilioWebhookValidator.originalUrl := "/webhook/twilio/whatsapp";
     TwilioWebhookValidator.body :=
       [("From", "whatsapp:+256700123456"); ("Body", "food")] |}.

(** A payload whose [Body] is a number. *)
Definition numericBody : RequestValidator.Payload :=
  {| RequestValidator.From := RequestValidator.JString "whatsapp:+256700123456";
     RequestValidator.Body := RequestValidator.JNumber 5;
     RequestValidator.MessageSid := RequestValidator.JUndefined;
     RequestValidator.AccountSid := RequestValidator.JUndefined |}.

(** A payload as Twilio sends it. *)
Definition plainPayload : RequestValidator.Payload :=
  {| RequestValidator.From := RequestValidator.JString "whatsapp:+256700123456";
     RequestValidator.Body := RequestValidator.JString "food";
     RequestValidator.MessageSid := RequestValidator.JString "SM1";
     RequestValidator.AccountSid := RequestValidator.JUndefined |}.

(* ================================================================== *)
(** * Properties                                                       *)
(* ================================================================== *)

Import ResponseFormatter.

(* ------------------------------------------------------------------ *)
(** ** Strings                                                         *)
(* ------------------------------------------------------------------ *)

Section StringFacts.

Lemma append_assoc (a b c : string) : (a ++ b) ++ c = a ++ (b ++ c).
Proof. induction a as [|x a IH]; simpl; [reflexivity | now rewrite IH]. Qed.

Lemma append_nil_r (a : string) : a ++ "" = a.
Proof. induction a as [|x a IH]; simpl; [reflexivity | now rewrite IH]. Qed.

(** Only the empty text has length zero. *)
Lemma utf16Length_zero_iff (s : string) : (utf16Length s =? 0)%nat = true <-> s = "".
Proof.
  split; [|intros ->; reflexivity].
  destruct s as [|a [|b [|c [|d s]]]]; [reflexivity|..]; cbn [utf16Length];
    repeat match goal with
           | |- context [if ?c then _ else _] => destruct c
           end; intros H; discriminate H.
Qed.

Lemma prefix_append (k s : string) :
  prefix k s = true <-> exists b, s = k ++ b.
Proof.
  revert s; induction k as [|x k IH]; intros s; simpl.
  - split; [intros _; now exists s | destruct s; reflexivity].
  - destruct s as [|y s]; simpl.
    + split; [discriminate | intros [b Hb]; discriminate Hb].
    + destruct (ascii_dec x y) as [->|Hxy].
      * rewrite IH. split; intros [b Hb]; exists b; [now rewrite Hb | now injection Hb].
      * split; [discriminate | intros [b Hb]; injection Hb as Hy _; congruence].
Qed.

(** [s.includes(k)] holds exactly when [k] occurs in [s]. *)
Lemma includes_occurs (k s : string) :
  includes k s = true <-> exists a b, s = a ++ k ++ b.
Proof.
  split.
  - induction s as [|y s IH]; cbn [includes].
    + destruct (prefix k "") eqn:Hp; [|discriminate].
      intros _. apply prefix_append in Hp as [b Hb]. now exists "", b.
    + destruct (prefix k (String y s)) eqn:Hp.
      * intros _. apply prefix_append in Hp as [b Hb]. now exists "", b.
      * intros H. destruct (IH H) as (a & b & ->). now exists (String y a), b.
  - intros (a & b & ->). induction a as [|x a IH]; cbn [append includes].
    + assert (Hp : prefix k (k ++ b) = true) by (apply prefix_append; now exists b).
      destruct (k ++ b); cbn [includes]; now rewrite Hp.
    + rewrite IH. now destruct (prefix k (String x (a ++ k ++ b))).
Qed.

(** Induction on the length of a string. *)
Lemma string_length_ind (P : string -> Prop) :
  (forall s, (forall r, String.length r < String.length s -> P r) -> P s) ->
  forall s, P s.
Proof.
  intros H s. remember (String.length s) as n eqn:En.
  revert s En. induction n as [n IH] using lt_wf_ind. intros s ->.
  apply H. intros r Hr. now apply (IH (String.length r)).
Qed.

(** [trimStart] drops one white-space character at a time. *)
Lemma trimStart_afterWhite (s : string) :
  trimStart s = match afterWhite s with Some r => trimStart r | None => s end.
Proof.
  destruct s as [|a [|b [|c s]]]; cbn [trimStart afterWhite]; [reflexivity|..].
  - now destruct (isWhite a).
  - destruct (isWhite a); [reflexivity|]. now destruct (isWhite2 a b).
  - destruct (isWhite a); [reflexivity|]. destruct (isWhite2 a b); [reflexivity|].
    now destruct (isWhite3 a b c).
Qed.

(** A white-space character is one to three bytes at the front. *)
Lemma afterWhite_split (s r : string) :
  afterWhite s = Some r -> exists w, s = w ++ r /\ String.length r < String.length s.
Proof.
  destruct s as [|a [|b [|c s]]]; cbn [afterWhite]; [discriminate|..].
  - destruct (isWhite a); [|discriminate]. intros H; injection H as <-.
    exists (String a ""). split; [reflexivity | simpl; lia].
  - destruct (isWhite a).
    + intros H; injection H as <-. exists (String a ""). split; [reflexivity | simpl; lia].
    + destruct (isWhite2 a b); [|discriminate]. intros H; injection H as <-.
      exists (String a (String b "")). split; [reflexivity | simpl; lia].
  - destruct (isWhite a).
    + intros H; injection H as <-. exists (String a ""). split; [reflexivity | simpl; lia].
    + destruct (isWhite2 a b).
      * intros H; injection H as <-.
        exists (String a (String b "")). split; [reflexivity | simpl; lia].
      * destruct (isWhite3 a b c); [|discriminate]. intros H; injection H as <-.
        exists (String a (String b (String c ""))). split; [reflexivity | simpl; lia].
Qed.

(** Induction along the white-space characters at the front. *)
Lemma white_ind (P : string -> Prop) :
  (forall s, afterWhite s = None -> P s) ->
  (forall s r, afterWhite s = Some r -> P r -> P s) ->
  forall s, P s.
Proof.
  intros Hnone Hsome. apply string_length_ind. intros s IH.
  destruct (afterWhite s) as [r|] eqn:E; [|now apply Hnone].
  apply (Hsome s r E). apply IH.
  now destruct (afterWhite_split s r E) as (_ & _ & Hlt).
Qed.

(** [trimStart] and [trimEnd] only drop characters at the two ends. *)
Lemma trimStart_suffix (s : string) : exists ws, s = ws ++ trimStart s.
Proof.
  induction s as [s E | s r E [ws IH]] using white_ind;
    rewrite trimStart_afterWhite, E.
  - now exists "".
  - destruct (afterWhite_split s r E) as (w & -> & _).
    exists (w ++ ws). rewrite append_assoc. now rewrite <- IH.
Qed.

Lemma afterWhite_trimStart (s : string) : afterWhite (trimStart s) = None.
Proof.
  induction s as [s E | s r E IH] using white_ind;
    rewrite trimStart_afterWhite, E; assumption.
Qed.

Lemma trimStart_fixed (s : string) : afterWhite s = None -> trimStart s = s.
Proof. intros E. now rewrite trimStart_afterWhite, E. Qed.

Lemma trimStart_idem (s : string) : trimStart (trimStart s) = trimStart s.
Proof. apply trimStart_fixed, afterWhite_trimStart. Qed.

(** Whether a text starts with white space is decided by its first bytes. *)
Lemma afterWhite_append (s r w : string) :
  afterWhite s = Some r -> afterWhite (s ++ w) = Some (r ++ w).
Proof.
  destruct s as [|a [|b [|c s]]]; cbn [afterWhite append]; [discriminate|..].
  - destruct (isWhite a); [|discriminate]. intros H; injection H as <-.
    destruct w; reflexivity.
  - destruct (isWhite a); [intros H; injection H as <-; reflexivity|].
    destruct (isWhite2 a b); [|discriminate]. intros H; injection H as <-.
    destruct w; reflexivity.
  - destruct (isWhite a); [intros H; injection H as <-; reflexivity|].
    destruct (isWhite2 a b); [intros H; injection H as <-; reflexivity|].
    destruct (isWhite3 a b c); [|discriminate]. intros H; injection H as <-. reflexivity.
Qed.

(** White space in front of a text is dropped with the white space the
    text starts with. *)
Lemma trimStart_white_append (u w : string) :
  trimStart u = "" -> trimStart (u ++ w) = trimStart w.
Proof.
  induction u as [u E | u r E IH] using white_ind.
  - rewrite (trimStart_fixed u E). now intros ->.
  - rewrite (trimStart_afterWhite u), E. intros Hr.
    rewrite (trimStart_afterWhite (u ++ w)), (afterWhite_append u r w E). now apply IH.
Qed.

(** [trimEnd] cuts off white space only. *)
Lemma trimEnd_cut (s : string) : exists ws, s = trimEnd s ++ ws /\ trimStart ws = "".
Proof.
  induction s as [|c s (ws & IH & Hws)]; [now exists ""|].
  cbn [trimEnd]. destruct (trimStart (String c s) =? "") eqn:E.
  - apply String.eqb_eq in E. now exists (String c s).
  - exists ws. split; [|exact Hws]. cbn [append]. now rewrite <- IH.
Qed.

Lemma trimEnd_prefix (s : string) : exists ws, s = trimEnd s ++ ws.
Proof. destruct (trimEnd_cut s) as (ws & H & _). now exists ws. Qed.

Lemma trimEnd_cons (c : ascii) (s : string) :
  trimStart (String c s) <> "" -> trimEnd (String c s) = String c (trimEnd s).
Proof. intros H. cbn [trimEnd]. apply String.eqb_neq in H. now rewrite H. Qed.

(** A plain character is no byte of a white-space character. *)
Lemma plain_spec (c : ascii) :
  plain c = true -> isWhite c = false /\ nat_of_ascii c < 128.
Proof.
  unfold plain. intros H. apply andb_true_iff in H as [Hn Hw].
  apply Nat.ltb_lt in Hn. now apply negb_true_iff in Hw.
Qed.

Lemma eqb_ascii_high (n k : nat) : n < 128 -> 128 <= k -> (n =? k)%nat = false.
Proof. intros Hn Hk. apply Nat.eqb_neq. lia. Qed.

Lemma plain_first (c : ascii) (s : string) :
  plain c = true -> afterWhite (String c s) = None.
Proof.
  intros H. apply plain_spec in H as [Hw Hn].
  assert (H2 : forall b, isWhite2 c b = false).
  { intros b. unfold isWhite2. now rewrite (eqb_ascii_high _ 194 Hn) by lia. }
  assert (H3 : forall b d, isWhite3 c b d = false).
  { intros b d. unfold isWhite3. cbv zeta.
    rewrite (eqb_ascii_high _ 225 Hn), (eqb_ascii_high _ 226 Hn),
      (eqb_ascii_high _ 227 Hn), (eqb_ascii_high _ 239 Hn) by lia.
    reflexivity. }
  cbn [afterWhite]. rewrite Hw. destruct s as [|b [|d s]]; [reflexivity|..].
  - now rewrite H2.
  - now rewrite H2, H3.
Qed.

Lemma plain_second (a c : ascii) : plain c = true -> isWhite2 a c = false.
Proof.
  intros H. apply plain_spec in H as [_ Hn]. unfold isWhite2.
  rewrite (eqb_ascii_high _ 160 Hn) by lia. apply andb_false_r.
Qed.

Lemma plain_second3 (a c d : ascii) : plain c = true -> isWhite3 a c d = false.
Proof.
  intros H. apply plain_spec in H as [_ Hn]. unfold isWhite3. cbv zeta.
  rewrite (eqb_ascii_high _ 154 Hn), (eqb_ascii_high _ 128 Hn),
    (eqb_ascii_high _ 129 Hn), (eqb_ascii_high _ 187 Hn) by lia.
  now rewrite !andb_false_r.
Qed.

Lemma plain_third (a b c : ascii) : plain c = true -> isWhite3 a b c = false.
Proof.
  intros H. apply plain_spec in H as [_ Hn]. unfold isWhite3. cbv zeta.
  rewrite (eqb_ascii_high _ 128 Hn), (eqb_ascii_high _ 168 Hn),
    (eqb_ascii_high _ 169 Hn), (eqb_ascii_high _ 175 Hn),
    (eqb_ascii_high _ 159 Hn), (eqb_ascii_high _ 191 Hn) by lia.
  replace (128 <=? nat_of_ascii c)%nat with false by (symmetry; apply Nat.leb_gt; lia).
  cbn [andb orb]. now rewrite !andb_false_r.
Qed.

(** A white-space character in front of a plain one ends before it. *)
Lemma afterWhite_before_plain (a : string) (c : ascii) (t r : string) :
  plain c = true -> afterWhite (a ++ String c t) = Some r ->
  exists a', r = a' ++ String c t.
Proof.
  intros Hc. destruct a as [|x [|y [|z a]]]; cbn [append].
  - now rewrite plain_first.
  - cbn [afterWhite]. destruct (isWhite x).
    + intros H; injection H as <-. now exists "".
    + rewrite (plain_second x c Hc). destruct t as [|d t]; [discriminate|].
      now rewrite (plain_second3 x c d Hc).
  - cbn [afterWhite]. destruct (isWhite x).
    + intros H; injection H as <-. now exists (String y "").
    + destruct (isWhite2 x y).
      * intros H; injection H as <-. now exists "".
      * now rewrite (plain_third x y c Hc).
  - cbn [afterWhite]. destruct (isWhite x).
    + intros H; injection H as <-. now exists (String y (String z a)).
    + destruct (isWhite2 x y).
      * intros H; injection H as <-. now exists (String z a).
      * destruct (isWhite3 x y z); [|discriminate].
        intros H; injection H as <-. now exists a.
Qed.

(** Trimming stops at a plain character, from either end. *)
Lemma trimStart_keeps (a : string) (c : ascii) (t : string) :
  plain c = true -> exists a', trimStart (a ++ String c t) = a' ++ String c t.
Proof.
  intros Hc. remember (a ++ String c t) as s eqn:Es. revert a Es.
  induction s as [s E | s r E IH] using white_ind; intros a ->.
  - exists a. now apply trimStart_fixed.
  - destruct (afterWhite_before_plain a c t r Hc E) as [a' ->].
    destruct (IH a' eq_refl) as [a'' Ha'']. exists a''.
    now rewrite trimStart_afterWhite, E.
Qed.

Lemma trimEnd_through_plain (u : string) (c : ascii) (v : string) :
  plain c = true -> trimEnd (u ++ String c v) = u ++ String c (trimEnd v).
Proof.
  intros Hc. induction u as [|x u IH]; cbn [append].
  - apply trimEnd_cons. rewrite (trimStart_fixed _ (plain_first c v Hc)). discriminate.
  - rewrite trimEnd_cons; [now rewrite IH|].
    destruct (trimStart_keeps (String x u) c v Hc) as [a' Ha'].
    cbn [append] in Ha'. rewrite Ha'. now destruct a'.
Qed.

Lemma trimEnd_through_allPlain (k u v : string) :
  allPlain k = true -> k <> "" -> trimEnd (u ++ k ++ v) = u ++ k ++ trimEnd v.
Proof.
  revert u. induction k as [|c k IH]; intros u Hk Hne; [contradiction|].
  cbn [allPlain] in Hk. apply andb_true_iff in Hk as [Hc Hk].
  destruct k as [|d k].
  - cbn [append]. now apply trimEnd_through_plain.
  - change (u ++ String c (String d k) ++ v) with (u ++ String c "" ++ String d k ++ v).
    rewrite <- (append_assoc u). rewrite IH; [|exact Hk|discriminate].
    now rewrite append_assoc.
Qed.

(** A keyword of plain characters survives [trim] of the text. *)
Lemma includes_trim (k s : string) :
  allPlain k = true -> k <> "" ->
  includes k s = true -> includes k (trim s) = true.
Proof.
  intros Hk Hne H. apply includes_occurs in H as (a & b & ->).
  destruct k as [|c k]; [contradiction|].
  assert (Hc : plain c = true) by (cbn [allPlain] in Hk; now apply andb_true_iff in Hk).
  destruct (trimStart_keeps a c (k ++ b) Hc) as [a' Ha'].
  unfold trim. change (String c k ++ b) with (String c (k ++ b)). rewrite Ha'.
  change (String c (k ++ b)) with (String c k ++ b).
  rewrite (trimEnd_through_allPlain _ a' b Hk Hne).
  apply includes_occurs. now exists a', (trimEnd b).
Qed.

(** What [trim] of a text contains, the text contains. *)
Lemma includes_trim_inv (k s : string) :
  includes k (trim s) = true -> includes k s = true.
Proof.
  unfold trim. intros H. apply includes_occurs in H as (a & b & H).
  destruct (trimStart_suffix s) as [w1 H1], (trimEnd_prefix (trimStart s)) as [w2 H2].
  apply includes_occurs. exists (w1 ++ a), (b ++ w2).
  rewrite H1 at 1. rewrite H2 at 1. rewrite H.
  now rewrite !append_assoc.
Qed.

(** A character of one byte counts one. *)
Lemma utf16Length_ascii (c : ascii) (s : string) :
  nat_of_ascii c < 192 -> utf16Length (String c s) = S (utf16Length s).
Proof. intros H. cbn [utf16Length]. apply Nat.ltb_lt in H. now rewrite H. Qed.

Lemma utf16Length_replicate (n : nat) (c : ascii) :
  nat_of_ascii c < 192 -> utf16Length (replicate n c) = n.
Proof.
  intros H. induction n as [|n IH]; [reflexivity|].
  cbn [replicate]. now rewrite utf16Length_ascii, IH.
Qed.

Lemma toLowerCase_ascii (c : ascii) (s : string) :
  nat_of_ascii c < 128 ->
  toLowerCase (String c s) = String (lowerChar c) (toLowerCase s).
Proof.
  intros Hn.
  assert (HI : forall b, isDottedI c b = false).
  { intros b. unfold isDottedI. now rewrite (eqb_ascii_high _ 196 Hn) by lia. }
  assert (HK : forall b d, isKelvin c b d = false).
  { intros b d. unfold isKelvin. now rewrite (eqb_ascii_high _ 226 Hn) by lia. }
  destruct s as [|b [|d s]]; cbn [toLowerCase]; [reflexivity|..].
  - now rewrite HI.
  - now rewrite HI, HK.
Qed.

(** An ASCII character is no byte of a longer character: what precedes it
    is lowered on its own. *)
Lemma toLowerCase_before_ascii (a : string) (c : ascii) (t : string) :
  nat_of_ascii c < 128 ->
  exists a', toLowerCase (a ++ String c t) = a' ++ String (lowerChar c) (toLowerCase t).
Proof.
  intros Hn.
  assert (HI : forall x, isDottedI x c = false).
  { intros x. unfold isDottedI. rewrite (eqb_ascii_high _ 176 Hn) by lia. apply andb_false_r. }
  assert (HK2 : forall x d, isKelvin x c d = false).
  { intros x d. unfold isKelvin. rewrite (eqb_ascii_high _ 132 Hn) by lia.
    now rewrite andb_false_r. }
  assert (HK3 : forall x y, isKelvin x y c = false).
  { intros x y. unfold isKelvin. rewrite (eqb_ascii_high _ 170 Hn) by lia.
    apply andb_false_r. }
  induction a as [a IH] using string_length_ind.
  destruct a as [|x [|y [|z a]]]; cbn [append].
  - exists "". now apply toLowerCase_ascii.
  - exists (String (lowerChar x) ""). cbn [toLowerCase]. rewrite HI.
    destruct t as [|d t]; [reflexivity|]. rewrite HK2. cbn [append]. f_equal.
    exact (toLowerCase_ascii c (String d t) Hn).
  - destruct (IH (String y "")) as [a' Ha']; [simpl; lia|]. cbn [append] in Ha'.
    cbn [toLowerCase]. destruct (isDottedI x y).
    + exists (String "i"%char combiningDot). cbn [append combiningDot]. do 3 f_equal.
      exact (toLowerCase_ascii c t Hn).
    + rewrite HK3. exists (String (lowerChar x) a'). cbn [append]. f_equal. exact Ha'.
  - cbn [toLowerCase]. destruct (isDottedI x y).
    + destruct (IH (String z a)) as [a' Ha']; [simpl; lia|]. cbn [append] in Ha'.
      exists (String "i"%char (combiningDot ++ a')).
      cbn [append]. f_equal. rewrite append_assoc. f_equal. exact Ha'.
    + destruct (isKelvin x y z).
      * destruct (IH a) as [a' Ha']; [simpl; lia|].
        exists (String "k"%char a'). cbn [append]. f_equal. exact Ha'.
      * destruct (IH (String y (String z a))) as [a' Ha']; [simpl; lia|].
        cbn [append] in Ha'. exists (String (lowerChar x) a'). cbn [append]. f_equal.
        exact Ha'.
Qed.

Lemma toLowerCase_allLowerAscii (k b : string) :
  allLowerAscii k = true -> toLowerCase (k ++ b) = k ++ toLowerCase b.
Proof.
  induction k as [|c k IH]; [reflexivity|]. cbn [allLowerAscii append].
  intros H. apply andb_true_iff in H as [Hc Hk]. unfold lowerAscii in Hc.
  apply andb_true_iff in Hc as [Hn He]. apply Nat.ltb_lt in Hn.
  apply Ascii.eqb_eq in He. rewrite (toLowerCase_ascii c _ Hn), He. now rewrite IH.
Qed.

(** An ASCII keyword already in lower case survives [toLowerCase] of the
    text. *)
Lemma includes_toLowerCase (k s : string) :
  allLowerAscii k = true -> includes k s = true -> includes k (toLowerCase s) = true.
Proof.
  intros Hk H. apply includes_occurs in H as (a & b & ->).
  apply includes_occurs. destruct k as [|c k].
  - exists "", (toLowerCase (a ++ b)). reflexivity.
  - pose proof Hk as Hk'. cbn [allLowerAscii] in Hk.
    apply andb_true_iff in Hk as [Hc _]. unfold lowerAscii in Hc.
    apply andb_true_iff in Hc as [Hn _]. apply Nat.ltb_lt in Hn.
    destruct (toLowerCase_before_ascii a c (k ++ b) Hn) as [a' Ha'].
    exists a', (toLowerCase b). change (String c k ++ b) with (String c (k ++ b)).
    rewrite Ha'. f_equal.
    change (String (lowerChar c) (toLowerCase (k ++ b)))
      with (String (lowerChar c) "" ++ toLowerCase (k ++ b)).
    pose proof (toLowerCase_allLowerAscii (String c k) b Hk') as E.
    cbn [append] in E. rewrite (toLowerCase_ascii c _ Hn) in E.
    cbn [append]. exact E.
Qed.

End StringFacts.

(* ------------------------------------------------------------------ *)
(** ** How computations end                                            *)
(* ------------------------------------------------------------------ *)

Section Effects.
Context {A B : Type}.

Lemma outcome_bind (m : M A) (k : A -> M B) :
  outcome (bind m k) =
  match outcome m with
  | Returned a => outcome (k a)
  | Thrown e => Thrown e
  end.
Proof.
  destruct m as [t [a|e]]; simpl; [|reflexivity]. now destruct (k a).
Qed.

Lemma trace_bind (m : M A) (k : A -> M B) :
  trace (bind m k) =
  match outcome m with
  | Returned a => (trace m ++ trace (k a))%list
  | Thrown e => trace m
  end.
Proof.
  destruct m as [t [a|e]]; simpl; [|reflexivity]. now destruct (k a).
Qed.

Lemma outcome_tryCatch (m : M A) (h : Exn -> M A) :
  outcome (tryCatch m h) =
  match outcome m with
  | Returned a => Returned a
  | Thrown e => outcome (h e)
  end.
Proof.
  destruct m as [t [a|e]]; simpl; [reflexivity|]. now destruct (h e).
Qed.

Lemma trace_tryCatch (m : M A) (h : Exn -> M A) :
  trace (tryCatch m h) =
  match outcome m with
  | Returned a => trace m
  | Thrown e => (trace m ++ trace (h e))%list
  end.
Proof.
  destruct m as [t [a|e]]; simpl; [reflexivity|]. now destruct (h e).
Qed.

Lemma outcome_emit_bind (ev : Event) (k : unit -> M B) :
  outcome (bind (emit ev) k) = outcome (k tt).
Proof. unfold emit, bind. now destruct (k tt). Qed.

Lemma outcome_log_bind lvl msg meta (k : unit -> M B) :
  outcome (bind (log lvl msg meta) k) = outcome (k tt).
Proof. apply outcome_emit_bind. Qed.

End Effects.

(* ------------------------------------------------------------------ *)
(** ** Session keys                                                    *)
(* ------------------------------------------------------------------ *)

Section SessionKeys.

Lemma generateSessionId_selfKey : generateSessionId selfKey = selfKey.
Proof. reflexivity. Qed.

Local Ltac next H x :=
  let c := fresh "c" in
  destruct x as [|c x];
  cbn -[Base64.d1 Base64.d2 Base64.d3 Base64.d4] in H;
  [ discriminate H | ];
  let Hc := fresh "Hc" in
  injection H as Hc H; vm_compute in Hc; subst c.

(** Reading [x = "user-" ++ slice0 16 (encode x)] left to right fixes [x]
    one character at a time: every three known characters give the next
    four of the encoding. *)
Lemma generateSessionId_fixed_unique (x : string) :
  generateSessionId x = x -> x = selfKey.
Proof.
  unfold generateSessionId, slice0. intro H. symmetry in H.
  do 21 (next H x).
  cbn in H. subst x. reflexivity.
Qed.

End SessionKeys.

(** C10.  Session-key derivation is a function of the sender identity
    alone: equal identities give equal keys.  The key starts with [user-],
    so it differs from every identity that does not: from every
    channel-qualified address [whatsapp:...], and so from every [From] value
    that passes the webhook's pattern.  (The one string the function maps to
    itself, by [generateSessionId_fixed_unique], starts with [user-] and is
    no sender identity.) *)
Theorem generateSessionId_deterministic_not_identity (x : string) :
  (forall y, y = x -> generateSessionId y = generateSessionId x)
  /\ prefix "user-" (generateSessionId x) = true
  /\ (prefix "user-" x = false -> generateSessionId x <> x)
  /\ (prefix "whatsapp:" x = true -> generateSessionId x <> x)
  /\ (RequestValidator.phoneRegex x = true -> generateSessionId x <> x).
Proof.
  assert (Hkey : prefix "user-" (generateSessionId x) = true).
  { unfold generateSessionId. apply prefix_append. now eexists. }
  assert (Hchannel : prefix "whatsapp:" x = true -> generateSessionId x <> x).
  { intros Hp Hfix. rewrite <- Hfix in Hp. discriminate Hp. }
  split; [now intros y -> | split; [exact Hkey | split; [|split; [exact Hchannel|]]]].
  - intros Hp Hfix. rewrite Hfix in Hkey. congruence.
  - intros Hre. apply Hchannel. unfold RequestValidator.phoneRegex in Hre.
    apply andb_true_iff in Hre as [Hp _]. apply prefix_append in Hp as [b ->].
    apply prefix_append. now exists ("+" ++ b).
Qed.

Lemma generateSessionId_deterministic_not_identity_witness :
  generateSessionId "whatsapp:+256700123456" <> "whatsapp:+256700123456".
Proof.
  refine (proj1 (proj2 (proj2 (proj2
            (generateSessionId_deterministic_not_identity "whatsapp:+256700123456")))) _).
  reflexivity.
Defined.

(* ------------------------------------------------------------------ *)
(** ** Food responses                                                  *)
(* ------------------------------------------------------------------ *)

Section Food.

Lemma filter_nil_of_none {A} (p : A -> bool) (l : list A) :
  (forall x, In x l -> p x = false) -> filter p l = [].
Proof.
  induction l as [|x l IH]; intros H; simpl; [reflexivity|].
  rewrite (H x (or_introl eq_refl)). apply IH. intros y Hy. apply H. now right.
Qed.

End Food.

(** C4 (as stated, refuted).  A list with no [Food]-category service, whose
    one [Health] service belongs to an organization with [WFP] in its name,
    is rendered as a service listing, not as the guidance message. *)
Lemma formatFoodResponse_lists_wfp_organization :
  filter (fun s => Service.category s =? "Food") [wfpClinic] = []
  /\ message (formatFoodResponse [wfpClinic]) <> foodGuidance.
Proof. split; [reflexivity | discriminate]. Qed.

(** C4 (amended).  If no service in the list has category [Food] and none
    has an organization name containing [WFP], the Food response is the
    static guidance message (with the Food quick replies), whatever else the
    list holds. *)
Theorem formatFoodResponse_guidance (services : list Service.t)
    (Hcat : forall s, In s services -> Service.category s <> "Food")
    (Horg : forall s, In s services -> includes "WFP" (Service.organization s) = false) :
  formatFoodResponse services =
    {| message := foodGuidance; quickReplies := Some QUICK_REPLIES.FOOD |}.
Proof.
  unfold formatFoodResponse.
  rewrite filter_nil_of_none; [reflexivity|].
  intros s Hs. unfold isFoodService.
  rewrite (Horg s Hs), orb_false_r. apply String.eqb_neq. now apply Hcat.
Qed.

Lemma formatFoodResponse_guidance_witness :
  formatFoodResponse
    [ {| Service.id := 3; Service.category := "Shelter";
         Service.organization := "UNHCR"; Service.services := "Tents";
         Service.contact_phone := None; Service.contact_email := None;
         Service.location := None; Service.notes := None |} ] =
    {| message := foodGuidance; quickReplies := Some QUICK_REPLIES.FOOD |}.
Proof.
  apply formatFoodResponse_guidance.
  - intros s [<-|[]]. discriminate.
  - intros s [<-|[]]. reflexivity.
Defined.

(* ------------------------------------------------------------------ *)
(** ** Sorting                                                         *)
(* ------------------------------------------------------------------ *)

Section Sorting.
Import JsArray.

Lemma Permutation_insertBy {A} (cmp : A -> A -> Z) (x : A) (l : list A) :
  Permutation (x :: l) (insertBy cmp x l).
Proof.
  induction l as [|y l IH]; simpl; [apply Permutation_refl|].
  destruct (cmp x y <=? 0)%Z; [apply Permutation_refl|].
  eapply perm_trans; [apply perm_swap | apply perm_skip, IH].
Qed.

Lemma Permutation_sortBy {A} (cmp : A -> A -> Z) (l : list A) :
  Permutation l (sortBy cmp l).
Proof.
  induction l as [|x l IH]; simpl; [apply perm_nil|].
  eapply perm_trans; [apply perm_skip, IH | apply Permutation_insertBy].
Qed.

Lemma insertBy_step_sorted (x : RegistrationStep.t) (l : list RegistrationStep.t) :
  StronglySorted stepLe l -> StronglySorted stepLe (insertBy byStepNumber x l).
Proof.
  induction 1 as [|y l Hs IH Hy]; simpl.
  - repeat constructor.
  - unfold byStepNumber at 1.
    destruct (Z.leb_spec (RegistrationStep.step_number x - RegistrationStep.step_number y) 0)
      as [Hle|Hgt].
    + constructor; [now constructor|].
      constructor; [unfold stepLe; lia|].
      eapply Forall_impl; [|exact Hy]. unfold stepLe. intros z Hz. lia.
    + constructor; [exact IH|].
      eapply Permutation_Forall; [apply Permutation_insertBy|].
      constructor; [unfold stepLe; lia | exact Hy].
Qed.

Lemma sortBy_step_sorted (l : list RegistrationStep.t) :
  StronglySorted stepLe (sortBy byStepNumber l).
Proof.
  induction l as [|x l IH]; simpl; [constructor | now apply insertBy_step_sorted].
Qed.

Lemma sortBy_step_fixed (l : list RegistrationStep.t) :
  StronglySorted stepLe l -> sortBy byStepNumber l = l.
Proof.
  induction 1 as [|x l Hs IH Hx]; simpl; [reflexivity|].
  rewrite IH. destruct l as [|y l]; [reflexivity|]. simpl.
  inversion Hx as [|? ? Hxy _]; subst. unfold byStepNumber, stepLe in *.
  destruct (Z.leb_spec (RegistrationStep.step_number x - RegistrationStep.step_number y) 0);
    [reflexivity | lia].
Qed.

(** Inserting an unflagged contact: it passes the flagged ones and stops in
    front of the first unflagged one. *)
Lemma insertBy_unflagged (x : Contact.t) (U N : list Contact.t) :
  Contact.is_urgent x = false ->
  Forall (fun c => Contact.is_urgent c = true) U ->
  Forall (fun c => Contact.is_urgent c = false) N ->
  insertBy urgentFirst x (U ++ N) = (U ++ x :: N)%list.
Proof.
  intros Hx HU HN. induction HU as [|y U Hy HU IH]; simpl.
  - destruct HN as [|z N Hz HN]; simpl; [reflexivity|].
    unfold urgentFirst. now rewrite Hx, Hz.
  - unfold urgentFirst at 1. rewrite Hx, Hy. simpl. now rewrite IH.
Qed.

Lemma insertBy_flagged (x : Contact.t) (l : list Contact.t) :
  Contact.is_urgent x = true -> insertBy urgentFirst x l = x :: l.
Proof.
  intros Hx. destruct l as [|y l]; simpl; [reflexivity|].
  unfold urgentFirst. rewrite Hx. now destruct (Contact.is_urgent y).
Qed.

Lemma Forall_filter {A} (p : A -> bool) (l : list A) :
  Forall (fun x => p x = true) (filter p l).
Proof. apply Forall_forall. intros x Hx. now apply filter_In in Hx. Qed.

Lemma sortBy_urgentFirst_partition (l : list Contact.t) :
  sortBy urgentFirst l =
  (filter Contact.is_urgent l ++ filter (fun c => negb (Contact.is_urgent c)) l)%list.
Proof.
  induction l as [|x l IH]; simpl; [reflexivity|].
  rewrite IH. destruct (Contact.is_urgent x) eqn:Hx; simpl.
  - now apply insertBy_flagged.
  - apply insertBy_unflagged; [exact Hx | apply Forall_filter |].
    apply Forall_forall. intros c Hc. apply filter_In in Hc as [_ Hc].
    now destruct (Contact.is_urgent c).
Qed.

Lemma filter_filter {A} (p q : A -> bool) (l : list A) :
  filter p (filter q l) = filter (fun x => q x && p x) l.
Proof.
  induction l as [|x l IH]; simpl; [reflexivity|].
  destruct (q x); simpl; [destruct (p x); now rewrite IH | exact IH].
Qed.

End Sorting.

(* ------------------------------------------------------------------ *)
(** ** The intent resolver                                             *)
(* ------------------------------------------------------------------ *)

Section Resolver.
Import DialogflowService Classifier.

Lemma outcome_promiseAll3 {A B C} (a : M A) (b : M B) (c : M C) :
  outcome (promiseAll3 a b c) =
  match outcome a, outcome b, outcome c with
  | Returned x, Returned y, Returned z => Returned (x, y, z)
  | Thrown e, _, _ => Thrown e
  | _, Thrown e, _ => Thrown e
  | _, _, Thrown e => Thrown e
  end.
Proof.
  unfold promiseAll3. now destruct (outcome a), (outcome b), (outcome c).
Qed.

Lemma outcome_promiseAll2 {A B} (a : M A) (b : M B) :
  outcome (promiseAll2 a b) =
  match outcome a, outcome b with
  | Returned x, Returned y => Returned (x, y)
  | Thrown e, _ => Thrown e
  | _, Thrown e => Thrown e
  end.
Proof.
  unfold promiseAll2. now destruct (outcome a), (outcome b).
Qed.

Lemma outcome_getServicesByCategory w category :
  outcome (ServiceRepository.getServicesByCategory w category)
  = fetched (services_by_category w category).
Proof.
  unfold ServiceRepository.getServicesByCategory, fetched.
  now destruct (error (services_by_category w category)).
Qed.

Lemma outcome_handleFoodIntent w :
  outcome (handleFoodIntent w) =
  match fetched (services_by_category w "Food") with
  | Returned services => Returned (formatFoodResponse services)
  | Thrown e => Thrown e
  end.
Proof.
  unfold handleFoodIntent. rewrite outcome_bind, outcome_getServicesByCategory.
  now destruct (fetched _).
Qed.

Lemma outcome_getAllSteps w :
  outcome (RegistrationStepRepository.getAllSteps w) = fetched (registration_steps w).
Proof.
  unfold RegistrationStepRepository.getAllSteps, fetched.
  now destruct (error (registration_steps w)).
Qed.

Lemma outcome_getRequiredDocuments w :
  outcome (RegistrationStepRepository.getRequiredDocuments w)
  = fetched (required_documents w).
Proof.
  unfold RegistrationStepRepository.getRequiredDocuments, fetched.
  now destruct (error (required_documents w)).
Qed.

Lemma outcome_getContactsByType w type :
  outcome (ContactRepository.getContactsByType w type) = fetched (contacts_by_type w type).
Proof.
  unfold ContactRepository.getContactsByType, fetched.
  now destruct (error (contacts_by_type w type)).
Qed.

Lemma outcome_getAllContacts w :
  outcome (ContactRepository.getAllContacts w) = fetched (contacts_all w).
Proof.
  unfold ContactRepository.getAllContacts, fetched.
  now destruct (error (contacts_all w)).
Qed.

Lemma outcome_handleRegistrationIntent w :
  outcome (handleRegistrationIntent w) =
  match fetched (registration_steps w), fetched (required_documents w),
        fetched (contacts_by_type w "General") with
  | Returned steps, Returned documents, Returned contacts =>
      Returned (fst (formatRegistrationResponse steps documents contacts))
  | Thrown e, _, _ => Thrown e
  | _, Thrown e, _ => Thrown e
  | _, _, Thrown e => Thrown e
  end.
Proof.
  unfold handleRegistrationIntent.
  rewrite outcome_bind, outcome_promiseAll3, outcome_getAllSteps,
    outcome_getRequiredDocuments, outcome_getContactsByType.
  now destruct (fetched (registration_steps w)), (fetched (required_documents w)),
    (fetched (contacts_by_type w "General")).
Qed.

(** The chain of [handleMessageWithBuiltInLogic] tests the groups in the
    order of [keywordIntent] and runs the handler of the first that
    matches. *)
Lemma handleMessageWithBuiltInLogic_respond w message :
  handleMessageWithBuiltInLogic w message =
  (emit (Enter HandleMessageWithBuiltInLogic) ;; respond w (keywordIntent message)).
Proof.
  unfold handleMessageWithBuiltInLogic, keywordIntent. cbv zeta.
  repeat match goal with
         | |- context [if ?c then _ else _] => destruct c
         end; reflexivity.
Qed.

Lemma outcome_handleMessageWithBuiltInLogic w message :
  outcome (handleMessageWithBuiltInLogic w message)
  = outcome (respond w (keywordIntent message)).
Proof. rewrite handleMessageWithBuiltInLogic_respond. apply outcome_emit_bind. Qed.

(** With the integration off, [getResponse] ends the way Path B does, and
    the way a second run of Path B does if the first one throws. *)
Lemma outcome_getResponse_disabled svc w w' message sessionId :
  isEnabled svc = false ->
  outcome (getResponse svc w w' message sessionId)
  = match outcome (handleMessageWithBuiltInLogic w message) with
    | Returned r => Returned r
    | Thrown _ => outcome (handleMessageWithBuiltInLogic w' message)
    end.
Proof.
  intros Hoff. unfold getResponse.
  rewrite outcome_emit_bind, outcome_tryCatch, Hoff. simpl negb. cbv iota.
  destruct (outcome (handleMessageWithBuiltInLogic w message)) eqn:Hb; [reflexivity|].
  now rewrite outcome_log_bind.
Qed.

(** Path B lets a failing fetch through: with the integration off, a
    message of the food group and an unreadable services table, the
    repository's exception leaves [getResponse]. *)
Lemma getResponse_builtIn_food_fetch_error svc w message sessionId msg :
  isEnabled svc = false ->
  keywordIntent message = Food ->
  error (services_by_category w "Food") = Some msg ->
  outcome (getResponse svc w w message sessionId) = Thrown ("Database error: " ++ msg).
Proof.
  intros Hoff Hfood Herr.
  rewrite (outcome_getResponse_disabled svc w w message sessionId Hoff).
  rewrite outcome_handleMessageWithBuiltInLogic, Hfood. cbn [respond].
  rewrite outcome_handleFoodIntent. unfold fetched. now rewrite Herr.
Qed.


End Resolver.

(** C2 (the code departs from it).  Path B is to turn a failing data fetch
    into the generic apology; with the services table unreadable and the
    integration off, [getResponse] on ["I need food"] ends in the
    repository's exception, after running Path B twice. *)
Theorem getResponse_builtIn_propagates_fetch_error :
  outcome (DialogflowService.getResponse builtInOnly servicesDown servicesDown
             "I need food" "user-abc")
    = Thrown "Database error: connection refused"
  /\ outcome (DialogflowService.handleMessageWithBuiltInLogic servicesDown "I need food")
    = Thrown "Database error: connection refused"
  /\ outcome (DialogflowService.handleIntentWithCustomLogic servicesDown "find_food" "{}")
    = Returned (formatErrorResponse (Some "Database error: connection refused")).
Proof. repeat split; reflexivity. Qed.

(* ------------------------------------------------------------------ *)
(** ** The registration steps stay as they were fetched                *)
(* ------------------------------------------------------------------ *)

Section Registration.

Lemma formatRegistrationResponse_steps_after steps documents contacts :
  snd (formatRegistrationResponse steps documents contacts)
  = JsArray.sortBy byStepNumber steps.
Proof. reflexivity. Qed.


End Registration.

(** Called on steps out of order, which no reply in the order of the query
    holds, [formatRegistrationResponse] leaves the array it was given
    sorted. *)
Remark formatRegistrationResponse_sorts_in_place :
  snd (formatRegistrationResponse [stepInterview; stepReport] [] [])
  = [stepReport; stepInterview].
Proof. reflexivity. Qed.



(* ------------------------------------------------------------------ *)
(** ** Every response carries a message                                *)
(* ------------------------------------------------------------------ *)

Section NonEmpty.
Import DialogflowService Classifier.

Lemma answers_ret r : message r <> "" -> answers (ret r).
Proof. intros Hr r' H. injection H as <-. exact Hr. Qed.

Lemma answers_throw e : answers (throw e).
Proof. intros r H. discriminate H. Qed.

Lemma answers_bind {A} (m : M A) (k : A -> M BotResponse) :
  (forall a, answers (k a)) -> answers (bind m k).
Proof.
  intros Hk r H. rewrite outcome_bind in H.
  destruct (outcome m) as [a|e]; [now apply (Hk a) | discriminate H].
Qed.

Lemma answers_tryCatch (m : M BotResponse) (h : Exn -> M BotResponse) :
  answers m -> (forall e, answers (h e)) -> answers (tryCatch m h).
Proof.
  intros Hm Hh r H. rewrite outcome_tryCatch in H.
  destruct (outcome m) as [a|e] eqn:Ho.
  - injection H as <-. now apply Hm.
  - now apply (Hh e).
Qed.

Lemma neverThrows_tryCatch {A} (m : M A) (h : Exn -> M A) :
  (forall e, neverThrows (h e)) -> neverThrows (tryCatch m h).
Proof.
  intros Hh. unfold neverThrows. rewrite outcome_tryCatch.
  destruct (outcome m) as [a|e]; [now exists a | apply Hh].
Qed.

Lemma neverThrows_handleIntentWithCustomLogic w name parameters :
  neverThrows (handleIntentWithCustomLogic w name parameters).
Proof.
  unfold handleIntentWithCustomLogic. apply neverThrows_tryCatch.
  intros e. unfold neverThrows. rewrite outcome_log_bind. now eexists.
Qed.

Lemma message_formatRegistrationResponse steps documents contacts :
  message (fst (formatRegistrationResponse steps documents contacts)) <> "".
Proof. simpl. discriminate. Qed.

Lemma message_formatFoodResponse services :
  message (formatFoodResponse services) <> "".
Proof.
  unfold formatFoodResponse. destruct (JsArray.isEmpty _); simpl; discriminate.
Qed.

Lemma message_formatHealthcareResponse services contacts :
  message (formatHealthcareResponse services contacts) <> "".
Proof.
  unfold formatHealthcareResponse. cbv zeta.
  destruct (negb (JsArray.isEmpty (filter _ services)));
    destruct (negb (JsArray.isEmpty (filter _ contacts))); simpl; discriminate.
Qed.

Lemma message_formatEmergencyContacts contacts :
  message (formatEmergencyContacts contacts) <> "".
Proof.
  unfold formatEmergencyContacts, emergencyTitle. cbv zeta.
  destruct (negb (JsArray.isEmpty (JsArray.sortBy _ _)));
    destruct (negb (JsArray.isEmpty (filter isGeneral contacts))); simpl; discriminate.
Qed.

Lemma answers_respond w i : answers (respond w i).
Proof.
  destruct i; simpl.
  - apply answers_bind. intros [[steps documents] contacts].
    apply answers_ret, message_formatRegistrationResponse.
  - apply answers_bind. intros services.
    apply answers_ret, message_formatFoodResponse.
  - apply answers_bind. intros services.
    destruct (JsArray.isEmpty services); apply answers_ret; simpl; discriminate.
  - apply answers_bind. intros [services contacts].
    apply answers_ret, message_formatHealthcareResponse.
  - apply answers_bind. intros contacts.
    apply answers_ret, message_formatEmergencyContacts.
  - apply answers_ret. simpl. discriminate.
  - apply answers_ret. simpl. discriminate.
Qed.

Lemma answers_handleMessageWithBuiltInLogic w message :
  answers (handleMessageWithBuiltInLogic w message).
Proof.
  rewrite handleMessageWithBuiltInLogic_respond.
  apply answers_bind. intros _. apply answers_respond.
Qed.

Lemma answers_handleIntentWithCustomLogic w intent parameters :
  answers (handleIntentWithCustomLogic w intent parameters).
Proof.
  unfold handleIntentWithCustomLogic. apply answers_tryCatch.
  - repeat match goal with
           | |- context [if ?c then _ else _] => destruct c
           end.
    + apply (answers_respond w Registration).
    + apply (answers_respond w Food).
    + apply (answers_respond w Shelter).
    + apply (answers_respond w Healthcare).
    + apply (answers_respond w EmergencyContacts).
    + apply answers_ret. simpl. discriminate.
  - intros e. apply answers_bind. intros _. apply answers_ret. simpl. discriminate.
Qed.

Lemma truthy_nonempty o : truthy o = true -> ofNullable o <> "".
Proof.
  destruct o as [s|]; simpl; [|discriminate].
  intros H. apply String.eqb_neq. now destruct (s =? "").
Qed.

Lemma answers_handleMessageWithDialogflow svc w message sessionId :
  answers (handleMessageWithDialogflow svc w message sessionId).
Proof.
  unfold handleMessageWithDialogflow. apply answers_bind. intros _.
  destruct (sessionsClient svc); [|apply answers_throw].
  destruct (negb (truthy (projectId svc))); [apply answers_throw|].
  apply answers_bind. intros _. apply answers_bind. intros _.
  destruct (detectIntent w _ message) as [[q|]|e]; try apply answers_throw.
  apply answers_bind. intros _.
  destruct (truthy (intent q) && shouldUseCustomLogic (ofNullable (intent q))).
  - apply answers_handleIntentWithCustomLogic.
  - apply answers_ret. simpl.
    destruct (truthy (fulfillmentText q)) eqn:Ht;
      [now apply truthy_nonempty | discriminate].
Qed.

Lemma answers_getResponse svc w w' message sessionId :
  answers (getResponse svc w w' message sessionId).
Proof.
  unfold getResponse. apply answers_bind. intros _. apply answers_tryCatch.
  - destruct (negb (isEnabled svc));
      [apply answers_handleMessageWithBuiltInLogic | apply answers_handleMessageWithDialogflow].
  - intros e. apply answers_bind. intros _. apply answers_handleMessageWithBuiltInLogic.
Qed.

Lemma answers_processMessage svc w w' userMessage userPhone :
  answers (MessageService.processMessage svc w w' userMessage userPhone).
Proof.
  unfold MessageService.processMessage. apply answers_tryCatch.
  - apply answers_bind. intros _.
    destruct (_ || _); [apply answers_ret; simpl; discriminate|].
    destruct (_ <? _)%nat; [apply answers_ret; simpl; discriminate|].
    intros r H. rewrite outcome_bind in H.
    destruct (outcome (getResponse _ _ _ _ _)) as [a|e] eqn:Hg; [|discriminate H].
    rewrite outcome_log_bind in H. injection H as <-.
    exact (answers_getResponse _ _ _ _ _ _ Hg).
  - intros e. apply answers_bind. intros _. apply answers_ret. simpl. discriminate.
Qed.

Lemma neverThrows_processMessage svc w w' userMessage userPhone :
  neverThrows (MessageService.processMessage svc w w' userMessage userPhone).
Proof.
  unfold MessageService.processMessage. apply neverThrows_tryCatch.
  intros e. unfold neverThrows. rewrite outcome_log_bind. now eexists.
Qed.

(** The emptiness guard of [processMessage] is the test for a blank
    message. *)
Lemma blank_guard userMessage :
  (userMessage =? "") || (utf16Length (trim userMessage) =? 0)%nat
  = (trim userMessage =? "").
Proof.
  destruct (trim userMessage =? "") eqn:Hblank.
  - apply String.eqb_eq in Hblank. rewrite Hblank. apply orb_true_r.
  - apply String.eqb_neq in Hblank. apply orb_false_iff. split.
    + apply String.eqb_neq. intros ->. now apply Hblank.
    + destruct (utf16Length (trim userMessage) =? 0)%nat eqn:E; [|reflexivity].
      apply utf16Length_zero_iff in E. contradiction.
Qed.

(** The two guards of [processMessage] let a valid message through. *)
Lemma guards_pass userMessage :
  trim userMessage <> "" -> (utf16Length userMessage <= 500)%nat ->
  (userMessage =? "") || (utf16Length (trim userMessage) =? 0)%nat = false
  /\ (500 <? utf16Length userMessage)%nat = false.
Proof.
  intros Hne Hlen. split.
  - rewrite blank_guard. now apply String.eqb_neq.
  - apply Nat.ltb_ge. exact Hlen.
Qed.

End NonEmpty.

(** C1.  For every message that is not empty or white space only and has
    at most 500 characters, [processMessage] returns a response with a
    non-empty message; it returns (never throws) on every input whatever;
    and an exception out of [getResponse] is turned into the generic
    please-try-again response. *)
Theorem processMessage_returns_nonempty
    (svc : DialogflowService.t) (w w' : World) (userMessage userPhone : string)
    (Hne : trim userMessage <> "") (Hlen : (utf16Length userMessage <= 500)%nat) :
  (exists r, outcome (MessageService.processMessage svc w w' userMessage userPhone)
             = Returned r
             /\ message r <> "")
  /\ (forall svc0 w0 w1 m p, neverThrows (MessageService.processMessage svc0 w0 w1 m p))
  /\ (forall e,
        outcome (DialogflowService.getResponse svc w w' userMessage
                   (generateSessionId userPhone))
          = Thrown e ->
        outcome (MessageService.processMessage svc w w' userMessage userPhone)
          = Returned (textOnly MessageService.tryAgain)).
Proof.
  split; [|split].
  - destruct (neverThrows_processMessage svc w w' userMessage userPhone) as [r Hr].
    exists r. split;
      [exact Hr | now apply (answers_processMessage svc w w' userMessage userPhone)].
  - intros. apply neverThrows_processMessage.
  - intros e He. destruct (guards_pass userMessage Hne Hlen) as [Hg1 Hg2].
    unfold MessageService.processMessage.
    rewrite outcome_tryCatch, outcome_log_bind, Hg1, Hg2, outcome_bind, He.
    now rewrite outcome_log_bind.
Qed.

Lemma processMessage_returns_nonempty_witness :
  exists r, outcome (MessageService.processMessage builtInOnly servicesDown servicesDown
                       "I need food" "whatsapp:+256700123456") = Returned r
            /\ message r <> "".
Proof.
  apply (processMessage_returns_nonempty builtInOnly servicesDown servicesDown
           "I need food" "whatsapp:+256700123456").
  - vm_compute. discriminate.
  - vm_compute. lia.
Defined.

(* ------------------------------------------------------------------ *)
(** ** When the remote path fails                                      *)
(* ------------------------------------------------------------------ *)

Section RemoteFailure.
Import DialogflowService.



End RemoteFailure.




(* ------------------------------------------------------------------ *)
(** ** Validation comes first                                          *)
(* ------------------------------------------------------------------ *)

(** C7 (as stated, refuted).  The claim gives every input of more than 500
    characters the too-long message; a message of 501 blanks is longer than
    500 characters and gets the instructional message, because the
    emptiness test comes first. *)
Lemma processMessage_blank_over_limit :
  (500 < utf16Length blanks501)%nat
  /\ outcome (MessageService.processMessage builtInOnly servicesDown servicesDown
                blanks501 "whatsapp:+256700123456")
     = Returned (textOnly MessageService.instructional)
  /\ outcome (MessageService.processMessage builtInOnly servicesDown servicesDown
                blanks501 "whatsapp:+256700123456")
     <> Returned (textOnly MessageService.tooLong).
Proof.
  split; [|split].
  - unfold blanks501. rewrite utf16Length_replicate; [lia | vm_compute; lia].
  - vm_compute. reflexivity.
  - vm_compute. discriminate.
Qed.

(** C7 (amended).  For every input that is empty or white space only,
    [processMessage] returns the instructional message; for every input of
    more than 500 characters that is not white space only, it returns the
    too-long message; in both cases the trace holds nothing of the intent
    resolver: no method of it entered, no remote NLU call, no database
    read.  White space is what [trim] removes, and the characters counted
    are the UTF-16 code units of [length]. *)
Theorem processMessage_rejects_before_resolving
    (svc : DialogflowService.t) (w w' : World) (userMessage userPhone : string)
    (Hbad : trim userMessage = "" \/ (500 < utf16Length userMessage)%nat) :
  outcome (MessageService.processMessage svc w w' userMessage userPhone)
    = Returned (textOnly (if trim userMessage =? ""
                          then MessageService.instructional
                          else MessageService.tooLong))
  /\ consultsResolver (trace (MessageService.processMessage svc w w' userMessage userPhone))
     = false.
Proof.
  unfold MessageService.processMessage. rewrite blank_guard.
  destruct (trim userMessage =? "") eqn:Hblank.
  - split; reflexivity.
  - apply String.eqb_neq in Hblank.
    destruct Hbad as [Hb|Hlong]; [contradiction|].
    apply Nat.ltb_lt in Hlong. rewrite Hlong. split; reflexivity.
Qed.

Lemma processMessage_rejects_before_resolving_witness :
  outcome (MessageService.processMessage remoteFirst servicesDown servicesDown
             (replicate 501 "a") "whatsapp:+256700123456")
    = Returned (textOnly MessageService.tooLong)
  /\ consultsResolver
       (trace (MessageService.processMessage remoteFirst servicesDown servicesDown
                 (replicate 501 "a") "whatsapp:+256700123456"))
     = false.
Proof.
  apply (processMessage_rejects_before_resolving remoteFirst servicesDown servicesDown
           (replicate 501 "a") "whatsapp:+256700123456").
  right. rewrite utf16Length_replicate; [lia | vm_compute; lia].
Defined.

(* ------------------------------------------------------------------ *)
(** ** Order of the keyword groups                                     *)
(* ------------------------------------------------------------------ *)

Section KeywordOrder.
Import DialogflowService Classifier.

(** The chain of the source and the ordered table agree on every text. *)
Lemma keywordIntent_firstMatchingGroup message :
  keywordIntent message = firstMatchingGroup message.
Proof.
  unfold keywordIntent, firstMatchingGroup. cbv zeta.
  set (l := trim (toLowerCase message)).
  unfold keywordGroups, groupMatches. cbn [find existsb fst snd].
  destruct (includes "register" l); cbn [orb]; [reflexivity|].
  destruct (includes "registration" l); cbn [orb]; [reflexivity|].
  destruct (includes "opm" l); cbn [orb]; [reflexivity|].
  destruct (includes "food" l); cbn [orb]; [reflexivity|].
  destruct (includes "hungry" l); cbn [orb]; [reflexivity|].
  destruct (includes "eat" l); cbn [orb]; [reflexivity|].
  destruct (includes "shelter" l); cbn [orb]; [reflexivity|].
  destruct (includes "place to stay" l); cbn [orb]; [reflexivity|].
  destruct (includes "sleep" l); cbn [orb]; [reflexivity|].
  destruct (includes "health" l); cbn [orb]; [reflexivity|].
  destruct (includes "hospital" l); cbn [orb]; [reflexivity|].
  destruct (includes "doctor" l); cbn [orb]; [reflexivity|].
  destruct (includes "sick" l); cbn [orb]; [reflexivity|].
  destruct (includes "emergency" l); cbn [orb]; [reflexivity|].
  destruct (includes "help" l); cbn [orb]; [reflexivity|].
  destruct (includes "contact" l); cbn [orb]; [reflexivity|].
  destruct (includes "hello" l); cbn [orb]; [reflexivity|].
  destruct (includes "hi" l); cbn [orb]; [reflexivity|].
  destruct (includes "start" l); reflexivity.
Qed.

(** A keyword absent from the lower-cased text is absent after trimming. *)
Lemma excludes_normalised (k message : string) :
  includes k (toLowerCase message) = false ->
  includes k (trim (toLowerCase message)) = false.
Proof.
  intros H. destruct (includes k (trim (toLowerCase message))) eqn:E; [|reflexivity].
  apply includes_trim_inv in E. congruence.
Qed.

End KeywordOrder.

(** C5 (as stated, refuted).  The claim resolves every text containing both
    ["food"] and ["emergency"] to Food; ["register for food emergency"]
    contains both and is resolved by the registration group, which is
    tested first. *)
Lemma keywordIntent_registration_before_food :
  includes "food" "register for food emergency" = true
  /\ includes "emergency" "register for food emergency" = true
  /\ Classifier.keywordIntent "register for food emergency" = Classifier.Registration
  /\ DialogflowService.handleMessageWithBuiltInLogic servicesDown "register for food emergency"
     = (emit (Enter HandleMessageWithBuiltInLogic) ;;
        DialogflowService.handleRegistrationIntent servicesDown).
Proof. repeat split; reflexivity. Qed.

(** C5 (amended).  The keyword groups are tested in the fixed order
    registration, food, shelter, healthcare, emergency contacts, welcome,
    fallback, and the first matching group wins; in particular every
    message whose text contains both ["food"] and ["emergency"] and none of
    the registration keywords ["register"], ["registration"], ["opm"], in
    any letter case, is resolved to Food.  (By [includes_toLowerCase] a
    text that contains a keyword as written contains it in any case.) *)
Theorem keywordIntent_food_before_emergency (w : World) (message : string)
    (Hfood : includes "food" (toLowerCase message) = true)
    (Hemergency : includes "emergency" (toLowerCase message) = true)
    (Hregister : includes "register" (toLowerCase message) = false)
    (Hregistration : includes "registration" (toLowerCase message) = false)
    (Hopm : includes "opm" (toLowerCase message) = false) :
  Classifier.keywordIntent message = Classifier.Food
  /\ DialogflowService.handleMessageWithBuiltInLogic w message
     = (emit (Enter HandleMessageWithBuiltInLogic) ;; DialogflowService.handleFoodIntent w)
  /\ (forall w' m,
        Classifier.keywordIntent m = Classifier.firstMatchingGroup m
        /\ DialogflowService.handleMessageWithBuiltInLogic w' m
           = (emit (Enter HandleMessageWithBuiltInLogic) ;;
              Classifier.respond w' (Classifier.keywordIntent m))).
Proof.
  assert (Hintent : Classifier.keywordIntent message = Classifier.Food).
  { unfold Classifier.keywordIntent. cbv zeta.
    rewrite (excludes_normalised _ _ Hregister), (excludes_normalised _ _ Hregistration),
      (excludes_normalised _ _ Hopm).
    rewrite (includes_trim "food" _ eq_refl ltac:(discriminate) Hfood). reflexivity. }
  split; [exact Hintent | split].
  - rewrite handleMessageWithBuiltInLogic_respond, Hintent. reflexivity.
  - intros w' m. split;
      [apply keywordIntent_firstMatchingGroup | apply handleMessageWithBuiltInLogic_respond].
Qed.

Lemma keywordIntent_food_before_emergency_witness :
  Classifier.keywordIntent "Emergency: we have no food" = Classifier.Food.
Proof.
  refine (proj1 (keywordIntent_food_before_emergency servicesDown
                   "Emergency: we have no food" _ _ _ _ _)); reflexivity.
Defined.

(* ------------------------------------------------------------------ *)
(** ** Emergency contacts: the urgent block comes first                *)
(* ------------------------------------------------------------------ *)

Section EmergencyContacts.
Import JsArray.

Lemma In_insertBy {A} (cmp : A -> A -> Z) (x y : A) (l : list A) :
  In y (insertBy cmp x l) <-> y = x \/ In y l.
Proof.
  induction l as [|z l IH]; simpl.
  - intuition congruence.
  - destruct (cmp x z <=? 0)%Z; simpl; [|rewrite IH]; intuition congruence.
Qed.

Lemma In_sortBy {A} (cmp : A -> A -> Z) (y : A) (l : list A) :
  In y (sortBy cmp l) <-> In y l.
Proof.
  induction l as [|x l IH]; simpl; [reflexivity|].
  rewrite In_insertBy, IH. intuition congruence.
Qed.

Lemma isEmpty_In {A} (x : A) (l : list A) : In x l -> isEmpty l = false.
Proof. destruct l; [contradiction | reflexivity]. Qed.

Lemma join_cons (sep x : string) (y : string) (l : list string) :
  join sep (x :: y :: l) = x ++ sep ++ join sep (y :: l).
Proof. reflexivity. Qed.

(** A rendered element occurs in the joined lines. *)
Lemma join_map_In {A} (f : A -> string) (sep : string) (x : A) (l : list A) :
  In x l -> exists p q, join sep (map f l) = p ++ f x ++ q.
Proof.
  induction l as [|a l IH]; [contradiction|].
  intros [->|Hx].
  - destruct l as [|b l].
    + exists "", "". simpl. now rewrite append_nil_r.
    + exists "", (sep ++ join sep (map f (b :: l))). reflexivity.
  - destruct (IH Hx) as (p & q & Hpq). destruct l as [|b l]; [contradiction|].
    exists (f a ++ sep ++ p), q.
    change (map f (a :: b :: l)) with (f a :: f b :: map f l).
    rewrite join_cons. change (f b :: map f l) with (map f (b :: l)).
    rewrite Hpq. now rewrite !append_assoc.
Qed.

Lemma isGeneral_not_urgent c : isGeneral c = negb (isUrgent c).
Proof. unfold isGeneral, isUrgent. now rewrite negb_orb. Qed.

(** The message is the title, then the urgent block, then the block of
    the other contacts; an empty block leaves no heading. *)
Lemma formatEmergencyContacts_blocks contacts :
  message (formatEmergencyContacts contacts) =
  let urgentContacts := sortBy urgentFirst (filter isUrgent contacts) in
  let generalContacts := filter (fun c => negb (isUrgent c)) contacts in
  emergencyTitle
    ++ (if isEmpty urgentContacts then ""
        else urgentHeading ++ join nl (map contactLine urgentContacts))
    ++ (if isEmpty generalContacts then ""
        else generalHeading ++ join nl (map contactLine generalContacts)).
Proof.
  unfold formatEmergencyContacts. cbv zeta.
  rewrite (filter_ext isGeneral (fun c => negb (isUrgent c)) isGeneral_not_urgent).
  destruct (isEmpty (sortBy _ _)); destruct (isEmpty (filter _ contacts));
    cbn [negb message]; rewrite ?append_assoc, ?append_nil_r; reflexivity.
Qed.

(** Two contacts, one flagged urgent and one not: whichever comes first in
    the list, the flagged one is the first of the urgent block, and the
    other follows it there when its type is [Emergency] and opens the block
    of the others when it is not. *)
Lemma formatEmergencyContacts_pair (a b : Contact.t) :
  Contact.is_urgent a = true -> Contact.is_urgent b = false ->
  message (formatEmergencyContacts [a; b])
    = emergencyTitle ++ urgentHeading ++ contactLine a
        ++ (if Contact.type b =? "Emergency" then nl else generalHeading)
        ++ contactLine b
  /\ message (formatEmergencyContacts [b; a]) = message (formatEmergencyContacts [a; b]).
Proof.
  intros Ha Hb.
  assert (Hua : isUrgent a = true) by (unfold isUrgent; now rewrite Ha).
  assert (Hub : isUrgent b = (Contact.type b =? "Emergency"))
    by (unfold isUrgent; now rewrite Hb).
  assert (Hab : insertBy urgentFirst a [b] = [a; b])
    by (cbn [insertBy]; unfold urgentFirst; now rewrite Ha, Hb).
  assert (Hba : insertBy urgentFirst b [a] = [a; b])
    by (cbn [insertBy]; unfold urgentFirst; now rewrite Ha, Hb).
  rewrite !formatEmergencyContacts_blocks. cbv zeta. cbn [filter].
  rewrite Hua, Hub. cbn [negb].
  destruct (Contact.type b =? "Emergency"); cbn [negb sortBy fold_right].
  - change (insertBy urgentFirst b []) with [b].
    change (insertBy urgentFirst a []) with [a].
    rewrite Hab, Hba. split; [|reflexivity].
    change (isEmpty [a; b]) with false. change (isEmpty (@nil Contact.t)) with true.
    cbv iota. change (map contactLine [a; b]) with [contactLine a; contactLine b].
    rewrite join_cons. change (join nl [contactLine b]) with (contactLine b).
    now rewrite append_nil_r.
  - split; [|reflexivity].
    change (insertBy urgentFirst a []) with [a].
    change (isEmpty [a]) with false. change (isEmpty [b]) with false. cbv iota.
    change (join nl (map contactLine [a])) with (contactLine a).
    change (join nl (map contactLine [b])) with (contactLine b).
    now rewrite !append_assoc.
Qed.

End EmergencyContacts.

(** C8.  The EmergencyContacts message is the title, then the block of the
    contacts with the urgent flag set or of type [Emergency], then the
    block of all other contacts: each contact given is rendered once, in
    the block it belongs to, and nothing of the second block comes before
    the end of the first.  In particular, for a contact of entity ["A"]
    flagged urgent and a contact of entity ["B"] not flagged, the message
    is the title, the urgent heading, the line of [A], and then the line of
    [B], whatever the other fields hold and whichever of the two comes
    first in the list. *)
Theorem formatEmergencyContacts_urgent_first (contacts : list Contact.t) :
  let urgent :=
    filter (fun c => Contact.is_urgent c || (Contact.type c =? "Emergency")) contacts in
  let others :=
    filter (fun c => negb (Contact.is_urgent c || (Contact.type c =? "Emergency")))
      contacts in
  (exists rendered,
      Permutation urgent rendered
      /\ message (formatEmergencyContacts contacts)
         = emergencyTitle ++ contactBlock urgentHeading rendered
             ++ contactBlock generalHeading others)
  /\ (forall a b,
        Contact.entity a = "A" -> Contact.is_urgent a = true ->
        Contact.entity b = "B" -> Contact.is_urgent b = false ->
        message (formatEmergencyContacts [a; b])
          = emergencyTitle ++ urgentHeading ++ contactLine a
              ++ (if Contact.type b =? "Emergency" then nl else generalHeading)
              ++ contactLine b
        /\ message (formatEmergencyContacts [b; a])
           = message (formatEmergencyContacts [a; b])
        /\ prefix "• A: " (contactLine a) = true
        /\ prefix "• B: " (contactLine b) = true).
Proof.
  cbv zeta. split.
  - exists (JsArray.sortBy urgentFirst (filter isUrgent contacts)).
    split; [apply Permutation_sortBy | apply formatEmergencyContacts_blocks].
  - intros a b Hea Hua Heb Hub.
    destruct (formatEmergencyContacts_pair a b Hua Hub) as [Hab Hba].
    split; [exact Hab | split; [exact Hba | split]].
    + unfold contactLine. rewrite Hea. apply prefix_append. now eexists.
    + unfold contactLine. rewrite Heb. apply prefix_append. now eexists.
Qed.

Lemma formatEmergencyContacts_urgent_first_witness :
  message (formatEmergencyContacts [contactA; contactB])
  = emergencyTitle ++ urgentHeading ++ contactLine contactA
      ++ generalHeading ++ contactLine contactB.
Proof.
  exact (proj1 (proj2 (formatEmergencyContacts_urgent_first [contactA; contactB])
                  contactA contactB eq_refl eq_refl eq_refl eq_refl)).
Defined.

(* ------------------------------------------------------------------ *)
(** ** Webhook signatures                                              *)
(* ------------------------------------------------------------------ *)

Section Signatures.
Import TwilioService.

Lemma new_isConfigured cfg svc :
  outcome (TwilioService.new cfg) = Returned svc ->
  isConfigured svc =
    negb (EnvironmentConfig.twilioAccountSid cfg =? "")
    && negb (EnvironmentConfig.twilioAuthToken cfg =? "").
Proof.
  unfold TwilioService.new. cbv zeta.
  destruct (negb _ && negb _); cbn; intros H; injection H as <-; reflexivity.
Qed.

Variable validateRequest : string -> string -> string -> Params -> Outcome bool.

(** How [validateWebhookSignature] ends, case by case. *)
Lemma outcome_validateWebhookSignature svc cfg url body signature :
  outcome (validateWebhookSignature validateRequest svc cfg url body signature) =
  if negb (isConfigured svc) then Returned false
  else if negb (truthy signature) then Returned false
  else match validateRequest (EnvironmentConfig.twilioAuthToken cfg)
               (ofNullable signature) url body with
       | Returned isValid => Returned isValid
       | Thrown _ => Returned false
       end.
Proof.
  unfold validateWebhookSignature.
  destruct (negb (isConfigured svc)); [reflexivity|].
  destruct (negb (truthy signature)); [reflexivity|].
  destruct (validateRequest _ _ url body) as [[|]|e]; reflexivity.
Qed.

Lemma neverThrows_validateWebhookSignature svc cfg url body signature :
  neverThrows (validateWebhookSignature validateRequest svc cfg url body signature).
Proof.
  unfold neverThrows. rewrite outcome_validateWebhookSignature.
  destruct (negb (isConfigured svc)); [now eexists|].
  destruct (negb (truthy signature)); [now eexists|].
  destruct (validateRequest _ _ url body); now eexists.
Qed.

End Signatures.

(** C3.  [validateWebhookSignature] never throws; it returns [false] when
    the signature header is missing (absent or empty) and when the account
    SID or the auth token is not configured; with the SDK's check, a header
    that differs from the recomputed signature gives [false], and, the
    service being configured and the URL well formed, the header that is
    the signature recomputed with the configured secret gives [true]. *)
Theorem validateWebhookSignature_verdicts
    (hmacBase64 : string -> string -> string) (wellFormedUrl : string -> bool)
    (cfg : EnvironmentConfig.t) (svc : TwilioService.t)
    (url : string) (body : TwilioService.Params)
    (Hsvc : outcome (TwilioService.new cfg) = Returned svc) :
  let sdk := TwilioService.sdkValidateRequest hmacBase64 wellFormedUrl in
  let expected :=
    TwilioService.expectedSignature hmacBase64 (EnvironmentConfig.twilioAuthToken cfg) url body in
  (forall validateRequest signature,
      neverThrows (TwilioService.validateWebhookSignature validateRequest svc cfg url body
                     signature))
  /\ (forall validateRequest signature,
        signature = None \/ signature = Some "" ->
        outcome (TwilioService.validateWebhookSignature validateRequest svc cfg url body
                   signature) = Returned false)
  /\ (forall validateRequest signature,
        EnvironmentConfig.twilioAuthToken cfg = ""
        \/ EnvironmentConfig.twilioAccountSid cfg = "" ->
        outcome (TwilioService.validateWebhookSignature validateRequest svc cfg url body
                   signature) = Returned false)
  /\ (forall header,
        header <> expected ->
        outcome (TwilioService.validateWebhookSignature sdk svc cfg url body (Some header))
          = Returned false)
  /\ (EnvironmentConfig.twilioAuthToken cfg <> "" ->
      EnvironmentConfig.twilioAccountSid cfg <> "" ->
      wellFormedUrl url = true -> expected <> "" ->
      outcome (TwilioService.validateWebhookSignature sdk svc cfg url body (Some expected))
        = Returned true).
Proof.
  intros sdk expected. pose proof (new_isConfigured cfg svc Hsvc) as Hc.
  repeat split.
  - intros. apply neverThrows_validateWebhookSignature.
  - intros validateRequest signature Hmissing.
    rewrite outcome_validateWebhookSignature.
    destruct (negb (TwilioService.isConfigured svc)); [reflexivity|].
    destruct Hmissing as [-> | ->]; reflexivity.
  - intros validateRequest signature Hcfg.
    rewrite outcome_validateWebhookSignature, Hc.
    destruct Hcfg as [-> | ->]; simpl; [now rewrite andb_false_r | reflexivity].
  - intros header Hdiff. rewrite outcome_validateWebhookSignature.
    destruct (negb (TwilioService.isConfigured svc)); [reflexivity|].
    destruct (negb (truthy (Some header))); [reflexivity|].
    unfold sdk, TwilioService.sdkValidateRequest.
    destruct (wellFormedUrl url); [|reflexivity].
    apply String.eqb_neq in Hdiff. fold expected. simpl ofNullable. now rewrite Hdiff.
  - intros Htoken Hsid Hurl Hexp. rewrite outcome_validateWebhookSignature, Hc.
    apply String.eqb_neq in Htoken, Hsid, Hexp. rewrite Htoken, Hsid. simpl.
    rewrite Hexp. simpl.
    unfold sdk, TwilioService.sdkValidateRequest. rewrite Hurl.
    fold expected. now rewrite String.eqb_refl.
Qed.

Lemma validateWebhookSignature_verdicts_witness :
  outcome
    (TwilioService.validateWebhookSignature
       (TwilioService.sdkValidateRequest toyDigest anyUrl)
       {| TwilioService.isConfigured := true |}
       {| EnvironmentConfig.twilioAccountSid := "AC123";
          EnvironmentConfig.twilioAuthToken := "secret" |}
       "https://bot.example/webhook" [("From", "whatsapp:+256700123456"); ("Body", "food")]
       (Some (TwilioService.expectedSignature toyDigest "secret"
                "https://bot.example/webhook"
                [("From", "whatsapp:+256700123456"); ("Body", "food")])))
  = Returned true.
Proof.
  refine (proj2 (proj2 (proj2 (proj2
    (validateWebhookSignature_verdicts toyDigest anyUrl
       {| EnvironmentConfig.twilioAccountSid := "AC123";
          EnvironmentConfig.twilioAuthToken := "secret" |}
       {| TwilioService.isConfigured := true |}
       "https://bot.example/webhook" [("From", "whatsapp:+256700123456"); ("Body", "food")]
       _)))) _ _ _ _).
  - reflexivity.
  - discriminate.
  - discriminate.
  - reflexivity.
  - vm_compute. discriminate.
Defined.

(* ================================================================== *)
(** * Further properties of the code                                   *)
(* ================================================================== *)

(* ------------------------------------------------------------------ *)
(** ** Lengths and slices                                              *)
(* ------------------------------------------------------------------ *)

Section Slices.

Lemma length_append (a b : string) :
  String.length (a ++ b) = String.length a + String.length b.
Proof. induction a as [|x a IH]; simpl; [reflexivity | now rewrite IH]. Qed.

Lemma length_substring_0 (n : nat) (s : string) :
  String.length (substring 0 n s) = Nat.min n (String.length s).
Proof.
  revert s; induction n as [|n IH]; intros [|c s]; simpl; try reflexivity.
  now rewrite IH.
Qed.

Lemma substring_0_append (a r : string) :
  substring 0 (String.length a) (a ++ r) = a.
Proof.
  induction a as [|x a IH]; simpl.
  - now destruct r.
  - now rewrite IH.
Qed.

Lemma substring_0_all (a : string) : substring 0 (String.length a) a = a.
Proof. rewrite <- (append_nil_r a) at 2. apply substring_0_append. Qed.

Lemma substring_skip (r t : string) (m : nat) :
  substring (String.length r) m (r ++ t) = substring 0 m t.
Proof. induction r as [|x r IH]; simpl; [reflexivity | exact IH]. Qed.

Lemma slice0_append (a r : string) : slice0 (String.length a) (a ++ r) = a.
Proof. apply substring_0_append. Qed.

Lemma sliceLast_append (r b : string) : sliceLast (String.length b) (r ++ b) = b.
Proof.
  unfold sliceLast. rewrite length_append, Nat.add_sub, substring_skip.
  apply substring_0_all.
Qed.

(** Three characters at a time. *)
Lemma string_ind3 (P : string -> Prop) :
  P "" ->
  (forall a, P (String a "")) ->
  (forall a b, P (String a (String b ""))) ->
  (forall a b c s, P s -> P (String a (String b (String c s)))) ->
  forall s, P s.
Proof.
  intros H0 H1 H2 H3.
  assert (H : forall s, P s /\ (forall a, P (String a s)) /\ (forall a b, P (String a (String b s)))).
  { induction s as [|c s (IHs & IH1 & IH2)].
    - repeat split; auto.
    - repeat split; auto. }
  intros s. apply H.
Qed.

End Slices.

(* ------------------------------------------------------------------ *)
(** ** Session keys: shape and collisions                              *)
(* ------------------------------------------------------------------ *)

Section SessionKeyShape.

Lemma length_encode (s : string) :
  String.length (Base64.encode s) = 4 * ((String.length s + 2) / 3).
Proof.
  induction s as [|a|a b|a b c s IH] using string_ind3; try reflexivity.
  change (Base64.encode (String a (String b (String c s))))
    with (String (Base64.d1 a) (String (Base64.d2 a b) (String (Base64.d3 b c)
            (String (Base64.d4 c) (Base64.encode s))))).
  cbn [String.length]. rewrite IH.
  replace (S (S (S (String.length s))) + 2) with (String.length s + 2 + 1 * 3) by lia.
  rewrite Nat.div_add by lia. lia.
Qed.

(** Whole groups of three characters are encoded on their own. *)
Lemma encode_append (p r : string) (k : nat) :
  String.length p = 3 * k -> Base64.encode (p ++ r) = Base64.encode p ++ Base64.encode r.
Proof.
  revert p; induction k as [|k IH]; intros p Hp.
  - destruct p; [reflexivity | discriminate Hp].
  - destruct p as [|a [|b [|c p]]]; try (simpl in Hp; lia).
    change (Base64.encode (String a (String b (String c p)) ++ r))
      with (String (Base64.d1 a) (String (Base64.d2 a b) (String (Base64.d3 b c)
              (String (Base64.d4 c) (Base64.encode (p ++ r)))))).
    rewrite IH by (simpl in Hp; lia). reflexivity.
Qed.

Lemma generateSessionId_of_first_twelve (p r : string) :
  String.length p = 12 -> generateSessionId (p ++ r) = "user-" ++ Base64.encode p.
Proof.
  intros Hp. unfold generateSessionId. f_equal.
  rewrite (encode_append p r 4) by (rewrite Hp; reflexivity).
  assert (H16 : String.length (Base64.encode p) = 16)
    by (rewrite length_encode, Hp; reflexivity).
  rewrite <- H16. apply slice0_append.
Qed.

End SessionKeyShape.

(** X2.  A session key is ["user-"] followed by at most sixteen characters:
    its length is [5 + min 16 (4 * ceil (n / 3))] for an identity of [n]
    characters, so never more than 21, and exactly 21 from twelve
    characters on. *)
Theorem generateSessionId_length (userPhone : string) :
  prefix "user-" (generateSessionId userPhone) = true
  /\ String.length (generateSessionId userPhone)
     = 5 + Nat.min 16 (4 * ((String.length userPhone + 2) / 3))
  /\ String.length (generateSessionId userPhone) <= 21
  /\ (12 <= String.length userPhone -> String.length (generateSessionId userPhone) = 21).
Proof.
  assert (Hlen : String.length (generateSessionId userPhone)
                 = 5 + Nat.min 16 (4 * ((String.length userPhone + 2) / 3))).
  { unfold generateSessionId, slice0.
    rewrite length_append, length_substring_0, length_encode. reflexivity. }
  split; [apply prefix_append; now eexists | split; [exact Hlen | split]].
  - rewrite Hlen. lia.
  - intros H12. rewrite Hlen.
    assert (4 <= (String.length userPhone + 2) / 3).
    { apply Nat.div_le_lower_bound; lia. }
    lia.
Qed.

Lemma generateSessionId_length_witness :
  String.length (generateSessionId "whatsapp:+256700123456") = 21.
Proof.
  refine (proj2 (proj2 (proj2 (generateSessionId_length "whatsapp:+256700123456"))) _).
  vm_compute. lia.
Defined.

(* ------------------------------------------------------------------ *)
(** ** Masking for the logs                                            *)
(* ------------------------------------------------------------------ *)

Section Masks.
Import JsStringMore.

Lemma length_substring_le (n m : nat) (s : string) :
  String.length (substring n m s) <= m.
Proof.
  revert s; induction n as [|n IH]; intros s.
  - rewrite length_substring_0. lia.
  - destruct s as [|c s]; simpl; [lia | apply IH].
Qed.

Lemma prefix_nil (s : string) : prefix "" s = true.
Proof. now destruct s. Qed.

Lemma prefix_self_append (a r : string) : prefix a (a ++ r) = true.
Proof. apply prefix_append. now exists r. Qed.

Lemma drop_append (a r : string) : drop (String.length a) (a ++ r) = r.
Proof. induction a as [|x a IH]; simpl; [now destruct r | exact IH]. Qed.

Lemma replaceFirst_prefix (pat rep s : string) :
  prefix pat s = true -> replaceFirst pat rep s = rep ++ drop (String.length pat) s.
Proof. intros H. destruct s; cbn [replaceFirst]; now rewrite H. Qed.

Lemma replaceFirst_at_head (pat rep r : string) :
  replaceFirst pat rep (pat ++ r) = rep ++ r.
Proof.
  rewrite replaceFirst_prefix by apply prefix_self_append. now rewrite drop_append.
Qed.

End Masks.

(** X3.  [MessageService.maskPhoneNumber] shows the first two and the last
    two characters of the number and nothing of what lies between; a
    number of fewer than four characters is masked whole; the mask has at
    most seven characters. *)
Theorem maskPhoneNumber_shows_ends_only (a mid b : string)
    (Ha : String.length a = 2) (Hb : String.length b = 2) :
  maskPhoneNumber (a ++ mid ++ b) = a ++ "***" ++ b
  /\ (forall phone, String.length phone < 4 -> maskPhoneNumber phone = "***")
  /\ (forall phone, String.length (maskPhoneNumber phone) <= 7).
Proof.
  split; [|split].
  - unfold maskPhoneNumber.
    assert (Hlen : (String.length (a ++ mid ++ b) <? 4)%nat = false).
    { apply Nat.ltb_ge. rewrite !length_append. lia. }
    assert (Hs : slice0 2 (a ++ mid ++ b) = a)
      by (rewrite <- Ha; apply slice0_append).
    assert (Hl : sliceLast 2 (a ++ mid ++ b) = b)
      by (rewrite <- Hb, <- append_assoc; apply sliceLast_append).
    now rewrite Hlen, Hs, Hl.
  - intros phone Hshort. unfold maskPhoneNumber.
    apply Nat.ltb_lt in Hshort. now rewrite Hshort.
  - intros phone. unfold maskPhoneNumber.
    destruct (String.length phone <? 4)%nat; [simpl; lia|].
    rewrite !length_append. unfold slice0, sliceLast.
    pose proof (length_substring_le 0 2 phone).
    pose proof (length_substring_le (String.length phone - 2) 2 phone).
    simpl String.length. lia.
Qed.

Lemma maskPhoneNumber_shows_ends_only_witness :
  maskPhoneNumber ("wh" ++ "atsapp:+2567001234" ++ "56") = "wh" ++ "***" ++ "56".
Proof.
  apply (maskPhoneNumber_shows_ends_only "wh" "atsapp:+2567001234" "56"); reflexivity.
Defined.

(** X4.  [TwilioService.maskPhoneNumber] drops the channel prefix before
    masking and puts it back: of [whatsapp:] followed by a number it shows
    the first two and last two characters of the number only; its result
    has at most sixteen characters. *)
Theorem twilio_maskPhoneNumber_shows_ends_only (a mid b : string)
    (Ha : String.length a = 2) (Hb : String.length b = 2) :
  TwilioNumbers.maskPhoneNumber ("whatsapp:" ++ a ++ mid ++ b)
    = "whatsapp:" ++ a ++ "***" ++ b
  /\ (forall phone, String.length (TwilioNumbers.maskPhoneNumber phone) <= 16).
Proof.
  split.
  - unfold TwilioNumbers.maskPhoneNumber.
    rewrite replaceFirst_at_head. change ("" ++ a ++ mid ++ b) with (a ++ mid ++ b).
    assert (H0 : ("whatsapp:" ++ a ++ mid ++ b =? "") = false) by reflexivity.
    assert (H1 : (String.length ("whatsapp:" ++ a ++ mid ++ b) <? 4)%nat = false).
    { apply Nat.ltb_ge. rewrite !length_append. simpl. lia. }
    assert (H2 : (String.length (a ++ mid ++ b) <? 4)%nat = false).
    { apply Nat.ltb_ge. rewrite !length_append. lia. }
    assert (Hs : slice0 2 (a ++ mid ++ b) = a)
      by (rewrite <- Ha; apply slice0_append).
    assert (Hl : sliceLast 2 (a ++ mid ++ b) = b)
      by (rewrite <- Hb, <- append_assoc; apply sliceLast_append).
    rewrite H0. cbn [orb]. now rewrite H1, H2, Hs, Hl.
  - intros phone. unfold TwilioNumbers.maskPhoneNumber.
    destruct (_ || _); [simpl; lia|].
    destruct (_ <? 4)%nat; [simpl; lia|].
    rewrite !length_append. unfold slice0, sliceLast.
    set (n := JsStringMore.replaceFirst "whatsapp:" "" phone).
    pose proof (length_substring_le 0 2 n).
    pose proof (length_substring_le (String.length n - 2) 2 n).
    simpl String.length. lia.
Qed.

Lemma twilio_maskPhoneNumber_shows_ends_only_witness :
  TwilioNumbers.maskPhoneNumber ("whatsapp:" ++ "+2" ++ "567001234" ++ "56")
    = "whatsapp:" ++ "+2" ++ "***" ++ "56".
Proof.
  apply (twilio_maskPhoneNumber_shows_ends_only "+2" "567001234" "56"); reflexivity.
Defined.

(* ------------------------------------------------------------------ *)
(** ** Trimmed strings                                                 *)
(* ------------------------------------------------------------------ *)

Section Trimmed.

(** What [trim] returns has nothing left to trim. *)
Lemma trimEnd_idem (s : string) : trimEnd (trimEnd s) = trimEnd s.
Proof.
  induction s as [|c s IH]; [reflexivity|].
  cbn [trimEnd]. destruct (trimStart (String c s) =? "") eqn:E; [reflexivity|].
  apply String.eqb_neq in E. rewrite trimEnd_cons; [now rewrite IH|].
  intros Hw. apply E.
  destruct (trimEnd_cut s) as (ws & Hs & Hws).
  rewrite Hs. change (String c (trimEnd s ++ ws)) with (String c (trimEnd s) ++ ws).
  now rewrite (trimStart_white_append _ ws Hw).
Qed.

Lemma Trimmed_trim (s : string) : Trimmed (trim s).
Proof.
  unfold Trimmed, trim. split; [|apply trimEnd_idem].
  apply trimStart_fixed.
  destruct (afterWhite (trimEnd (trimStart s))) as [r|] eqn:E; [|reflexivity].
  destruct (trimEnd_prefix (trimStart s)) as [ws Hws].
  pose proof (afterWhite_append _ _ ws E) as H.
  rewrite <- Hws, afterWhite_trimStart in H. discriminate H.
Qed.

Lemma trim_Trimmed (s : string) : Trimmed s -> trim s = s.
Proof. intros [Hs He]. unfold trim. now rewrite Hs. Qed.

Lemma trim_idem (s : string) : trim (trim s) = trim s.
Proof. apply trim_Trimmed, Trimmed_trim. Qed.

Lemma trimEnd_allPlain (a rest : string) :
  allPlain a = true -> trimEnd (a ++ rest) = a ++ trimEnd rest.
Proof.
  induction a as [|c a IH]; [reflexivity|]. cbn [allPlain append].
  intros H. apply andb_true_iff in H as [Hc Ha].
  pose proof (trimEnd_through_plain "" c (a ++ rest) Hc) as E. cbn [append] in E.
  rewrite E. now rewrite IH.
Qed.

(** Putting one plain prefix in place of another keeps a string trimmed. *)
Lemma Trimmed_swap_prefix (a a' rest : string) :
  allPlain a = true -> allPlain a' = true -> a' <> "" ->
  Trimmed (a ++ rest) -> Trimmed (a' ++ rest).
Proof.
  intros Ha Ha' Hne [_ Hend]. split.
  - destruct a' as [|c a']; [contradiction|]. cbn [allPlain] in Ha'.
    apply andb_true_iff in Ha' as [Hc _]. apply trimStart_fixed. now apply plain_first.
  - rewrite (trimEnd_allPlain a rest Ha) in Hend.
    rewrite (trimEnd_allPlain a' rest Ha'). f_equal.
    revert Hend. clear. induction a as [|x a IH]; cbn [append]; [trivial|].
    intros H. injection H as H. now apply IH.
Qed.

Lemma Trimmed_prepend (a t : string) :
  allPlain a = true -> a <> "" -> Trimmed t -> Trimmed (a ++ t).
Proof.
  intros Ha Hne Ht. now apply (Trimmed_swap_prefix "" a t eq_refl Ha Hne).
Qed.

End Trimmed.

(* ------------------------------------------------------------------ *)
(** ** WhatsApp addresses                                              *)
(* ------------------------------------------------------------------ *)

Section WhatsAppNumbers.
Import JsStringMore TwilioNumbers.

Lemma includes_plus_cons (c : ascii) (s : string) :
  includes "+" (String c s) = (Ascii.eqb c "+") || includes "+" s.
Proof.
  cbn [includes prefix]. destruct (ascii_dec "+" c) as [<-|Hne].
  - now rewrite prefix_nil.
  - destruct (Ascii.eqb_spec c "+"%char) as [->|_]; [contradiction | reflexivity].
Qed.

Lemma includes_plus_channel (t : string) :
  includes "+" ("whatsapp:" ++ t) = includes "+" t.
Proof. cbn [append]. now rewrite !includes_plus_cons. Qed.

(** A trimmed address that needs neither the prefix nor the plus sign is
    left as it is. *)
Lemma formatWhatsAppNumber_fixed (r : string) :
  Trimmed r -> prefix "whatsapp:" r = true ->
  negb (includes "+" r) && (10 <? utf16Length r)%nat = false ->
  formatWhatsAppNumber r = r.
Proof.
  intros Ht Hp Hc. unfold formatWhatsAppNumber.
  rewrite (trim_Trimmed r Ht), Hp. cbn [negb]. now rewrite Hc.
Qed.

Lemma formatWhatsAppNumber_cases (phoneNumber : string) :
  let t := trim phoneNumber in
  let f := if prefix "whatsapp:" t then t else "whatsapp:" ++ t in
  formatWhatsAppNumber phoneNumber =
  if negb (includes "+" f) && (10 <? utf16Length f)%nat
  then "whatsapp:+" ++ drop 9 f else f.
Proof.
  intros t f. unfold formatWhatsAppNumber. fold t.
  assert (Hf : (if negb (prefix "whatsapp:" t) then "whatsapp:" ++ t else t) = f)
    by (unfold f; now destruct (prefix "whatsapp:" t)).
  rewrite Hf.
  assert (Hp : prefix "whatsapp:" f = true).
  { unfold f. destruct (prefix "whatsapp:" t) eqn:E; [exact E | apply prefix_self_append]. }
  destruct (negb (includes "+" f) && (10 <? utf16Length f)%nat); [|reflexivity].
  now rewrite (replaceFirst_prefix _ _ _ Hp).
Qed.

Lemma utf16Length_channel (t : string) :
  utf16Length ("whatsapp:" ++ t) = 9 + utf16Length t.
Proof. reflexivity. Qed.

Lemma channel_prefix_split (f : string) :
  prefix "whatsapp:" f = true -> f = "whatsapp:" ++ drop 9 f.
Proof.
  intros H. apply prefix_append in H as [b ->]. reflexivity.
Qed.

End WhatsAppNumbers.

(** X5.  [formatWhatsAppNumber] always yields an address that starts with
    [whatsapp:], and formatting a formatted address changes nothing. *)
Theorem formatWhatsAppNumber_idempotent (phoneNumber : string) :
  prefix "whatsapp:" (TwilioNumbers.formatWhatsAppNumber phoneNumber) = true
  /\ TwilioNumbers.formatWhatsAppNumber (TwilioNumbers.formatWhatsAppNumber phoneNumber)
     = TwilioNumbers.formatWhatsAppNumber phoneNumber.
Proof.
  rewrite formatWhatsAppNumber_cases. cbv zeta.
  set (t := trim phoneNumber).
  set (f := if prefix "whatsapp:" t then t else "whatsapp:" ++ t).
  assert (Hp : prefix "whatsapp:" f = true).
  { unfold f. destruct (prefix "whatsapp:" t) eqn:E; [exact E | apply prefix_self_append]. }
  assert (Ht : Trimmed f).
  { unfold f. destruct (prefix "whatsapp:" t).
    - apply Trimmed_trim.
    - apply Trimmed_prepend; [reflexivity | discriminate | apply Trimmed_trim]. }
  destruct (negb (includes "+" f) && (10 <? utf16Length f)%nat) eqn:Hc.
  - split; [apply (prefix_self_append "whatsapp:" ("+" ++ JsStringMore.drop 9 f))|].
    apply formatWhatsAppNumber_fixed.
    + rewrite (channel_prefix_split f Hp) in Ht.
      apply (Trimmed_swap_prefix "whatsapp:" "whatsapp:+" _ eq_refl eq_refl
               ltac:(discriminate) Ht).
    + apply (prefix_self_append "whatsapp:" ("+" ++ JsStringMore.drop 9 f)).
    + assert (Hplus : includes "+" ("whatsapp:+" ++ JsStringMore.drop 9 f) = true).
      { apply includes_occurs. now exists "whatsapp:", (JsStringMore.drop 9 f). }
      now rewrite Hplus.
  - split; [exact Hp | now apply formatWhatsAppNumber_fixed].
Qed.

(** X6.  A number without a plus sign, of two characters or more and not
    yet prefixed, comes out as [whatsapp:+] followed by the trimmed number;
    a number that holds a plus sign only gets the prefix. *)
Theorem formatWhatsAppNumber_adds_plus (phoneNumber : string)
    (Hbare : prefix "whatsapp:" (trim phoneNumber) = false) :
  (includes "+" (trim phoneNumber) = false -> 2 <= utf16Length (trim phoneNumber) ->
     TwilioNumbers.formatWhatsAppNumber phoneNumber = "whatsapp:+" ++ trim phoneNumber)
  /\ (includes "+" (trim phoneNumber) = true ->
     TwilioNumbers.formatWhatsAppNumber phoneNumber = "whatsapp:" ++ trim phoneNumber).
Proof.
  rewrite formatWhatsAppNumber_cases. cbv zeta. rewrite Hbare.
  rewrite includes_plus_channel, utf16Length_channel. split.
  - intros Hplus Hlen. rewrite Hplus. cbn [negb andb].
    assert (H10 : (10 <? 9 + utf16Length (trim phoneNumber))%nat = true)
      by (apply Nat.ltb_lt; lia).
    rewrite H10. reflexivity.
  - intros Hplus. now rewrite Hplus.
Qed.

Lemma formatWhatsAppNumber_adds_plus_witness :
  TwilioNumbers.formatWhatsAppNumber " 256700123456 " = "whatsapp:+" ++ trim " 256700123456 ".
Proof.
  refine (proj1 (formatWhatsAppNumber_adds_plus " 256700123456 " _) _ _).
  - reflexivity.
  - reflexivity.
  - vm_compute. lia.
Defined.

(* ------------------------------------------------------------------ *)
(** ** The order of the rendered lines                                 *)
(* ------------------------------------------------------------------ *)

(** X7.  [formatRegistrationResponse] lists the steps in ascending order of
    step number: the order it leaves the steps in is a rearrangement of the
    steps given, sorted, and the message holds one line per step in that
    order between its opening sentence and the document list. *)
Theorem formatRegistrationResponse_steps_ascending
    (steps : list RegistrationStep.t) (documents : list RequiredDocument.t)
    (contacts : list Contact.t) :
  let sorted := snd (formatRegistrationResponse steps documents contacts) in
  Permutation steps sorted
  /\ StronglySorted
       (fun a b => (RegistrationStep.step_number a <= RegistrationStep.step_number b)%Z)
       sorted
  /\ message (fst (formatRegistrationResponse steps documents contacts))
     = "I can help with refugee registration. Here's the process:" ++ nl ++ nl
         ++ join nl (map stepLine sorted) ++ nl ++ nl ++ "Required Documents:" ++ nl
         ++ join nl (map documentLine documents) ++ nl ++ nl
         ++ "Would you like more details about any specific step?".
Proof.
  cbv zeta. rewrite formatRegistrationResponse_steps_after.
  split; [apply Permutation_sortBy | split; [apply sortBy_step_sorted | reflexivity]].
Qed.

(** X8.  Steps that arrive in ascending order of step number, ties
    included, are left exactly as they came: on such a list
    [formatRegistrationResponse] does not reorder the caller's array. *)
Theorem formatRegistrationResponse_sorted_steps_unchanged
    (steps : list RegistrationStep.t) (documents : list RequiredDocument.t)
    (contacts : list Contact.t)
    (Hsorted : StronglySorted
                 (fun a b => (RegistrationStep.step_number a
                              <= RegistrationStep.step_number b)%Z) steps) :
  snd (formatRegistrationResponse steps documents contacts) = steps.
Proof.
  rewrite formatRegistrationResponse_steps_after. now apply sortBy_step_fixed.
Qed.

Lemma formatRegistrationResponse_sorted_steps_unchanged_witness :
  snd (formatRegistrationResponse [stepReport; stepInterview] [] [])
  = [stepReport; stepInterview].
Proof.
  apply formatRegistrationResponse_sorted_steps_unchanged.
  repeat constructor; simpl; lia.
Defined.

(** X9.  The EmergencyContacts message is the title, then, if there are
    any, the urgent heading with the contacts flagged urgent in the order
    given followed by the unflagged contacts of type [Emergency] in the
    order given, then, if there are any, the other heading with the
    remaining contacts in the order given. *)
Theorem formatEmergencyContacts_layout (contacts : list Contact.t) :
  let flagged := filter Contact.is_urgent contacts in
  let emergency :=
    filter (fun c => negb (Contact.is_urgent c) && (Contact.type c =? "Emergency"))
      contacts in
  let others :=
    filter (fun c => negb (Contact.is_urgent c) && negb (Contact.type c =? "Emergency"))
      contacts in
  message (formatEmergencyContacts contacts) =
  emergencyTitle
    ++ (if JsArray.isEmpty (flagged ++ emergency) then ""
        else urgentHeading ++ join nl (map contactLine (flagged ++ emergency)))
    ++ (if JsArray.isEmpty others then ""
        else generalHeading ++ join nl (map contactLine others)).
Proof.
  cbv zeta. rewrite formatEmergencyContacts_blocks. cbv zeta.
  assert (HU : JsArray.sortBy urgentFirst (filter isUrgent contacts) =
               (filter Contact.is_urgent contacts
                ++ filter (fun c => negb (Contact.is_urgent c)
                                    && (Contact.type c =? "Emergency")) contacts)%list).
  { rewrite sortBy_urgentFirst_partition, !filter_filter. f_equal.
    - apply filter_ext. intros c. unfold isUrgent.
      now destruct (Contact.is_urgent c), (Contact.type c =? "Emergency").
    - apply filter_ext. intros c. unfold isUrgent.
      now destruct (Contact.is_urgent c), (Contact.type c =? "Emergency"). }
  assert (HG : filter (fun c => negb (isUrgent c)) contacts =
               filter (fun c => negb (Contact.is_urgent c)
                                && negb (Contact.type c =? "Emergency")) contacts).
  { apply filter_ext. intros c. unfold isUrgent. apply negb_orb. }
  now rewrite HU, HG.
Qed.

(* ------------------------------------------------------------------ *)
(** ** What the composed messages hold                                 *)
(* ------------------------------------------------------------------ *)

Section Listings.
Import JsArray.

Lemma includes_append (k a b s : string) :
  includes k s = true -> includes k (a ++ s ++ b) = true.
Proof.
  intros H. apply includes_occurs in H as (p & q & ->).
  apply includes_occurs. exists (a ++ p), (q ++ b). now rewrite !append_assoc.
Qed.

Lemma includes_skip_l (k a s : string) :
  includes k s = true -> includes k (a ++ s) = true.
Proof.
  intros H. rewrite <- (append_nil_r s). now apply includes_append.
Qed.

Lemma includes_keep_r (k s b : string) :
  includes k s = true -> includes k (s ++ b) = true.
Proof. intros H. now apply (includes_append k "" b s). Qed.

Lemma includes_self (k : string) : includes k k = true.
Proof. apply includes_occurs. exists "", "". simpl. now rewrite append_nil_r. Qed.

Lemma includes_join_map {A} (f : A -> string) (sep : string) (x : A) (l : list A) :
  In x l -> includes (f x) (join sep (map f l)) = true.
Proof.
  intros Hx. destruct (join_map_In f sep x l Hx) as (p & q & ->).
  apply includes_occurs. now exists p, q.
Qed.

Lemma length_filter_split {A} (p : A -> bool) (l : list A) :
  List.length (filter p l) + List.length (filter (fun x => negb (p x)) l) = List.length l.
Proof.
  induction l as [|x l IH]; simpl; [reflexivity|].
  destruct (p x); simpl; lia.
Qed.

End Listings.

(** X10.  [formatEmergencyContacts] drops no contact and repeats none: each
    contact given is in exactly one of the two blocks, its line occurs in
    the message, and an empty list gives the bare title. *)
Theorem formatEmergencyContacts_keeps_every_contact (contacts : list Contact.t) :
  (forall c, In c contacts -> includes (contactLine c)
                                (message (formatEmergencyContacts contacts)) = true)
  /\ List.length (filter isUrgent contacts) + List.length (filter isGeneral contacts)
     = List.length contacts
  /\ (forall c, isUrgent c = negb (isGeneral c))
  /\ message (formatEmergencyContacts []) = emergencyTitle.
Proof.
  split; [|split; [|split]].
  - intros c Hc. rewrite formatEmergencyContacts_blocks. cbv zeta.
    destruct (isUrgent c) eqn:Hu.
    + assert (HU : In c (JsArray.sortBy urgentFirst (filter isUrgent contacts)))
        by (apply In_sortBy, filter_In; now split).
      rewrite (isEmpty_In _ _ HU).
      apply includes_skip_l, includes_keep_r, includes_skip_l.
      now apply includes_join_map.
    + assert (HG : In c (filter (fun c => negb (isUrgent c)) contacts))
        by (apply filter_In; split; [exact Hc | now rewrite Hu]).
      rewrite (isEmpty_In _ _ HG).
      do 3 apply includes_skip_l. now apply includes_join_map.
  - rewrite (filter_ext isGeneral (fun c => negb (isUrgent c)) isGeneral_not_urgent).
    apply length_filter_split.
  - intros c. rewrite isGeneral_not_urgent. now rewrite negb_involutive.
  - reflexivity.
Qed.

Lemma formatEmergencyContacts_keeps_every_contact_witness :
  includes (contactLine contactB)
    (message (formatEmergencyContacts [contactA; contactB])) = true.
Proof.
  apply (proj1 (formatEmergencyContacts_keeps_every_contact [contactA; contactB])).
  simpl. right. left. reflexivity.
Defined.

(** X11.  Every service of category [Food] given to [formatFoodResponse] has
    its line in the message, as has every service of an organization with
    [WFP] in its name. *)
Theorem formatFoodResponse_lists_food_services (services : list Service.t) (s : Service.t)
    (Hs : In s services)
    (Hfood : Service.category s = "Food"
             \/ includes "WFP" (Service.organization s) = true) :
  includes (foodLine s) (message (formatFoodResponse services)) = true.
Proof.
  assert (HF : In s (filter isFoodService services)).
  { apply filter_In. split; [exact Hs|]. unfold isFoodService.
    destruct Hfood as [-> | ->]; [reflexivity | apply orb_true_r]. }
  unfold formatFoodResponse. rewrite (isEmpty_In _ _ HF). cbn [message].
  do 3 apply includes_skip_l. apply includes_keep_r.
  now apply includes_join_map.
Qed.

Lemma formatFoodResponse_lists_food_services_witness :
  includes (foodLine wfpClinic) (message (formatFoodResponse [wfpClinic])) = true.
Proof.
  apply (formatFoodResponse_lists_food_services [wfpClinic] wfpClinic).
  - left. reflexivity.
  - right. reflexivity.
Defined.

(* ------------------------------------------------------------------ *)
(** ** The handlers and the database                                   *)
(* ------------------------------------------------------------------ *)

Section Handlers.
Import DialogflowService Classifier.

Lemma outcome_handleShelterIntent w :
  outcome (handleShelterIntent w) =
  match fetched (services_by_category w "Shelter") with
  | Returned services => outcome (
      if JsArray.isEmpty services then
        ret {| message := "Shelter assistance is arranged through the official registration process with OPM. You need to report to the OPM Refugee Desk to be assigned a place in a settlement. Would you like their contact information?";
               quickReplies := Some ["OPM Contact"; "Registration Info"; "Main Menu"] |}
      else
        ret {| message := "Shelter assistance options:" ++ nl ++ nl
                            ++ join nl (map shelterLine services) ++ nl ++ nl
                            ++ "Note: Most shelter assistance requires official registration with OPM.";
               quickReplies := Some ["OPM Contact"; "Registration Steps"; "More Info"] |})
  | Thrown e => Thrown e
  end.
Proof.
  unfold handleShelterIntent. rewrite outcome_bind, outcome_getServicesByCategory.
  now destruct (fetched _).
Qed.

Lemma outcome_handleHealthcareIntent w :
  outcome (handleHealthcareIntent w) =
  match fetched (services_by_category w "Health"), fetched (contacts_by_type w "Hospital") with
  | Returned services, Returned contacts =>
      Returned (formatHealthcareResponse services contacts)
  | Thrown e, _ => Thrown e
  | _, Thrown e => Thrown e
  end.
Proof.
  unfold handleHealthcareIntent.
  rewrite outcome_bind, outcome_promiseAll2, outcome_getServicesByCategory,
    outcome_getContactsByType.
  now destruct (fetched (services_by_category w "Health")),
    (fetched (contacts_by_type w "Hospital")).
Qed.

Lemma outcome_handleEmergencyContactsIntent w :
  outcome (handleEmergencyContactsIntent w) =
  match fetched (contacts_all w) with
  | Returned contacts => Returned (formatEmergencyContacts contacts)
  | Thrown e => Thrown e
  end.
Proof.
  unfold handleEmergencyContactsIntent. rewrite outcome_bind, outcome_getAllContacts.
  now destruct (fetched _).
Qed.

Lemma fetched_ok {A} (r : Reply A) : error r = None -> fetched r = Returned (orEmpty (data r)).
Proof. unfold fetched. now intros ->. Qed.

Lemma fetched_failed {A} (r : Reply A) msg :
  error r = Some msg -> fetched r = Thrown ("Database error: " ++ msg).
Proof. unfold fetched. now intros ->. Qed.

(** The [switch] of [handleIntentWithCustomLogic] on an override name. *)
Lemma handleIntentWithCustomLogic_dispatch w name parameters i :
  overrideIntent name = Some i ->
  handleIntentWithCustomLogic w name parameters =
  tryCatch (respond w i)
    (fun error =>
       log Error "Error in custom intent handling"
         [("error", error); ("intent", name); ("parameters", parameters)] ;;
       ret (formatErrorResponse (Some error))).
Proof.
  unfold overrideIntent, handleIntentWithCustomLogic.
  repeat match goal with
         | |- context [if ?c then _ else _] => destruct c
         end; intros H; inversion H; reflexivity.
Qed.

Lemma shouldUseCustomLogic_override name :
  shouldUseCustomLogic name = true <-> exists i, overrideIntent name = Some i.
Proof.
  unfold shouldUseCustomLogic, overrideIntent. cbn [existsb].
  repeat match goal with
         | |- context [if ?c then _ else _] => destruct c
         end; cbn [orb]; split; intros H; try reflexivity; try discriminate H;
    try (now eexists); destruct H as [i H]; discriminate H.
Qed.

End Handlers.

(** X12.  The registration handler needs all three of its fetches: with the
    steps and the documents read, it is the fetch of the [General]
    contacts that decides between the response and a database error, though
    the response is the same whatever contacts are read. *)
Theorem handleRegistrationIntent_needs_contacts (w : World)
    (Hsteps : error (registration_steps w) = None)
    (Hdocuments : error (required_documents w) = None) :
  outcome (DialogflowService.handleRegistrationIntent w) =
  match error (contacts_by_type w "General") with
  | Some msg => Thrown ("Database error: " ++ msg)
  | None =>
      Returned (fst (formatRegistrationResponse (orEmpty (data (registration_steps w)))
                       (orEmpty (data (required_documents w))) []))
  end.
Proof.
  rewrite outcome_handleRegistrationIntent.
  rewrite (fetched_ok _ Hsteps), (fetched_ok _ Hdocuments).
  unfold fetched. now destruct (error (contacts_by_type w "General")).
Qed.

Lemma handleRegistrationIntent_needs_contacts_witness :
  outcome (DialogflowService.handleRegistrationIntent servicesDown) =
  Returned (fst (formatRegistrationResponse [] [] [])).
Proof.
  apply (handleRegistrationIntent_needs_contacts servicesDown); reflexivity.
Defined.

(** X13.  [handleIntentWithCustomLogic] never throws: for an override
    intent it runs the handler Path B runs for that intent and, when the
    handler throws, answers with the error response instead. *)
Theorem handleIntentWithCustomLogic_catches (w : World) (name parameters : string)
    (i : Classifier.Intent) (Hname : overrideIntent name = Some i) :
  outcome (DialogflowService.handleIntentWithCustomLogic w name parameters) =
  match outcome (Classifier.respond w i) with
  | Returned r => Returned r
  | Thrown e => Returned (formatErrorResponse (Some e))
  end
  /\ (forall name' parameters',
        neverThrows (DialogflowService.handleIntentWithCustomLogic w name' parameters')).
Proof.
  split.
  - rewrite (handleIntentWithCustomLogic_dispatch w name parameters i Hname).
    rewrite outcome_tryCatch. destruct (outcome (Classifier.respond w i)); [reflexivity|].
    now rewrite outcome_log_bind.
  - intros. apply neverThrows_handleIntentWithCustomLogic.
Qed.

Lemma handleIntentWithCustomLogic_catches_witness :
  outcome (DialogflowService.handleIntentWithCustomLogic servicesDown "find_shelter" "{}") =
  Returned (formatErrorResponse (Some "Database error: connection refused")).
Proof.
  exact (proj1 (handleIntentWithCustomLogic_catches servicesDown "find_shelter" "{}"
                  Classifier.Shelter eq_refl)).
Defined.

(** X14.  [shouldUseCustomLogic] holds for exactly the five override names,
    and for each of them the [switch] of [handleIntentWithCustomLogic] runs
    a handler: its [default] branch is not reached for a name that passed
    [shouldUseCustomLogic]. *)
Theorem shouldUseCustomLogic_five_names (name : string) :
  (DialogflowService.shouldUseCustomLogic name = true <->
   name = "find_registration" \/ name = "find_food" \/ name = "find_shelter"
   \/ name = "find_healthcare" \/ name = "find_emergency_contacts")
  /\ (DialogflowService.shouldUseCustomLogic name = true ->
      forall w parameters, exists i,
        DialogflowService.handleIntentWithCustomLogic w name parameters =
        tryCatch (Classifier.respond w i)
          (fun error =>
             log Error "Error in custom intent handling"
               [("error", error); ("intent", name); ("parameters", parameters)] ;;
             ret (formatErrorResponse (Some error)))).
Proof.
  split.
  - unfold DialogflowService.shouldUseCustomLogic. cbn [existsb].
    rewrite !orb_true_iff, !String.eqb_eq. unfold INTENT_NAMES.FIND_REGISTRATION,
      INTENT_NAMES.FIND_FOOD, INTENT_NAMES.FIND_SHELTER, INTENT_NAMES.FIND_HEALTHCARE,
      INTENT_NAMES.FIND_EMERGENCY_CONTACTS.
    intuition discriminate.
  - intros H w parameters. apply shouldUseCustomLogic_override in H as [i Hi].
    exists i. now apply handleIntentWithCustomLogic_dispatch.
Qed.

Lemma shouldUseCustomLogic_five_names_witness :
  exists i,
    DialogflowService.handleIntentWithCustomLogic servicesDown "find_food" "{}" =
    tryCatch (Classifier.respond servicesDown i)
      (fun error =>
         log Error "Error in custom intent handling"
           [("error", error); ("intent", "find_food"); ("parameters", "{}")] ;;
         ret (formatErrorResponse (Some error))).
Proof.
  exact (proj2 (shouldUseCustomLogic_five_names "find_food") eq_refl servicesDown "{}").
Defined.

(* ------------------------------------------------------------------ *)
(** ** Path A and the constructed service                              *)
(* ------------------------------------------------------------------ *)

Section PathA.
Import DialogflowService Classifier.

(** Path A once the client is there and the remote NLU has answered. *)
Lemma handleMessageWithDialogflow_answered svc w message sessionId c q :
  sessionsClient svc = Some c -> truthy (projectId svc) = true ->
  detectIntent w (projectAgentSessionPath (ofNullable (projectId svc)) sessionId) message
    = Returned (Some q) ->
  outcome (handleMessageWithDialogflow svc w message sessionId) =
  if truthy (intent q) && shouldUseCustomLogic (ofNullable (intent q))
  then outcome (handleIntentWithCustomLogic w (ofNullable (intent q)) (parameters q))
  else Returned (textOnly (if truthy (fulfillmentText q) then ofNullable (fulfillmentText q)
                           else "I apologize, but I could not process your request.")).
Proof.
  intros Hc Hp Hd. unfold handleMessageWithDialogflow.
  rewrite outcome_emit_bind, Hc, Hp. cbn [negb].
  rewrite outcome_log_bind, outcome_emit_bind, Hd, outcome_log_bind.
  now destruct (truthy (intent q) && shouldUseCustomLogic (ofNullable (intent q))).
Qed.

Lemma new_invariant dialogflowEnabled dialogflowProjectId newSessionsClient svc :
  outcome (DialogflowService.new dialogflowEnabled dialogflowProjectId newSessionsClient)
    = Returned svc ->
  isEnabled svc =
    (dialogflowEnabled && negb (dialogflowProjectId =? "")
     && match newSessionsClient with Returned _ => true | Thrown _ => false end)
  /\ (isEnabled svc = true ->
      sessionsClient svc <> None /\ projectId svc = Some dialogflowProjectId
      /\ truthy (projectId svc) = true).
Proof.
  unfold DialogflowService.new.
  destruct (dialogflowEnabled && negb (dialogflowProjectId =? "")) eqn:E.
  - destruct newSessionsClient as [c|e]; cbn; intros H; injection H as <-; cbn.
    + split; [reflexivity|]. intros _. repeat split; [discriminate|].
      apply andb_true_iff in E as [_ E]. exact E.
    + split; [reflexivity | discriminate].
  - cbn. intros H; injection H as <-; cbn. split; [reflexivity | discriminate].
Qed.

End PathA.

(** X15.  When the remote NLU answers with an intent that is not one of the
    five override names, Path A returns the fulfillment text as it came,
    or the apology if there is none, without quick replies and without
    reading the database. *)
Theorem handleMessageWithDialogflow_passes_fulfillment
    (svc : DialogflowService.t) (w : World) (message sessionId : string)
    (c : DialogflowService.SessionsClient) (q : QueryResult)
    (Hclient : DialogflowService.sessionsClient svc = Some c)
    (Hproject : truthy (DialogflowService.projectId svc) = true)
    (Hanswer : detectIntent w
                 (DialogflowService.projectAgentSessionPath
                    (ofNullable (DialogflowService.projectId svc)) sessionId) message
               = Returned (Some q))
    (Hplain : DialogflowService.shouldUseCustomLogic (ofNullable (intent q)) = false) :
  outcome (DialogflowService.handleMessageWithDialogflow svc w message sessionId)
    = Returned (textOnly (if truthy (fulfillmentText q) then ofNullable (fulfillmentText q)
                          else "I apologize, but I could not process your request."))
  /\ reads (trace (DialogflowService.handleMessageWithDialogflow svc w message sessionId)) = 0.
Proof.
  split.
  - rewrite (handleMessageWithDialogflow_answered svc w message sessionId c q
               Hclient Hproject Hanswer).
    now rewrite Hplain, andb_false_r.
  - unfold DialogflowService.handleMessageWithDialogflow.
    rewrite Hclient, Hproject. cbn [negb]. rewrite Hanswer, Hplain, andb_false_r.
    reflexivity.
Qed.

Lemma handleMessageWithDialogflow_passes_fulfillment_witness :
  outcome (DialogflowService.handleMessageWithDialogflow remoteFirst
             (remoteAnswers thanksAnswer) "thanks" "user-abc")
  = Returned (textOnly "You are welcome.").
Proof.
  refine (proj1 (handleMessageWithDialogflow_passes_fulfillment remoteFirst
                   (remoteAnswers thanksAnswer) "thanks" "user-abc"
                   DialogflowService.TheSessionsClient thanksAnswer _ _ _ _));
    reflexivity.
Defined.

(** X16.  With the client constructed, once the remote NLU has answered,
    neither Path A nor [getResponse] throws, whatever the database does. *)
Theorem getResponse_total_when_remote_answers
    (svc : DialogflowService.t) (w w' : World) (message sessionId : string)
    (c : DialogflowService.SessionsClient) (q : QueryResult)
    (Hon : DialogflowService.isEnabled svc = true)
    (Hclient : DialogflowService.sessionsClient svc = Some c)
    (Hproject : truthy (DialogflowService.projectId svc) = true)
    (Hanswer : detectIntent w
                 (DialogflowService.projectAgentSessionPath
                    (ofNullable (DialogflowService.projectId svc)) sessionId) message
               = Returned (Some q)) :
  neverThrows (DialogflowService.handleMessageWithDialogflow svc w message sessionId)
  /\ outcome (DialogflowService.getResponse svc w w' message sessionId)
     = outcome (DialogflowService.handleMessageWithDialogflow svc w message sessionId).
Proof.
  assert (HA : neverThrows
                 (DialogflowService.handleMessageWithDialogflow svc w message sessionId)).
  { unfold neverThrows.
    rewrite (handleMessageWithDialogflow_answered svc w message sessionId c q
               Hclient Hproject Hanswer).
    destruct (_ && _); [apply neverThrows_handleIntentWithCustomLogic | now eexists]. }
  split; [exact HA|].
  destruct HA as [r Hr]. unfold DialogflowService.getResponse.
  rewrite outcome_emit_bind, outcome_tryCatch, Hon. cbn [negb]. now rewrite Hr.
Qed.

Lemma getResponse_total_when_remote_answers_witness :
  neverThrows
    (DialogflowService.handleMessageWithDialogflow remoteFirst
       (remoteAnswers registrationAnswer) "how do I register" "user-abc").
Proof.
  refine (proj1 (getResponse_total_when_remote_answers remoteFirst
                   (remoteAnswers registrationAnswer) (remoteAnswers registrationAnswer)
                   "how do I register" "user-abc"
                   DialogflowService.TheSessionsClient registrationAnswer _ _ _ _));
    reflexivity.
Defined.

(** X17.  The constructor of [DialogflowService] never throws; the service
    it builds is enabled exactly when the integration is switched on, a
    project id is set and the client could be created, and an enabled
    service holds its client and its project id. *)
Theorem DialogflowService_new_invariant
    (dialogflowEnabled : bool) (dialogflowProjectId : string)
    (newSessionsClient : Outcome DialogflowService.SessionsClient) :
  exists svc,
    outcome (DialogflowService.new dialogflowEnabled dialogflowProjectId newSessionsClient)
      = Returned svc
    /\ DialogflowService.isEnabled svc =
         (dialogflowEnabled && negb (dialogflowProjectId =? "")
          && match newSessionsClient with Returned _ => true | Thrown _ => false end)
    /\ (DialogflowService.isEnabled svc = true ->
        DialogflowService.sessionsClient svc <> None
        /\ DialogflowService.projectId svc = Some dialogflowProjectId
        /\ truthy (DialogflowService.projectId svc) = true).
Proof.
  assert (H : exists svc,
             outcome (DialogflowService.new dialogflowEnabled dialogflowProjectId
                        newSessionsClient) = Returned svc).
  { unfold DialogflowService.new.
    destruct (dialogflowEnabled && negb (dialogflowProjectId =? ""));
      [destruct newSessionsClient|]; cbn; now eexists. }
  destruct H as [svc Hsvc]. exists svc. split; [exact Hsvc|].
  now apply (new_invariant dialogflowEnabled dialogflowProjectId newSessionsClient).
Qed.

(* ------------------------------------------------------------------ *)
(** ** What a run leaves in the trace                                  *)
(* ------------------------------------------------------------------ *)

Section Traces.
Import DialogflowService Classifier.

Variable P : Event -> Prop.

Lemma emitsOnly_ret {A} (a : A) : emitsOnly P (ret a).
Proof. constructor. Qed.

Lemma emitsOnly_throw {A} (e : Exn) : emitsOnly P (@throw A e).
Proof. constructor. Qed.

Lemma emitsOnly_emit ev : P ev -> emitsOnly P (emit ev).
Proof. intros H. repeat constructor. exact H. Qed.

Lemma emitsOnly_bind {A B} (m : M A) (k : A -> M B) :
  emitsOnly P m -> (forall a, emitsOnly P (k a)) -> emitsOnly P (bind m k).
Proof.
  unfold emitsOnly. intros Hm Hk. rewrite trace_bind.
  destruct (outcome m); [apply Forall_app; split; [exact Hm | apply Hk] | exact Hm].
Qed.

Lemma emitsOnly_tryCatch {A} (m : M A) (h : Exn -> M A) :
  emitsOnly P m -> (forall e, emitsOnly P (h e)) -> emitsOnly P (tryCatch m h).
Proof.
  unfold emitsOnly. intros Hm Hh. rewrite trace_tryCatch.
  destruct (outcome m); [exact Hm | apply Forall_app; split; [exact Hm | apply Hh]].
Qed.

Lemma emitsOnly_promiseAll3 {A B C} (a : M A) (b : M B) (c : M C) :
  emitsOnly P a -> emitsOnly P b -> emitsOnly P c -> emitsOnly P (promiseAll3 a b c).
Proof.
  unfold emitsOnly, promiseAll3. intros Ha Hb Hc.
  assert (H : Forall P (trace a ++ trace b ++ trace c))
    by (rewrite !Forall_app; auto).
  now destruct (outcome a), (outcome b), (outcome c).
Qed.

Lemma emitsOnly_promiseAll2 {A B} (a : M A) (b : M B) :
  emitsOnly P a -> emitsOnly P b -> emitsOnly P (promiseAll2 a b).
Proof.
  unfold emitsOnly, promiseAll2. intros Ha Hb.
  assert (H : Forall P (trace a ++ trace b)) by (rewrite !Forall_app; auto).
  now destruct (outcome a), (outcome b).
Qed.

(** From here on [P] holds of every event but a call of the remote NLU. *)
Hypothesis P_other : forall ev, isDetect ev = false -> P ev.

Lemma emitsOnly_log {lvl msg meta} : emitsOnly P (log lvl msg meta).
Proof. apply emitsOnly_emit, P_other. reflexivity. Qed.

Local Ltac quiet :=
  repeat first
    [ apply emitsOnly_ret | apply emitsOnly_throw | apply emitsOnly_log
    | apply emitsOnly_emit, P_other; reflexivity
    | apply emitsOnly_bind; [|intros ?]
    | apply emitsOnly_promiseAll3 | apply emitsOnly_promiseAll2 ].

Lemma emitsOnly_getAllSteps w : emitsOnly P (RegistrationStepRepository.getAllSteps w).
Proof.
  unfold RegistrationStepRepository.getAllSteps.
  destruct (error (registration_steps w)); quiet.
Qed.

Lemma emitsOnly_getRequiredDocuments w :
  emitsOnly P (RegistrationStepRepository.getRequiredDocuments w).
Proof.
  unfold RegistrationStepRepository.getRequiredDocuments.
  destruct (error (required_documents w)); quiet.
Qed.

Lemma emitsOnly_getContactsByType w type :
  emitsOnly P (ContactRepository.getContactsByType w type).
Proof.
  unfold ContactRepository.getContactsByType.
  destruct (error (contacts_by_type w type)); quiet.
Qed.

Lemma emitsOnly_getAllContacts w : emitsOnly P (ContactRepository.getAllContacts w).
Proof.
  unfold ContactRepository.getAllContacts.
  destruct (error (contacts_all w)); quiet.
Qed.

Lemma emitsOnly_getServicesByCategory w category :
  emitsOnly P (ServiceRepository.getServicesByCategory w category).
Proof.
  unfold ServiceRepository.getServicesByCategory.
  destruct (error (services_by_category w category)); quiet.
Qed.

Lemma emitsOnly_respond w i : emitsOnly P (respond w i).
Proof.
  destruct i; cbn [respond].
  - apply emitsOnly_bind.
    + apply emitsOnly_promiseAll3;
        [apply emitsOnly_getAllSteps | apply emitsOnly_getRequiredDocuments
        | apply emitsOnly_getContactsByType].
    + intros [[? ?] ?]. apply emitsOnly_ret.
  - apply emitsOnly_bind; [apply emitsOnly_getServicesByCategory | intros; apply emitsOnly_ret].
  - apply emitsOnly_bind; [apply emitsOnly_getServicesByCategory|].
    intros services. destruct (JsArray.isEmpty services); apply emitsOnly_ret.
  - apply emitsOnly_bind.
    + apply emitsOnly_promiseAll2;
        [apply emitsOnly_getServicesByCategory | apply emitsOnly_getContactsByType].
    + intros [? ?]. apply emitsOnly_ret.
  - apply emitsOnly_bind; [apply emitsOnly_getAllContacts | intros; apply emitsOnly_ret].
  - apply emitsOnly_ret.
  - apply emitsOnly_ret.
Qed.

Lemma emitsOnly_handleMessageWithBuiltInLogic w message :
  emitsOnly P (handleMessageWithBuiltInLogic w message).
Proof.
  rewrite handleMessageWithBuiltInLogic_respond.
  apply emitsOnly_bind; [apply emitsOnly_emit, P_other; reflexivity|].
  intros _. apply emitsOnly_respond.
Qed.

Lemma emitsOnly_handleIntentWithCustomLogic w name parameters :
  emitsOnly P (handleIntentWithCustomLogic w name parameters).
Proof.
  unfold handleIntentWithCustomLogic. apply emitsOnly_tryCatch.
  - repeat match goal with
           | |- context [if ?c then _ else _] => destruct c
           end.
    + apply (emitsOnly_respond w Registration).
    + apply (emitsOnly_respond w Food).
    + apply (emitsOnly_respond w Shelter).
    + apply (emitsOnly_respond w Healthcare).
    + apply (emitsOnly_respond w EmergencyContacts).
    + apply emitsOnly_ret.
  - intros e. quiet.
Qed.

(** Path A: its one call of the remote NLU is the only event [P] has to be
    shown of. *)
Lemma emitsOnly_handleMessageWithDialogflow svc w message sessionId :
  P (DetectIntent (projectAgentSessionPath (ofNullable (projectId svc)) sessionId) message) ->
  emitsOnly P (handleMessageWithDialogflow svc w message sessionId).
Proof.
  intros Hcall. unfold handleMessageWithDialogflow.
  apply emitsOnly_bind; [apply emitsOnly_emit, P_other; reflexivity | intros _].
  destruct (sessionsClient svc); [|apply emitsOnly_throw].
  destruct (negb (truthy (projectId svc))); [apply emitsOnly_throw|].
  apply emitsOnly_bind; [apply emitsOnly_log | intros _].
  apply emitsOnly_bind; [apply emitsOnly_emit, Hcall | intros _].
  destruct (detectIntent w _ message) as [[q|]|e]; try apply emitsOnly_throw.
  apply emitsOnly_bind; [apply emitsOnly_log | intros _].
  destruct (_ && _); [apply emitsOnly_handleIntentWithCustomLogic | apply emitsOnly_ret].
Qed.

Lemma emitsOnly_getResponse svc w w' message sessionId :
  P (DetectIntent (projectAgentSessionPath (ofNullable (projectId svc)) sessionId) message) ->
  emitsOnly P (getResponse svc w w' message sessionId).
Proof.
  intros Hcall. unfold getResponse.
  apply emitsOnly_bind; [apply emitsOnly_emit, P_other; reflexivity | intros _].
  apply emitsOnly_tryCatch.
  - destruct (negb (isEnabled svc));
      [apply emitsOnly_handleMessageWithBuiltInLogic
      | now apply emitsOnly_handleMessageWithDialogflow].
  - intros e. apply emitsOnly_bind; [apply emitsOnly_log | intros _].
    apply emitsOnly_handleMessageWithBuiltInLogic.
Qed.

Lemma emitsOnly_processMessage svc w w' userMessage userPhone :
  P (DetectIntent (projectAgentSessionPath (ofNullable (projectId svc))
                     (generateSessionId userPhone)) userMessage) ->
  emitsOnly P (MessageService.processMessage svc w w' userMessage userPhone).
Proof.
  intros Hcall. unfold MessageService.processMessage. apply emitsOnly_tryCatch.
  - apply emitsOnly_bind; [apply emitsOnly_log | intros _].
    destruct (_ || _); [apply emitsOnly_ret|].
    destruct (_ <? _)%nat; [apply emitsOnly_ret|].
    apply emitsOnly_bind; [now apply emitsOnly_getResponse | intros r].
    apply emitsOnly_bind; [apply emitsOnly_log | intros _; apply emitsOnly_ret].
  - intros e. apply emitsOnly_bind; [apply emitsOnly_log | intros _; apply emitsOnly_ret].
Qed.

End Traces.

Section Counting.
Import DialogflowService.

Lemma detects_app (a b : list Event) : detects (a ++ b) = detects a + detects b.
Proof. unfold detects. now rewrite filter_app, length_app. Qed.

Lemma detects_none (t : list Event) :
  Forall (fun ev => isDetect ev = false) t -> detects t = 0.
Proof.
  induction 1 as [|ev t Hev _ IH]; [reflexivity|].
  unfold detects in *. simpl. now rewrite Hev.
Qed.

Lemma detects_quiet {A} (m : M A) :
  emitsOnly (fun ev => isDetect ev = false) m -> detects (trace m) = 0.
Proof. apply detects_none. Qed.

Lemma detects_handleMessageWithDialogflow svc w message sessionId :
  detects (trace (handleMessageWithDialogflow svc w message sessionId)) <= 1.
Proof.
  unfold handleMessageWithDialogflow.
  rewrite trace_bind. cbn [outcome emit snd trace fst]. rewrite detects_app.
  destruct (sessionsClient svc); [|cbn; lia].
  destruct (negb (truthy (projectId svc))); [cbn; lia|].
  rewrite trace_bind. cbn [outcome log emit snd trace fst]. rewrite detects_app.
  rewrite trace_bind. cbn [outcome log emit snd trace fst]. rewrite detects_app.
  destruct (detectIntent w _ message) as [[q|]|e]; [|cbn; lia|cbn; lia].
  rewrite trace_bind. cbn [outcome log emit snd trace fst]. rewrite detects_app.
  destruct (_ && _).
  - rewrite (detects_quiet (handleIntentWithCustomLogic w _ _)); [cbn; lia|].
    apply emitsOnly_handleIntentWithCustomLogic. auto.
  - cbn. lia.
Qed.


(** A repository call makes its one query, whatever the database
    replies. *)
Lemma selects_getAllSteps w :
  filter isSelect (trace (RegistrationStepRepository.getAllSteps w))
  = [Select "registration_steps" None].
Proof.
  unfold RegistrationStepRepository.getAllSteps.
  now destruct (error (registration_steps w)).
Qed.

Lemma selects_getRequiredDocuments w :
  filter isSelect (trace (RegistrationStepRepository.getRequiredDocuments w))
  = [Select "required_documents" None].
Proof.
  unfold RegistrationStepRepository.getRequiredDocuments.
  now destruct (error (required_documents w)).
Qed.

Lemma selects_getContactsByType w type :
  filter isSelect (trace (ContactRepository.getContactsByType w type))
  = [Select "contacts" (Some ("type", type))].
Proof.
  unfold ContactRepository.getContactsByType.
  now destruct (error (contacts_by_type w type)).
Qed.

Lemma selects_getAllContacts w :
  filter isSelect (trace (ContactRepository.getAllContacts w)) = [Select "contacts" None].
Proof.
  unfold ContactRepository.getAllContacts.
  now destruct (error (contacts_all w)).
Qed.

Lemma selects_getServicesByCategory w category :
  filter isSelect (trace (ServiceRepository.getServicesByCategory w category))
  = [Select "services" (Some ("category", category))].
Proof.
  unfold ServiceRepository.getServicesByCategory.
  now destruct (error (services_by_category w category)).
Qed.

Lemma trace_promiseAll3 {A B C} (a : M A) (b : M B) (c : M C) :
  trace (promiseAll3 a b c) = (trace a ++ trace b ++ trace c)%list.
Proof. unfold promiseAll3. now destruct (outcome a), (outcome b), (outcome c). Qed.

Lemma trace_promiseAll2 {A B} (a : M A) (b : M B) :
  trace (promiseAll2 a b) = (trace a ++ trace b)%list.
Proof. unfold promiseAll2. now destruct (outcome a), (outcome b). Qed.

(** The queries of a handler, in the order they are started: they do not
    depend on what the database replies. *)
Lemma selects_respond w i :
  filter isSelect (trace (Classifier.respond w i)) =
  match i with
  | Classifier.Registration =>
      [Select "registration_steps" None; Select "required_documents" None;
       Select "contacts" (Some ("type", "General"))]
  | Classifier.Food => [Select "services" (Some ("category", "Food"))]
  | Classifier.Shelter => [Select "services" (Some ("category", "Shelter"))]
  | Classifier.Healthcare =>
      [Select "services" (Some ("category", "Health"));
       Select "contacts" (Some ("type", "Hospital"))]
  | Classifier.EmergencyContacts => [Select "contacts" None]
  | Classifier.Welcome | Classifier.Fallback => []
  end.
Proof.
  destruct i; cbn [Classifier.respond]; try reflexivity.
  - unfold handleRegistrationIntent. rewrite trace_bind.
    assert (Ht : filter isSelect
                   (trace (promiseAll3 (RegistrationStepRepository.getAllSteps w)
                             (RegistrationStepRepository.getRequiredDocuments w)
                             (ContactRepository.getContactsByType w "General")))
                 = [Select "registration_steps" None; Select "required_documents" None;
                    Select "contacts" (Some ("type", "General"))]).
    { rewrite trace_promiseAll3, !filter_app, selects_getAllSteps,
        selects_getRequiredDocuments, selects_getContactsByType. reflexivity. }
    destruct (outcome _) as [[[? ?] ?]|?]; [|exact Ht].
    rewrite filter_app, Ht. reflexivity.
  - unfold handleFoodIntent. rewrite trace_bind.
    pose proof (selects_getServicesByCategory w "Food") as Ht.
    destruct (outcome _); [|exact Ht]. rewrite filter_app, Ht. reflexivity.
  - unfold handleShelterIntent. rewrite trace_bind.
    pose proof (selects_getServicesByCategory w "Shelter") as Ht.
    destruct (outcome _) as [services|]; [|exact Ht]. rewrite filter_app, Ht.
    now destruct (JsArray.isEmpty services).
  - unfold handleHealthcareIntent. rewrite trace_bind.
    assert (Ht : filter isSelect
                   (trace (promiseAll2 (ServiceRepository.getServicesByCategory w "Health")
                             (ContactRepository.getContactsByType w "Hospital")))
                 = [Select "services" (Some ("category", "Health"));
                    Select "contacts" (Some ("type", "Hospital"))]).
    { rewrite trace_promiseAll2, filter_app, selects_getServicesByCategory,
        selects_getContactsByType. reflexivity. }
    destruct (outcome _) as [[? ?]|?]; [|exact Ht].
    rewrite filter_app, Ht. reflexivity.
  - unfold handleEmergencyContactsIntent. rewrite trace_bind.
    pose proof (selects_getAllContacts w) as Ht.
    destruct (outcome _); [|exact Ht]. rewrite filter_app, Ht. reflexivity.
Qed.

(** No handler makes a query twice, so what the database replies during
    one run of a handler is a [World]. *)
Lemma respond_queries_once w i : NoDup (filter isSelect (trace (Classifier.respond w i))).
Proof.
  rewrite selects_respond.
  destruct i; repeat constructor; cbn [In]; intuition discriminate.
Qed.


End Counting.

(** X18.  One call of [getResponse] calls the remote NLU at most once, and
    not at all when the integration is off; Path B and the override
    handlers never call it. *)
Theorem getResponse_detects_at_most_once
    (svc : DialogflowService.t) (w w' : World) (message sessionId : string) :
  detects (trace (DialogflowService.getResponse svc w w' message sessionId)) <= 1
  /\ (DialogflowService.isEnabled svc = false ->
      detects (trace (DialogflowService.getResponse svc w w' message sessionId)) = 0)
  /\ detects (trace (DialogflowService.handleMessageWithBuiltInLogic w message)) = 0.
Proof.
  assert (HB : detects (trace (DialogflowService.handleMessageWithBuiltInLogic w message)) = 0).
  { apply detects_quiet, emitsOnly_handleMessageWithBuiltInLogic. auto. }
  assert (Hcatch : forall e,
             detects (trace (log Error "Error in getResponse"
                               [("error", e); ("message", message); ("sessionId", sessionId)] ;;
                             DialogflowService.handleMessageWithBuiltInLogic w' message)) = 0).
  { intros e. apply detects_quiet. apply emitsOnly_bind.
    - repeat constructor.
    - intros _. apply emitsOnly_handleMessageWithBuiltInLogic. auto. }
  assert (Hall : detects (trace (DialogflowService.getResponse svc w w' message sessionId))
                 <= (if DialogflowService.isEnabled svc then 1 else 0)).
  { unfold DialogflowService.getResponse.
    rewrite trace_bind. cbn [outcome emit snd trace fst]. rewrite detects_app.
    rewrite trace_tryCatch.
    pose proof (detects_handleMessageWithDialogflow svc w message sessionId) as HA.
    assert (H0 : detects [Enter GetResponse] = 0) by reflexivity. rewrite H0.
    destruct (DialogflowService.isEnabled svc); simpl negb; cbv iota.
    - destruct (outcome _); [|rewrite detects_app, Hcatch]; lia.
    - destruct (outcome _); [|rewrite detects_app, Hcatch]; rewrite HB; lia. }
  split; [|split; [|exact HB]].
  - destruct (DialogflowService.isEnabled svc); lia.
  - intros Hoff. rewrite Hoff in Hall. lia.
Qed.

Lemma getResponse_detects_at_most_once_witness :
  detects (trace (DialogflowService.getResponse builtInOnly servicesDown servicesDown
                    "hello" "user-abc")) = 0.
Proof.
  exact (proj1 (proj2 (getResponse_detects_at_most_once builtInOnly servicesDown
                         servicesDown "hello" "user-abc")) eq_refl).
Defined.

(** X19.  Whatever [processMessage] sends to the remote NLU, it sends the
    user's message under the session derived from the sender by
    [generateSessionId], never under the sender identity itself. *)
Theorem processMessage_detects_under_session_key
    (svc : DialogflowService.t) (w w' : World) (userMessage userPhone : string) :
  Forall (detectsAs
            (DialogflowService.projectAgentSessionPath
               (ofNullable (DialogflowService.projectId svc))
               (generateSessionId userPhone))
            userMessage)
    (trace (MessageService.processMessage svc w w' userMessage userPhone)).
Proof.
  apply emitsOnly_processMessage.
  - intros [] H; try exact I. discriminate H.
  - split; reflexivity.
Qed.



(* ------------------------------------------------------------------ *)
(** ** The signature middleware                                        *)
(* ------------------------------------------------------------------ *)

Section Middleware.
Import TwilioWebhookValidator.

Variable validateRequest :
  string -> string -> string -> TwilioService.Params -> Outcome bool.

(** How the middleware decides in production. *)
Lemma outcome_twilioWebhookValidator_production cfg req :
  outcome (twilioWebhookValidator validateRequest "production" cfg req) =
  if negb (truthy (x_twilio_signature req))
  then Returned (Json 403 "Forbidden: Missing signature" "MISSING_SIGNATURE")
  else if EnvironmentConfig.twilioAuthToken cfg =? ""
  then Returned (Json 500 "Server configuration error" "CONFIG_ERROR")
  else match validateRequest (EnvironmentConfig.twilioAuthToken cfg)
               (ofNullable (x_twilio_signature req)) (fullUrl req) (body req) with
       | Returned true => Returned Next
       | Returned false =>
           Returned (Json 403 "Forbidden: Invalid signature" "INVALID_SIGNATURE")
       | Thrown _ => Returned (Json 500 "Error validating request" "VALIDATION_ERROR")
       end.
Proof.
  unfold twilioWebhookValidator. cbn [isProduction String.eqb Ascii.eqb Bool.eqb negb].
  destruct (negb (truthy (x_twilio_signature req))); [reflexivity|].
  rewrite outcome_tryCatch, outcome_log_bind.
  destruct (EnvironmentConfig.twilioAuthToken cfg =? ""); [reflexivity|].
  rewrite outcome_bind. cbn [outcome snd].
  destruct (validateRequest _ _ _ _) as [[|]|e]; reflexivity.
Qed.

End Middleware.

(** X21.  In production [twilioWebhookValidator] hands the request on
    exactly when the signature header is present, the auth token is
    configured and the SDK accepts the signature for the reconstructed URL;
    outside production it hands every request on; it never throws. *)
Theorem twilioWebhookValidator_gate
    (validateRequest : string -> string -> string -> TwilioService.Params -> Outcome bool)
    (nodeEnv : string) (cfg : EnvironmentConfig.t) (req : TwilioWebhookValidator.Request) :
  neverThrows (TwilioWebhookValidator.twilioWebhookValidator validateRequest nodeEnv cfg req)
  /\ (nodeEnv <> "production" ->
      outcome (TwilioWebhookValidator.twilioWebhookValidator validateRequest nodeEnv cfg req)
        = Returned TwilioWebhookValidator.Next)
  /\ (nodeEnv = "production" ->
      (outcome (TwilioWebhookValidator.twilioWebhookValidator validateRequest nodeEnv cfg req)
         = Returned TwilioWebhookValidator.Next
       <-> truthy (TwilioWebhookValidator.x_twilio_signature req) = true
           /\ EnvironmentConfig.twilioAuthToken cfg <> ""
           /\ validateRequest (EnvironmentConfig.twilioAuthToken cfg)
                (ofNullable (TwilioWebhookValidator.x_twilio_signature req))
                (TwilioWebhookValidator.fullUrl req) (TwilioWebhookValidator.body req)
              = Returned true)).
Proof.
  assert (Hdev : nodeEnv <> "production" ->
            outcome (TwilioWebhookValidator.twilioWebhookValidator validateRequest nodeEnv
                       cfg req) = Returned TwilioWebhookValidator.Next).
  { intros Hne. unfold TwilioWebhookValidator.twilioWebhookValidator,
      TwilioWebhookValidator.isProduction.
    apply String.eqb_neq in Hne. now rewrite Hne. }
  split; [|split; [exact Hdev|]].
  - destruct (String.eqb_spec nodeEnv "production") as [->|Hne].
    + unfold neverThrows. rewrite outcome_twilioWebhookValidator_production.
      destruct (negb _); [now eexists|]. destruct (_ =? ""); [now eexists|].
      destruct (validateRequest _ _ _ _) as [[|]|]; now eexists.
    + unfold neverThrows. rewrite (Hdev Hne). now eexists.
  - intros ->. rewrite outcome_twilioWebhookValidator_production.
    destruct (truthy (TwilioWebhookValidator.x_twilio_signature req)); cbn [negb];
      [|split; [discriminate | intros [H _]; discriminate H]].
    destruct (String.eqb_spec (EnvironmentConfig.twilioAuthToken cfg) "") as [Ht|Ht];
      [split; [discriminate | intros (_ & H & _); contradiction]|].
    destruct (validateRequest _ _ _ _) as [[|]|e]; split; intros H;
      try discriminate H; try (repeat split; auto; fail);
      destruct H as (_ & _ & H); discriminate H.
Qed.

Lemma twilioWebhookValidator_gate_witness :
  outcome (TwilioWebhookValidator.twilioWebhookValidator
             (TwilioService.sdkValidateRequest toyDigest anyUrl) "development"
             {| EnvironmentConfig.twilioAccountSid := ""; EnvironmentConfig.twilioAuthToken := "" |}
             {| TwilioWebhookValidator.x_twilio_signature := None;
                TwilioWebhookValidator.x_forwarded_proto := None;
                TwilioWebhookValidator.x_forwarded_host := None;
                TwilioWebhookValidator.protocol := "http";
                TwilioWebhookValidator.host := Some "localhost:3000";
                TwilioWebhookValidator.originalUrl := "/webhook/twilio/whatsapp";
                TwilioWebhookValidator.body := [] |})
  = Returned TwilioWebhookValidator.Next.
Proof.
  refine (proj1 (proj2 (twilioWebhookValidator_gate _ "development" _ _)) _).
  discriminate.
Defined.

(** X22.  On one request, with the service built from the configuration
    the middleware reads: whenever [TwilioService.validateWebhookSignature]
    returns [true], the production middleware hands the request on; the
    converse holds once the account SID is configured, which the
    middleware, unlike the service, does not ask for. *)
Theorem validateWebhookSignature_agrees_with_middleware
    (validateRequest : string -> string -> string -> TwilioService.Params -> Outcome bool)
    (cfg : EnvironmentConfig.t) (svc : TwilioService.t)
    (req : TwilioWebhookValidator.Request)
    (Hsvc : outcome (TwilioService.new cfg) = Returned svc) :
  let service :=
    outcome (TwilioService.validateWebhookSignature validateRequest svc cfg
               (TwilioWebhookValidator.fullUrl req) (TwilioWebhookValidator.body req)
               (TwilioWebhookValidator.x_twilio_signature req)) in
  let middleware :=
    outcome (TwilioWebhookValidator.twilioWebhookValidator validateRequest "production"
               cfg req) in
  (service = Returned true -> middleware = Returned TwilioWebhookValidator.Next)
  /\ (EnvironmentConfig.twilioAccountSid cfg <> "" ->
      middleware = Returned TwilioWebhookValidator.Next -> service = Returned true).
Proof.
  cbv zeta. rewrite outcome_validateWebhookSignature,
    outcome_twilioWebhookValidator_production, (new_isConfigured cfg svc Hsvc).
  destruct (String.eqb_spec (EnvironmentConfig.twilioAccountSid cfg) "") as [Hs|Hs];
    destruct (String.eqb_spec (EnvironmentConfig.twilioAuthToken cfg) "") as [Ht|Ht];
    cbn [negb andb];
    destruct (negb (truthy (TwilioWebhookValidator.x_twilio_signature req)));
    try destruct (validateRequest _ _ _ _) as [[|]|e];
    split; intros; try reflexivity; try discriminate; try contradiction.
Qed.

Lemma validateWebhookSignature_agrees_with_middleware_witness :
  outcome (TwilioWebhookValidator.twilioWebhookValidator
             (TwilioService.sdkValidateRequest toyDigest anyUrl) "production"
             configured signedRequest)
  = Returned TwilioWebhookValidator.Next.
Proof.
  refine (proj1 (validateWebhookSignature_agrees_with_middleware
                   (TwilioService.sdkValidateRequest toyDigest anyUrl)
                   configured {| TwilioService.isConfigured := true |} signedRequest _) _).
  - reflexivity.
  - vm_compute. reflexivity.
Defined.

(* ------------------------------------------------------------------ *)
(** ** The webhook payload validator                                   *)
(* ------------------------------------------------------------------ *)

Section Payloads.
Import JsStringMore RequestValidator.

Lemma phoneRegex_shape (s : string) :
  phoneRegex s = true <->
  exists digits, s = "whatsapp:+" ++ digits
                 /\ 1 <= String.length digits <= 15 /\ allDigits digits = true.
Proof.
  unfold phoneRegex. split.
  - intros H. apply andb_true_iff in H as [Hp H].
    apply prefix_append in Hp as [digits ->].
    change (drop 10 ("whatsapp:+" ++ digits)) with digits in H. cbv zeta in H.
    apply andb_true_iff in H as [H Hd]. apply andb_true_iff in H as [H1 H15].
    apply Nat.leb_le in H1, H15. exists digits. auto.
  - intros (digits & -> & [H1 H15] & Hd).
    rewrite (prefix_self_append "whatsapp:+" digits).
    change (drop 10 ("whatsapp:+" ++ digits)) with digits. cbv zeta.
    apply Nat.leb_le in H1, H15. now rewrite H1, H15, Hd.
Qed.

Lemma outcome_validateTwilioWebhookPayload payload :
  outcome (validateTwilioWebhookPayload payload) = Returned tt <->
  truthyValue (From payload) = true
  /\ truthyValue (Body payload) = true
  /\ phoneRegex (toStringValue (From payload)) = true
  /\ isString (Body payload) = true
  /\ (utf16Length (trim (toStringValue (Body payload))) =? 0)%nat = false
  /\ (1000 <? utf16Length (toStringValue (Body payload)))%nat = false
  /\ truthyValue (MessageSid payload) && negb (isString (MessageSid payload)) = false
  /\ truthyValue (AccountSid payload) && negb (isString (AccountSid payload)) = false.
Proof.
  unfold validateTwilioWebhookPayload. cbv zeta.
  change (field payload "From") with (From payload).
  cbn [filter]. change (field payload "From") with (From payload).
  change (field payload "Body") with (Body payload).
  destruct (truthyValue (From payload)), (truthyValue (Body payload)); cbn [negb filter];
    try (split; [intros H; discriminate H | intros (H1 & H2 & _); discriminate]).
  change (0 <? @List.length string [])%nat with false. cbv iota.
  destruct (phoneRegex _); cbn [negb];
    [|split; [intros H; discriminate H | intros (_ & _ & H & _); discriminate H]].
  destruct (isString (Body payload)); cbn [negb];
    [|split; [intros H; discriminate H | intros (_ & _ & _ & H & _); discriminate H]].
  destruct (utf16Length (trim (toStringValue (Body payload))) =? 0)%nat;
    [split; [intros H; discriminate H | intros (_ & _ & _ & _ & H & _); discriminate H]|].
  destruct (1000 <? utf16Length (toStringValue (Body payload)))%nat;
    [split; [intros H; discriminate H | intros (_ & _ & _ & _ & _ & H & _); discriminate H]|].
  destruct (truthyValue (MessageSid payload) && _);
    [split; [intros H; discriminate H | intros (_ & _ & _ & _ & _ & _ & H & _); discriminate H]|].
  destruct (truthyValue (AccountSid payload) && _);
    [split; [intros H; discriminate H
            | intros (_ & _ & _ & _ & _ & _ & _ & H); discriminate H]|].
  split; [intros _; repeat split | reflexivity].
Qed.

Lemma outcome_processMessage svc w w' userMessage userPhone :
  outcome (MessageService.processMessage svc w w' userMessage userPhone) =
  if (userMessage =? "") || (utf16Length (trim userMessage) =? 0)%nat
  then Returned (textOnly MessageService.instructional)
  else if (500 <? utf16Length userMessage)%nat
  then Returned (textOnly MessageService.tooLong)
  else match outcome (DialogflowService.getResponse svc w w' userMessage
                        (generateSessionId userPhone)) with
       | Returned r => Returned r
       | Thrown _ => Returned (textOnly MessageService.tryAgain)
       end.
Proof.
  unfold MessageService.processMessage.
  rewrite outcome_tryCatch, outcome_log_bind.
  destruct (_ || _); [reflexivity|]. destruct (_ <? _)%nat; [reflexivity|].
  rewrite outcome_bind.
  destruct (outcome (DialogflowService.getResponse _ _ _ _ _)) as [r|e];
    now rewrite outcome_log_bind.
Qed.

Lemma split_at_two (s : string) :
  2 <= String.length s ->
  exists d r, s = d ++ r /\ String.length d = 2 /\ d = substring 0 2 s.
Proof.
  destruct s as [|a [|b r]]; simpl; try lia. intros _.
  exists (String a (String b "")), r. repeat split. now destruct r.
Qed.

End Payloads.

(** X23.  [validateTwilioWebhookPayload] returns exactly for the payloads
    whose [From], read as a string, is [whatsapp:+] followed by one to
    fifteen digits, whose [Body] is a string of at most 1000 characters
    (UTF-16 code units) that [trim] does not leave empty, and whose
    [MessageSid] and [AccountSid], when present, are strings; it throws for
    every other payload. *)
Theorem validateTwilioWebhookPayload_accepts (payload : RequestValidator.Payload) :
  outcome (RequestValidator.validateTwilioWebhookPayload payload) = Returned tt <->
  RequestValidator.truthyValue (RequestValidator.From payload) = true
  /\ (exists digits,
        RequestValidator.toStringValue (RequestValidator.From payload)
          = "whatsapp:+" ++ digits
        /\ 1 <= String.length digits <= 15 /\ JsStringMore.allDigits digits = true)
  /\ (exists b, RequestValidator.Body payload = RequestValidator.JString b
                /\ trim b <> "" /\ utf16Length b <= 1000)
  /\ (RequestValidator.truthyValue (RequestValidator.MessageSid payload) = true ->
      RequestValidator.isString (RequestValidator.MessageSid payload) = true)
  /\ (RequestValidator.truthyValue (RequestValidator.AccountSid payload) = true ->
      RequestValidator.isString (RequestValidator.AccountSid payload) = true).
Proof.
  rewrite outcome_validateTwilioWebhookPayload, phoneRegex_shape. split.
  - intros (HF & HB & Hre & Hs & Ht & Hl & Hm & Ha).
    split; [exact HF | split; [exact Hre | split; [|split]]].
    + destruct (RequestValidator.Body payload) as [| | | |b|] eqn:EB; try discriminate Hs.
      exists b. cbn [RequestValidator.toStringValue] in Ht, Hl. repeat split.
      * intros E. rewrite E in Ht. discriminate Ht.
      * now apply Nat.ltb_ge.
    + intros H. rewrite H in Hm. cbn [andb] in Hm. now apply negb_false_iff in Hm.
    + intros H. rewrite H in Ha. cbn [andb] in Ha. now apply negb_false_iff in Ha.
  - intros (HF & Hre & (b & Hb & Ht & Hl) & Hm & Ha). rewrite Hb.
    cbn [RequestValidator.toStringValue RequestValidator.truthyValue
         RequestValidator.isString].
    repeat split; auto.
    + destruct b; [now contradiction Ht | reflexivity].
    + destruct (utf16Length (trim b) =? 0)%nat eqn:E; [|reflexivity].
      apply utf16Length_zero_iff in E. contradiction.
    + now apply Nat.ltb_ge.
    + destruct (RequestValidator.truthyValue (RequestValidator.MessageSid payload));
        [now rewrite Hm | reflexivity].
    + destruct (RequestValidator.truthyValue (RequestValidator.AccountSid payload));
        [now rewrite Ha | reflexivity].
Qed.

Lemma validateTwilioWebhookPayload_accepts_witness :
  exists b, RequestValidator.Body plainPayload = RequestValidator.JString b
            /\ trim b <> "" /\ utf16Length b <= 1000.
Proof.
  refine (proj1 (proj2 (proj2 (proj1 (validateTwilioWebhookPayload_accepts plainPayload) _)))).
  vm_compute. reflexivity.
Defined.

(** X24.  A body that passed [validateTwilioWebhookPayload] never gets the
    instructional message of the emptiness guard from [processMessage]:
    it gets the too-long message when it has more than 500 characters,
    which the validator lets through up to 1000, and otherwise what
    [getResponse] returns, or the try-again message if that throws. *)
Theorem processMessage_after_payload_validation
    (payload : RequestValidator.Payload) (svc : DialogflowService.t) (w w' : World)
    (userMessage userPhone : string)
    (Hvalid : outcome (RequestValidator.validateTwilioWebhookPayload payload) = Returned tt)
    (Hbody : RequestValidator.Body payload = RequestValidator.JString userMessage) :
  outcome (MessageService.processMessage svc w w' userMessage userPhone) =
  if (500 <? utf16Length userMessage)%nat
  then Returned (textOnly MessageService.tooLong)
  else match outcome (DialogflowService.getResponse svc w w' userMessage
                        (generateSessionId userPhone)) with
       | Returned r => Returned r
       | Thrown _ => Returned (textOnly MessageService.tryAgain)
       end.
Proof.
  apply outcome_validateTwilioWebhookPayload in Hvalid
    as (_ & HB & _ & _ & Ht & _). rewrite Hbody in HB, Ht.
  cbn [RequestValidator.toStringValue RequestValidator.truthyValue] in HB, Ht.
  rewrite outcome_processMessage, Ht.
  destruct (userMessage =? ""); [discriminate HB | reflexivity].
Qed.

Lemma processMessage_after_payload_validation_witness :
  outcome (MessageService.processMessage builtInOnly servicesDown servicesDown
             (replicate 600 "a") "whatsapp:+256700123456")
  = Returned (textOnly MessageService.tooLong).
Proof.
  refine (processMessage_after_payload_validation
            {| RequestValidator.From := RequestValidator.JString "whatsapp:+256700123456";
               RequestValidator.Body := RequestValidator.JString (replicate 600 "a");
               RequestValidator.MessageSid := RequestValidator.JUndefined;
               RequestValidator.AccountSid := RequestValidator.JUndefined |}
            builtInOnly servicesDown servicesDown (replicate 600 "a")
            "whatsapp:+256700123456" _ _).
  - vm_compute. reflexivity.
  - reflexivity.
Defined.

(** X25.  Two senders accepted by the payload validator whose numbers start
    with the same two digits get the same session key. *)
Theorem generateSessionId_same_for_same_leading_digits (from1 from2 : string)
    (H1 : RequestValidator.phoneRegex from1 = true)
    (H2 : RequestValidator.phoneRegex from2 = true)
    (Hlen1 : 12 <= String.length from1) (Hlen2 : 12 <= String.length from2)
    (Hdigits : substring 10 2 from1 = substring 10 2 from2) :
  generateSessionId from1 = generateSessionId from2.
Proof.
  apply phoneRegex_shape in H1 as (ds1 & -> & _ & _).
  apply phoneRegex_shape in H2 as (ds2 & -> & _ & _).
  rewrite length_append in Hlen1, Hlen2. simpl in Hlen1, Hlen2.
  destruct (split_at_two ds1 ltac:(lia)) as (d1 & r1 & -> & Hd1 & E1).
  destruct (split_at_two ds2 ltac:(lia)) as (d2 & r2 & -> & Hd2 & E2).
  change (substring 10 2 ("whatsapp:+" ++ d1 ++ r1)) with (substring 0 2 (d1 ++ r1)) in Hdigits.
  change (substring 10 2 ("whatsapp:+" ++ d2 ++ r2)) with (substring 0 2 (d2 ++ r2)) in Hdigits.
  rewrite <- E1, <- E2 in Hdigits. subst d2.
  rewrite <- !append_assoc.
  rewrite !generateSessionId_of_first_twelve;
    [reflexivity | rewrite length_append, Hd1; reflexivity ..].
Qed.

Lemma generateSessionId_same_for_same_leading_digits_witness :
  generateSessionId "whatsapp:+256700123456" = generateSessionId "whatsapp:+254711000222".
Proof.
  apply generateSessionId_same_for_same_leading_digits;
    try reflexivity; vm_compute; lia.
Defined.

(* ------------------------------------------------------------------ *)
(** ** Healthcare and shelter when the tables are empty                *)
(* ------------------------------------------------------------------ *)

(** X26.  With no service of category [Health] and no contact of type
    [Emergency] or [Hospital] to list, the healthcare response is the bare
    heading, with the healthcare quick replies: there is no guidance text
    to fall back on as there is for food and shelter. *)
Theorem formatHealthcareResponse_bare_heading
    (services : list Service.t) (contacts : list Contact.t)
    (Hservices : forall s, In s services -> Service.category s <> "Health")
    (Hcontacts : forall c, In c contacts ->
                   Contact.type c <> "Emergency" /\ Contact.type c <> "Hospital") :
  formatHealthcareResponse services contacts =
  {| message := "Healthcare services available:" ++ nl ++ nl;
     quickReplies := Some QUICK_REPLIES.HEALTHCARE |}.
Proof.
  unfold formatHealthcareResponse. cbv zeta.
  rewrite (filter_nil_of_none _ services), (filter_nil_of_none _ contacts).
  - reflexivity.
  - intros c Hc. destruct (Hcontacts c Hc) as [He Hh].
    apply String.eqb_neq in He, Hh. now rewrite He, Hh.
  - intros s Hs. apply String.eqb_neq. now apply Hservices.
Qed.

Lemma formatHealthcareResponse_bare_heading_witness :
  formatHealthcareResponse [unhcrTents] [contactA] =
  {| message := "Healthcare services available:" ++ nl ++ nl;
     quickReplies := Some QUICK_REPLIES.HEALTHCARE |}.
Proof.
  apply formatHealthcareResponse_bare_heading.
  - intros s [<-|[]]. discriminate.
  - intros c [<-|[]]. split; discriminate.
Defined.

(** X27.  The shelter handler answers with the OPM guidance when the
    database has no [Shelter] row, a [null] result included; when it has
    rows, the line of every one of them is in the message. *)
Theorem handleShelterIntent_guidance_or_listing (w : World)
    (Hread : error (services_by_category w "Shelter") = None) :
  (orEmpty (data (services_by_category w "Shelter")) = [] ->
   outcome (DialogflowService.handleShelterIntent w) =
   Returned
     {| message := "Shelter assistance is arranged through the official registration process with OPM. You need to report to the OPM Refugee Desk to be assigned a place in a settlement. Would you like their contact information?";
        quickReplies := Some ["OPM Contact"; "Registration Info"; "Main Menu"] |})
  /\ (forall s, In s (orEmpty (data (services_by_category w "Shelter"))) ->
      exists r, outcome (DialogflowService.handleShelterIntent w) = Returned r
                /\ includes (DialogflowService.shelterLine s) (message r) = true).
Proof.
  rewrite outcome_handleShelterIntent, (fetched_ok _ Hread).
  set (rows := orEmpty (data (services_by_category w "Shelter"))).
  split.
  - intros ->. reflexivity.
  - intros s Hs. rewrite (isEmpty_In _ _ Hs). eexists. split; [reflexivity|].
    cbn [message]. do 3 apply includes_skip_l. apply includes_keep_r.
    now apply includes_join_map.
Qed.

Lemma handleShelterIntent_guidance_or_listing_witness :
  outcome (DialogflowService.handleShelterIntent emptyTables) =
  Returned
    {| message := "Shelter assistance is arranged through the official registration process with OPM. You need to report to the OPM Refugee Desk to be assigned a place in a settlement. Would you like their contact information?";
       quickReplies := Some ["OPM Contact"; "Registration Info"; "Main Menu"] |}.
Proof.
  refine (proj1 (handleShelterIntent_guidance_or_listing emptyTables _) _); reflexivity.
Defined.

(* ------------------------------------------------------------------ *)
(** ** Quick replies                                                   *)
(* ------------------------------------------------------------------ *)

Section QuickReplies.
Import DialogflowService Classifier.

Variable Q : BotResponse -> Prop.

Lemma returnsOnly_ret r : Q r -> returnsOnly Q (ret r).
Proof. intros Hr r' H. injection H as <-. exact Hr. Qed.

Lemma returnsOnly_throw e : returnsOnly Q (throw e).
Proof. intros r H. discriminate H. Qed.

Lemma returnsOnly_bind {A} (m : M A) (k : A -> M BotResponse) :
  (forall a, returnsOnly Q (k a)) -> returnsOnly Q (bind m k).
Proof.
  intros Hk r H. rewrite outcome_bind in H.
  destruct (outcome m) as [a|e]; [now apply (Hk a) | discriminate H].
Qed.

Lemma returnsOnly_tryCatch (m : M BotResponse) (h : Exn -> M BotResponse) :
  returnsOnly Q m -> (forall e, returnsOnly Q (h e)) -> returnsOnly Q (tryCatch m h).
Proof.
  intros Hm Hh r H. rewrite outcome_tryCatch in H.
  destruct (outcome m) as [a|e] eqn:Ho.
  - injection H as <-. now apply Hm.
  - now apply (Hh e).
Qed.

(** [Q] holds of every response a composer builds and of every bare text. *)
Hypothesis Q_text : forall s, Q (textOnly s).
Hypothesis Q_registration : forall steps documents contacts,
  Q (fst (formatRegistrationResponse steps documents contacts)).
Hypothesis Q_food : forall services, Q (formatFoodResponse services).
Hypothesis Q_healthcare : forall services contacts,
  Q (formatHealthcareResponse services contacts).
Hypothesis Q_emergency : forall contacts, Q (formatEmergencyContacts contacts).
Hypothesis Q_welcome : Q formatWelcomeResponse.
Hypothesis Q_shelter : forall w, returnsOnly Q (handleShelterIntent w).

Lemma returnsOnly_respond w i : returnsOnly Q (respond w i).
Proof.
  destruct i; cbn [respond].
  - apply returnsOnly_bind. intros [[steps documents] contacts].
    apply returnsOnly_ret, Q_registration.
  - apply returnsOnly_bind. intros services. apply returnsOnly_ret, Q_food.
  - apply Q_shelter.
  - apply returnsOnly_bind. intros [services contacts]. apply returnsOnly_ret, Q_healthcare.
  - apply returnsOnly_bind. intros contacts. apply returnsOnly_ret, Q_emergency.
  - apply returnsOnly_ret, Q_welcome.
  - apply returnsOnly_ret, Q_text.
Qed.

Lemma returnsOnly_handleMessageWithBuiltInLogic w message :
  returnsOnly Q (handleMessageWithBuiltInLogic w message).
Proof.
  rewrite handleMessageWithBuiltInLogic_respond.
  apply returnsOnly_bind. intros _. apply returnsOnly_respond.
Qed.

Lemma returnsOnly_handleIntentWithCustomLogic w name parameters :
  returnsOnly Q (handleIntentWithCustomLogic w name parameters).
Proof.
  unfold handleIntentWithCustomLogic. apply returnsOnly_tryCatch.
  - repeat match goal with
           | |- context [if ?c then _ else _] => destruct c
           end.
    + apply (returnsOnly_respond w Registration).
    + apply (returnsOnly_respond w Food).
    + apply (returnsOnly_respond w Shelter).
    + apply (returnsOnly_respond w Healthcare).
    + apply (returnsOnly_respond w EmergencyContacts).
    + apply returnsOnly_ret, Q_text.
  - intros e. apply returnsOnly_bind. intros _. apply returnsOnly_ret, Q_text.
Qed.

Lemma returnsOnly_handleMessageWithDialogflow svc w message sessionId :
  returnsOnly Q (handleMessageWithDialogflow svc w message sessionId).
Proof.
  unfold handleMessageWithDialogflow. apply returnsOnly_bind. intros _.
  destruct (sessionsClient svc); [|apply returnsOnly_throw].
  destruct (negb (truthy (projectId svc))); [apply returnsOnly_throw|].
  apply returnsOnly_bind. intros _. apply returnsOnly_bind. intros _.
  destruct (detectIntent w _ message) as [[q|]|e]; try apply returnsOnly_throw.
  apply returnsOnly_bind. intros _.
  destruct (_ && _);
    [apply returnsOnly_handleIntentWithCustomLogic | apply returnsOnly_ret, Q_text].
Qed.

Lemma returnsOnly_getResponse svc w w' message sessionId :
  returnsOnly Q (getResponse svc w w' message sessionId).
Proof.
  unfold getResponse. apply returnsOnly_bind. intros _. apply returnsOnly_tryCatch.
  - destruct (negb (isEnabled svc));
      [apply returnsOnly_handleMessageWithBuiltInLogic
      | apply returnsOnly_handleMessageWithDialogflow].
  - intros e. apply returnsOnly_bind. intros _.
    apply returnsOnly_handleMessageWithBuiltInLogic.
Qed.

Lemma returnsOnly_processMessage svc w w' userMessage userPhone :
  returnsOnly Q (MessageService.processMessage svc w w' userMessage userPhone).
Proof.
  intros r. rewrite outcome_processMessage.
  destruct (_ || _); [intros H; injection H as <-; apply Q_text|].
  destruct (_ <? _)%nat; [intros H; injection H as <-; apply Q_text|].
  destruct (outcome (getResponse _ _ _ _ _)) as [a|e] eqn:Hg; intros H; injection H as <-.
  - exact (returnsOnly_getResponse _ _ _ _ _ _ Hg).
  - apply Q_text.
Qed.

End QuickReplies.

(** X28.  Every response [processMessage] and [getResponse] return carries
    either no quick replies or between three and five of them, whatever
    the database and the remote NLU return. *)
Theorem processMessage_few_quick_replies
    (svc : DialogflowService.t) (w w' : World) (userMessage userPhone sessionId : string) :
  returnsOnly fewQuickReplies (MessageService.processMessage svc w w' userMessage userPhone)
  /\ returnsOnly fewQuickReplies
       (DialogflowService.getResponse svc w w' userMessage sessionId).
Proof.
  assert (Htext : forall s, fewQuickReplies (textOnly s)) by (intros; exact I).
  assert (Hreg : forall steps documents contacts,
             fewQuickReplies (fst (formatRegistrationResponse steps documents contacts)))
    by (intros; cbn; lia).
  assert (Hfood : forall services, fewQuickReplies (formatFoodResponse services)).
  { intros. unfold formatFoodResponse. destruct (JsArray.isEmpty _); cbn; lia. }
  assert (Hhealth : forall services contacts,
             fewQuickReplies (formatHealthcareResponse services contacts))
    by (intros; cbn; lia).
  assert (Hemergency : forall contacts, fewQuickReplies (formatEmergencyContacts contacts))
    by (intros; cbn; lia).
  assert (Hwelcome : fewQuickReplies formatWelcomeResponse) by (cbn; lia).
  assert (Hshelter : forall w0, returnsOnly fewQuickReplies
                                  (DialogflowService.handleShelterIntent w0)).
  { intros w0. apply returnsOnly_bind. intros services.
    destruct (JsArray.isEmpty services); apply returnsOnly_ret; cbn; lia. }
  split.
  - now apply returnsOnly_processMessage.
  - now apply returnsOnly_getResponse.
Qed.

(* ------------------------------------------------------------------ *)
(** ** Session keys tell the first twelve characters apart             *)
(* ------------------------------------------------------------------ *)

Section Base64Injective.

Lemma forall_below (P : N -> bool) (k : nat) :
  forallb (fun i => P (N.of_nat i)) (seq 0 k) = true ->
  forall n, (n < N.of_nat k)%N -> P n = true.
Proof.
  intros H n Hn. rewrite forallb_forall in H.
  rewrite <- (N2Nat.id n). apply H, in_seq. lia.
Qed.

Lemma undigit_digit (n : N) : (n < 64)%N -> undigit (Base64.digit n) = n.
Proof.
  intros Hn. apply N.eqb_eq.
  apply (forall_below (fun n => (undigit (Base64.digit n) =? n)%N) 64);
    [vm_compute; reflexivity | exact Hn].
Qed.

Lemma lor_high_low_16 (p q : N) :
  (p < 4)%N -> (q < 16)%N -> N.lor (N.shiftl p 4) q = (16 * p + q)%N.
Proof.
  intros Hp Hq. apply N.eqb_eq. revert q Hq.
  apply (forall_below (fun q => (N.lor (N.shiftl p 4) q =? 16 * p + q)%N) 16).
  revert p Hp.
  apply (forall_below
           (fun p => forallb (fun i => (N.lor (N.shiftl p 4) (N.of_nat i)
                                        =? 16 * p + N.of_nat i)%N) (seq 0 16)) 4).
  vm_compute. reflexivity.
Qed.

Lemma lor_high_low_4 (p q : N) :
  (p < 16)%N -> (q < 4)%N -> N.lor (N.shiftl p 2) q = (4 * p + q)%N.
Proof.
  intros Hp Hq. apply N.eqb_eq. revert q Hq.
  apply (forall_below (fun q => (N.lor (N.shiftl p 2) q =? 4 * p + q)%N) 4).
  revert p Hp.
  apply (forall_below
           (fun p => forallb (fun i => (N.lor (N.shiftl p 2) (N.of_nat i)
                                        =? 4 * p + N.of_nat i)%N) (seq 0 4)) 16).
  vm_compute. reflexivity.
Qed.

Lemma byte_bound (a : ascii) : (N_of_ascii a < 256)%N.
Proof. apply N_ascii_bounded. Qed.

(** The four six-bit values of a group, in arithmetic. *)
Lemma value1 (a : ascii) :
  N.shiftr (N_of_ascii a) 2 = (N_of_ascii a / 4)%N.
Proof. now rewrite N.shiftr_div_pow2. Qed.

Lemma value2 (a b : ascii) :
  N.lor (N.shiftl (N.land (N_of_ascii a) 3) 4) (N.shiftr (N_of_ascii b) 4)
  = (16 * (N_of_ascii a mod 4) + N_of_ascii b / 16)%N.
Proof.
  change 3%N with (N.ones 2). rewrite N.land_ones, N.shiftr_div_pow2.
  change (2 ^ 2)%N with 4%N. change (2 ^ 4)%N with 16%N.
  apply lor_high_low_16.
  - apply N.mod_lt. discriminate.
  - apply N.Div0.div_lt_upper_bound. apply (byte_bound b).
Qed.

Lemma value3 (b c : ascii) :
  N.lor (N.shiftl (N.land (N_of_ascii b) 15) 2) (N.shiftr (N_of_ascii c) 6)
  = (4 * (N_of_ascii b mod 16) + N_of_ascii c / 64)%N.
Proof.
  change 15%N with (N.ones 4). rewrite N.land_ones, N.shiftr_div_pow2.
  change (2 ^ 4)%N with 16%N. change (2 ^ 6)%N with 64%N.
  apply lor_high_low_4.
  - apply N.mod_lt. discriminate.
  - apply N.Div0.div_lt_upper_bound. apply (byte_bound c).
Qed.

Lemma value4 (c : ascii) : N.land (N_of_ascii c) 63 = (N_of_ascii c mod 64)%N.
Proof. change 63%N with (N.ones 6). now rewrite N.land_ones. Qed.

Lemma N_of_ascii_inj (a b : ascii) : N_of_ascii a = N_of_ascii b -> a = b.
Proof.
  intros H. rewrite <- (ascii_N_embedding a), <- (ascii_N_embedding b). now rewrite H.
Qed.

Local Ltac Zify.zify_post_hook ::= Z.to_euclidean_division_equations.

Lemma first_byte (x x' y y' : N) :
  (y < 256 -> y' < 256 ->
   x / 4 = x' / 4 ->
   16 * (x mod 4) + y / 16 = 16 * (x' mod 4) + y' / 16 ->
   x = x' /\ y / 16 = y' / 16)%N.
Proof. lia. Qed.

Lemma second_byte (y y' z z' : N) :
  (z < 256 -> z' < 256 ->
   y / 16 = y' / 16 ->
   4 * (y mod 16) + z / 64 = 4 * (y' mod 16) + z' / 64 ->
   y = y' /\ z / 64 = z' / 64)%N.
Proof. lia. Qed.

Lemma third_byte (z z' : N) :
  (z / 64 = z' / 64 -> z mod 64 = z' mod 64 -> z = z')%N.
Proof. lia. Qed.

Lemma groups_bounds (x y z : N) :
  (x < 256 -> y < 256 -> z < 256 ->
   x / 4 < 64 /\ 16 * (x mod 4) + y / 16 < 64
   /\ 4 * (y mod 16) + z / 64 < 64 /\ z mod 64 < 64)%N.
Proof. lia. Qed.

(** Four characters of the encoding fix the three characters encoded. *)
Lemma group_inj (a b c a' b' c' : ascii) :
  Base64.d1 a = Base64.d1 a' -> Base64.d2 a b = Base64.d2 a' b' ->
  Base64.d3 b c = Base64.d3 b' c' -> Base64.d4 c = Base64.d4 c' ->
  a = a' /\ b = b' /\ c = c'.
Proof.
  unfold Base64.d1, Base64.d2, Base64.d3, Base64.d4.
  rewrite !value1, !value2, !value3, !value4.
  pose proof (byte_bound a) as Ha. pose proof (byte_bound b) as Hb.
  pose proof (byte_bound c) as Hc. pose proof (byte_bound a') as Ha'.
  pose proof (byte_bound b') as Hb'. pose proof (byte_bound c') as Hc'.
  revert Ha Hb Hc Ha' Hb' Hc'.
  generalize (N_of_ascii_inj a a') (N_of_ascii_inj b b') (N_of_ascii_inj c c').
  generalize (N_of_ascii a) (N_of_ascii b) (N_of_ascii c)
    (N_of_ascii a') (N_of_ascii b') (N_of_ascii c').
  intros x y z x' y' z' Ia Ib Ic Hx Hy Hz Hx' Hy' Hz' H1 H2 H3 H4.
  destruct (groups_bounds x y z Hx Hy Hz) as (B1 & B2 & B3 & B4).
  destruct (groups_bounds x' y' z' Hx' Hy' Hz') as (B1' & B2' & B3' & B4').
  apply (f_equal undigit) in H1, H2, H3, H4.
  rewrite (undigit_digit _ B1), (undigit_digit _ B1') in H1.
  rewrite (undigit_digit _ B2), (undigit_digit _ B2') in H2.
  rewrite (undigit_digit _ B3), (undigit_digit _ B3') in H3.
  rewrite (undigit_digit _ B4), (undigit_digit _ B4') in H4.
  destruct (first_byte x x' y y' Hy Hy' H1 H2) as [E1 D1].
  destruct (second_byte y y' z z' Hz Hz' D1 H3) as [E2 D2].
  pose proof (third_byte z z' D2 H4) as E3.
  auto.
Qed.

Lemma encode_inj3 (k : nat) (p p' : string) :
  String.length p = 3 * k -> String.length p' = 3 * k ->
  Base64.encode p = Base64.encode p' -> p = p'.
Proof.
  revert p p'. induction k as [|k IH]; intros p p' Hp Hp' H.
  - destruct p, p'; try discriminate; reflexivity.
  - destruct p as [|a [|b [|c p]]]; try (simpl in Hp; lia).
    destruct p' as [|a' [|b' [|c' p']]]; try (simpl in Hp'; lia).
    change (Base64.encode (String a (String b (String c p))))
      with (String (Base64.d1 a) (String (Base64.d2 a b) (String (Base64.d3 b c)
              (String (Base64.d4 c) (Base64.encode p))))) in H.
    change (Base64.encode (String a' (String b' (String c' p'))))
      with (String (Base64.d1 a') (String (Base64.d2 a' b') (String (Base64.d3 b' c')
              (String (Base64.d4 c') (Base64.encode p'))))) in H.
    injection H as H1 H2 H3 H4 H.
    destruct (group_inj a b c a' b' c' H1 H2 H3 H4) as (-> & -> & ->).
    f_equal. f_equal. f_equal. apply IH; [simpl in Hp; lia | simpl in Hp'; lia | exact H].
Qed.

End Base64Injective.

(** X1.  Two sender identities of twelve characters or more get the same
    session key exactly when their first twelve characters are the same:
    beyond that prefix nothing is told apart, within it everything is. *)
Theorem generateSessionId_collides_iff_same_first_twelve (p p' r r' : string)
    (Hp : String.length p = 12) (Hp' : String.length p' = 12) :
  generateSessionId (p ++ r) = generateSessionId (p' ++ r') <-> p = p'.
Proof.
  rewrite !generateSessionId_of_first_twelve by assumption. split.
  - intros H. injection H as H. apply (encode_inj3 4); assumption.
  - now intros ->.
Qed.

Lemma generateSessionId_collides_iff_same_first_twelve_witness :
  generateSessionId ("whatsapp:+25" ++ "6700123456")
  <> generateSessionId ("whatsapp:+44" ++ "7911123456").
Proof.
  intros H.
  apply (generateSessionId_collides_iff_same_first_twelve
           "whatsapp:+25" "whatsapp:+44" "6700123456" "7911123456" eq_refl eq_refl) in H.
  discriminate H.
Defined.

(* ------------------------------------------------------------------ *)
(** ** The two payload validators                                      *)
(* ------------------------------------------------------------------ *)

Section TwoValidators.
Import RequestValidator.

Lemma outcome_errorHandler_validateTwilioWebhook payload :
  outcome (ErrorHandler.validateTwilioWebhook payload) = Returned tt <->
  truthyValue (From payload) = true /\ truthyValue (Body payload) = true
  /\ phoneRegex (toStringValue (From payload)) = true.
Proof.
  unfold ErrorHandler.validateTwilioWebhook. cbv zeta.
  destruct (truthyValue (From payload)); cbn [negb];
    [|split; [intros H; discriminate H | intros (H & _); discriminate H]].
  destruct (truthyValue (Body payload)); cbn [negb];
    [|split; [intros H; discriminate H | intros (_ & H & _); discriminate H]].
  destruct (phoneRegex _); cbn [negb];
    [|split; [intros H; discriminate H | intros (_ & _ & H); discriminate H]].
  split; [intros _; repeat split | reflexivity].
Qed.

End TwoValidators.

(** X29.  Of the two validators of the webhook payload, the one of
    [requestValidator.ts] is the stricter: whatever it lets through,
    [validateTwilioWebhook] of [errorHandler.ts] lets through as well, while
    a payload whose [Body] is not a string passes the latter only. *)
Theorem validateTwilioWebhookPayload_stricter (payload : RequestValidator.Payload)
    (Hvalid : outcome (RequestValidator.validateTwilioWebhookPayload payload) = Returned tt) :
  outcome (ErrorHandler.validateTwilioWebhook payload) = Returned tt
  /\ (outcome (ErrorHandler.validateTwilioWebhook numericBody) = Returned tt
      /\ outcome (RequestValidator.validateTwilioWebhookPayload numericBody)
         = Thrown "Message body must be a string").
Proof.
  split; [|split; reflexivity].
  apply outcome_errorHandler_validateTwilioWebhook.
  apply outcome_validateTwilioWebhookPayload in Hvalid as (HF & HB & Hre & _).
  auto.
Qed.

Lemma validateTwilioWebhookPayload_stricter_witness :
  outcome (ErrorHandler.validateTwilioWebhook
             {| RequestValidator.From := RequestValidator.JString "whatsapp:+256700123456";
                RequestValidator.Body := RequestValidator.JString "food";
                RequestValidator.MessageSid := RequestValidator.JUndefined;
                RequestValidator.AccountSid := RequestValidator.JUndefined |})
  = Returned tt.
Proof.
  refine (proj1 (validateTwilioWebhookPayload_stricter _ _)).
  vm_compute. reflexivity.
Defined.
